(** * OpenVROpenGLWidget: a shallow embedding of [COpenVROpenGLWidget]

    The widget drives a head-mounted display from a Qt OpenGL widget.  The
    development follows [OpenVROpenGLWidget.cpp] function by function:

    - [float] is IEEE-754 binary32, taken from the Standard Library's
      [SpecFloat] with precision 24 and maximal exponent 128;
    - the OpenVR runtime, the OpenGL driver and the host window are an
      explicit [Platform] record holding the answers they give;
    - every call that leaves the widget (OpenGL, compositor, dialogs, the
      pure virtual scene methods) is recorded as an [Event];
    - a null pointer that the C++ code would dereference ends the run with
      a [Crash];
    - the widget's [LoadModel] takes from the platform the answer each of
      its two polling loops ends with; the loops themselves, the shaders
      and the OpenGL calls of [CRenderModel] are in [Detail];
    - Qt's linear algebra is an interface, [QtMath]; where a property
      depends on its arithmetic, it is stated for Qt's formulas in
      binary32, [PlainQt], with the C library's [cosf] and [sinf] as a
      parameter. *)

From Stdlib Require Import ZArith List String Ascii Bool Lia DecimalString.
From Stdlib Require Import Sorting.Permutation.
From Stdlib Require Import Floats.SpecFloat.
From stdpp Require Import base decidable numbers functions.
Import ListNotations.
Local Open Scope Z_scope.

(** ** Single-precision floats *)

Module F32.

Definition prec : Z := 24.
Definition emax : Z := 128.

Definition float : Type := spec_float.

Definition of_Z (z : Z) : float := binary_normalize prec emax z 0 false.

Definition add : float -> float -> float := SFadd prec emax.
Definition sub : float -> float -> float := SFsub prec emax.
Definition mul : float -> float -> float := SFmul prec emax.
Definition div : float -> float -> float := SFdiv prec emax.
Definition opp : float -> float := SFopp.
Definition eqb : float -> float -> bool := SFeqb.

(** A decimal literal [num/den] written with the [f] suffix: the nearest
    binary32 value, which correctly rounded division delivers. *)
Definition lit (num den : Z) : float := div (of_Z num) (of_Z den).

Definition zero : float := S754_zero false.
Definition one : float := of_Z 1.

Definition float_eq_dec (x y : float) : {x = y} + {x <> y}.
Proof. repeat decide equality. Defined.

End F32.

Abbreviation float := F32.float.

#[global] Instance float_eq_decision : EqDecision float := F32.float_eq_dec.

(** ** Vectors and matrices *)

(** [QVector3D]: three floats. *)
Record QVector3D : Type := mkQVector3D { vx : float; vy : float; vz : float }.

(** [QVector3D::operator+=] adds component by component. *)
Definition QVector3D_add (a b : QVector3D) : QVector3D :=
  mkQVector3D (F32.add (vx a) (vx b)) (F32.add (vy a) (vy b)) (F32.add (vz a) (vz b)).

(** [QQuaternion]: scalar part and vector part. *)
Record QQuaternion : Type := mkQQuaternion { qw : float; qx : float; qy : float; qz : float }.

(** One row [float[4]] of a matrix. *)
Record Row4 : Type := mkRow4 { e0 : float; e1 : float; e2 : float; e3 : float }.

Definition row_at (r : Row4) (j : nat) : float :=
  match j with
  | O => e0 r
  | 1%nat => e1 r
  | 2%nat => e2 r
  | _ => e3 r
  end.

(** [vr::HmdMatrix34_t]: [float m[3][4]]. *)
Record HmdMatrix34_t : Type := mkHmdMatrix34 { m34_r0 : Row4; m34_r1 : Row4; m34_r2 : Row4 }.

(** [vr::HmdMatrix44_t]: [float m[4][4]]. *)
Record HmdMatrix44_t : Type :=
  mkHmdMatrix44 { m44_r0 : Row4; m44_r1 : Row4; m44_r2 : Row4; m44_r3 : Row4 }.

(** [mat.m[i][j]] for both SDK matrix types. *)
Definition m34 (mat : HmdMatrix34_t) (i j : nat) : float :=
  match i with
  | O => row_at (m34_r0 mat) j
  | 1%nat => row_at (m34_r1 mat) j
  | _ => row_at (m34_r2 mat) j
  end.

Definition m44 (mat : HmdMatrix44_t) (i j : nat) : float :=
  match i with
  | O => row_at (m44_r0 mat) j
  | 1%nat => row_at (m44_r1 mat) j
  | 2%nat => row_at (m44_r2 mat) j
  | _ => row_at (m44_r3 mat) j
  end.

(** [QMatrix4x4], seen through its row-major interface: the sixteen-argument
    constructor takes the entries row by row and [operator()(row, column)]
    reads them back. *)
Record QMatrix4x4 : Type :=
  mkQMatrix4x4 { q_r0 : Row4; q_r1 : Row4; q_r2 : Row4; q_r3 : Row4 }.

Definition QMatrix4x4_of
    (m11 m12 m13 m14 m21 m22 m23 m24 m31 m32 m33 m34 m41 m42 m43 m44 : float)
    : QMatrix4x4 :=
  mkQMatrix4x4 (mkRow4 m11 m12 m13 m14) (mkRow4 m21 m22 m23 m24)
               (mkRow4 m31 m32 m33 m34) (mkRow4 m41 m42 m43 m44).

Definition q_at (m : QMatrix4x4) (i j : nat) : float :=
  match i with
  | O => row_at (q_r0 m) j
  | 1%nat => row_at (q_r1 m) j
  | 2%nat => row_at (q_r2 m) j
  | _ => row_at (q_r3 m) j
  end.

(** The default constructor builds the identity. *)
Definition QMatrix4x4_identity : QMatrix4x4 :=
  QMatrix4x4_of F32.one F32.zero F32.zero F32.zero
                F32.zero F32.one F32.zero F32.zero
                F32.zero F32.zero F32.one F32.zero
                F32.zero F32.zero F32.zero F32.one.

#[global] Instance Row4_eq_decision : EqDecision Row4.
Proof. solve_decision. Defined.
#[global] Instance QMatrix4x4_eq_decision : EqDecision QMatrix4x4.
Proof. solve_decision. Defined.
#[global] Instance QVector3D_eq_decision : EqDecision QVector3D.
Proof. solve_decision. Defined.

(** ** Matrix convention conversion *)

(** [vrMatrixToQt(const vr::HmdMatrix34_t&)].  The last row is written
    [0.0, 0.0, 0.0, 1.0f]; the double zeros convert to positive float zero. *)
Definition vrMatrixToQt34 (mat : HmdMatrix34_t) : QMatrix4x4 :=
  QMatrix4x4_of
    (m34 mat 0 0) (m34 mat 0 1) (m34 mat 0 2) (m34 mat 0 3)
    (m34 mat 1 0) (m34 mat 1 1) (m34 mat 1 2) (m34 mat 1 3)
    (m34 mat 2 0) (m34 mat 2 1) (m34 mat 2 2) (m34 mat 2 3)
    F32.zero F32.zero F32.zero (F32.lit 1 1).

(** [vrMatrixToQt(const vr::HmdMatrix44_t&)]. *)
Definition vrMatrixToQt44 (mat : HmdMatrix44_t) : QMatrix4x4 :=
  QMatrix4x4_of
    (m44 mat 0 0) (m44 mat 0 1) (m44 mat 0 2) (m44 mat 0 3)
    (m44 mat 1 0) (m44 mat 1 1) (m44 mat 1 2) (m44 mat 1 3)
    (m44 mat 2 0) (m44 mat 2 1) (m44 mat 2 2) (m44 mat 2 3)
    (m44 mat 3 0) (m44 mat 3 1) (m44 mat 3 2) (m44 mat 3 3).

(** The top three rows of a 4x4 SDK matrix. *)
Definition top_rows (mat : HmdMatrix44_t) : HmdMatrix34_t :=
  mkHmdMatrix34 (m44_r0 mat) (m44_r1 mat) (m44_r2 mat).

(** ** The OpenVR SDK types the widget uses *)

(** [vr::EVREye]; the widget's own [enum Eye { Left, Right }] has the same
    two values and also indexes the two hands. *)
Inductive Eye : Type := Left | Right.

#[global] Instance Eye_eq_decision : EqDecision Eye.
Proof. solve_decision. Defined.

(** [static_cast<Eye>(eye)] for the loop counter of [for (eye = 0; eye < 2; eye++)]. *)
Definition both_eyes : list Eye := [Left; Right].

(** [vr::ETrackedDeviceClass]. *)
Inductive ETrackedDeviceClass : Type :=
| TrackedDeviceClass_Invalid
| TrackedDeviceClass_HMD
| TrackedDeviceClass_Controller
| TrackedDeviceClass_GenericTracker
| TrackedDeviceClass_TrackingReference
| TrackedDeviceClass_DisplayRedirect.

#[global] Instance ETrackedDeviceClass_eq_decision : EqDecision ETrackedDeviceClass.
Proof. solve_decision. Defined.

(** [vr::ETrackedControllerRole]. *)
Inductive ETrackedControllerRole : Type :=
| TrackedControllerRole_Invalid
| TrackedControllerRole_LeftHand
| TrackedControllerRole_RightHand
| TrackedControllerRole_OptOut
| TrackedControllerRole_Treadmill
| TrackedControllerRole_Stylus.

#[global] Instance ETrackedControllerRole_eq_decision : EqDecision ETrackedControllerRole.
Proof. solve_decision. Defined.

(** [vr::EVRInitError]: success, the generic failure the code starts from,
    and every other code of the SDK. *)
Inductive EVRInitError : Type :=
| VRInitError_None
| VRInitError_Unknown
| VRInitError_Code (code : positive).

#[global] Instance EVRInitError_eq_decision : EqDecision EVRInitError.
Proof. solve_decision. Defined.

(** [vr::EVRRenderModelError]; [Loading] is what the polling loops wait out. *)
Inductive EVRRenderModelError : Type :=
| VRRenderModelError_None
| VRRenderModelError_Loading
| VRRenderModelError_Code (code : positive).

#[global] Instance EVRRenderModelError_eq_decision : EqDecision EVRRenderModelError.
Proof. solve_decision. Defined.

(** [vr::TrackedDevicePose_t], the two fields the widget reads. *)
Record TrackedDevicePose_t : Type := mkPose {
  mDeviceToAbsoluteTracking : HmdMatrix34_t;
  bPoseIsValid : bool
}.

(** [vr::RenderModel_t], the fields the widget reads. *)
Record RenderModel_t : Type := mkRenderModel_t {
  unVertexCount : Z;
  unTriangleCount : Z;
  diffuseTextureId : Z
}.

Definition k_unMaxTrackedDeviceCount : nat := 64.
Definition k_unTrackedDeviceIndex_Hmd : nat := 0.

(** Handles whose only observable property is being non-null. *)
Inductive IVRSystem : Type := VRSystemHandle.
Inductive IVRCompositor : Type := VRCompositorHandle.

Definition NEAR_CLIP : float := F32.lit 1 10.
Definition FAR_CLIP : float := F32.lit 10000 1.

Definition INITIAL_ROTATION : QVector3D := mkQVector3D (F32.lit 0 1) (F32.lit 180 1) (F32.lit 0 1).
Definition INITIAL_TRANSLATION : QVector3D := mkQVector3D (F32.lit 0 1) (F32.lit 0 1) (F32.lit 0 1).

(** ** OpenGL objects *)

Inductive Attachment : Type := NoAttachment | CombinedDepthStencil | Depth.

#[global] Instance Attachment_eq_decision : EqDecision Attachment.
Proof. solve_decision. Defined.

Definition GL_RGBA8 : Z := 32856.

(** [QOpenGLFramebufferObjectFormat]. *)
Record QOpenGLFramebufferObjectFormat : Type := mkFormat {
  attachment : Attachment;
  internalTextureFormat : Z;
  samples : Z
}.

(** A default-constructed format: no attachment, RGBA8, no multisampling. *)
Definition default_format : QOpenGLFramebufferObjectFormat := mkFormat NoAttachment GL_RGBA8 0.

Definition setAttachment (a : Attachment) (f : QOpenGLFramebufferObjectFormat) :=
  mkFormat a (internalTextureFormat f) (samples f).
Definition setInternalTextureFormat (t : Z) (f : QOpenGLFramebufferObjectFormat) :=
  mkFormat (attachment f) t (samples f).
Definition setSamples (n : Z) (f : QOpenGLFramebufferObjectFormat) :=
  mkFormat (attachment f) (internalTextureFormat f) n.

Record QSize : Type := mkQSize { width : Z; height : Z }.

(** A framebuffer object as the driver made it.  [fbo_name] counts the
    objects created in this context, so two objects never share it. *)
Record QOpenGLFramebufferObject : Type := mkFbo {
  fbo_name : nat;
  fbo_width : Z;
  fbo_height : Z;
  fbo_format : QOpenGLFramebufferObjectFormat;
  fbo_isValid : bool;
  fbo_texture : Z
}.

Inductive GLcap : Type := GL_DEPTH_TEST | GL_MULTISAMPLE.

(** [static_cast<int>] of a [uint32_t]: two's complement wrap-around. *)
Definition int_of_uint32 (u : Z) : Z :=
  let v := u mod 2 ^ 32 in
  if v <? 2 ^ 31 then v else v - 2 ^ 32.

(** ** The platform: what the SDK, the driver and the window answer *)

Record Platform : Type := mkPlatform {
  VR_IsRuntimeInstalled : bool;
  VR_IsHmdPresent : bool;
  (** [VR_Init]: the returned pointer and the error written through [peError]. *)
  VR_Init : option IVRSystem * EVRInitError;
  VR_GetVRInitErrorAsEnglishDescription : EVRInitError -> string;
  VRCompositor : option IVRCompositor;
  (** [GetRecommendedRenderTargetSize]: two [uint32_t]. *)
  GetRecommendedRenderTargetSize : Z * Z;
  GetEyeToHeadTransform : Eye -> HmdMatrix34_t;
  GetProjectionMatrix : Eye -> float -> float -> HmdMatrix44_t;
  (** The poses [WaitGetPoses] writes into the caller's array. *)
  WaitGetPoses : nat -> TrackedDevicePose_t;
  GetTrackedDeviceClass : nat -> ETrackedDeviceClass;
  GetControllerRoleForTrackedDeviceIndex : nat -> ETrackedControllerRole;
  (** [GetStringTrackedDeviceProperty] for [Prop_RenderModelName_String]:
      required buffer length (0 when there is none) and the text. *)
  RenderModelName_length : nat -> Z;
  RenderModelName_text : nat -> string;
  (** The answer [LoadRenderModel_Async] settles on once it stops saying
      [Loading], and likewise for [LoadTexture_Async]. *)
  LoadRenderModel_Async : string -> EVRRenderModelError * RenderModel_t;
  LoadTexture_Async : Z -> EVRRenderModelError;
  GetRenderModelErrorNameFromEnum : EVRRenderModelError -> string;
  (** The driver: whether a framebuffer object of this name, size and
      format is complete, and the texture it gets. *)
  gl_framebuffer_complete : nat -> Z -> Z -> QOpenGLFramebufferObjectFormat -> bool;
  gl_framebuffer_texture : nat -> Z;
  (** [QWidget::width()], [QWidget::height()] and [windowTitle()]. *)
  widget_width : Z;
  widget_height : Z;
  windowTitle : string;
  (** [QString::arg(const QString&)] and [QString::arg(int)]: the format
      with its lowest-numbered place marker replaced by the argument. *)
  QString_arg : string -> string -> string;
  QString_arg_int : string -> Z -> string
}.

(** ** Qt's linear algebra, as an interface *)

(** The widget calls these Qt operations and never looks inside them. *)
Class QtMath : Type := {
  (** [operator*(const QMatrix4x4&, const QMatrix4x4&)] *)
  QMatrix4x4_mul : QMatrix4x4 -> QMatrix4x4 -> QMatrix4x4;
  (** [QMatrix4x4::inverted()] *)
  QMatrix4x4_inverted : QMatrix4x4 -> QMatrix4x4;
  (** [operator*(const QMatrix4x4&, const QVector3D&)] *)
  QMatrix4x4_map : QMatrix4x4 -> QVector3D -> QVector3D;
  (** [QMatrix4x4::rotate(const QQuaternion&)] *)
  QMatrix4x4_rotate : QMatrix4x4 -> QQuaternion -> QMatrix4x4;
  (** [QMatrix4x4::translate(const QVector3D&)] *)
  QMatrix4x4_translate : QMatrix4x4 -> QVector3D -> QMatrix4x4;
  (** [QQuaternion::fromEulerAngles(float pitch, float yaw, float roll)] *)
  QQuaternion_fromEulerAngles : float -> float -> float -> QQuaternion
}.

Declare Scope qmat_scope.
Delimit Scope qmat_scope with qmat.
Infix "*" := QMatrix4x4_mul : qmat_scope.

(** ** The scene: the pure virtual methods a subclass provides *)

(** What a subclass can reach of the widget's state: the public camera
    methods change exactly these two vectors. *)
Record Camera : Type := mkCamera {
  cam_translation : QVector3D;
  cam_rotations : QVector3D
}.

Class Scene : Type := {
  InitializeRendering : Camera -> Camera;
  UpdateRendering : Camera -> Camera;
  Render : Eye -> QMatrix4x4 -> QMatrix4x4 -> Camera -> Camera;
  InitializeInputs : Camera -> Camera;
  UpdateInputs : Camera -> Camera
}.

(** ** The widget's objects *)

(** [CEyeInfos]. *)
Record CEyeInfos : Type := mkCEyeInfos {
  m_projection : QMatrix4x4;
  m_view : QMatrix4x4;
  m_frameBuffer : option QOpenGLFramebufferObject;
  m_resolveBuffer : option QOpenGLFramebufferObject;
  m_size : QSize
}.

(** [CRenderModel], reduced to what [Draw] is told apart by. *)
Record CRenderModel : Type := mkCRenderModel {
  m_sModelName : string;
  m_unVertexCount : Z
}.

(** [SControllerInfos]. *)
Record SControllerInfos : Type := mkSControllerInfos {
  m_rmat4Pose : QMatrix4x4;
  m_pRenderModel : option CRenderModel;
  m_bShowController : bool
}.

(** The default member initialisers of [SControllerInfos]. *)
Definition SControllerInfos_default : SControllerInfos :=
  mkSControllerInfos QMatrix4x4_identity None false.

(** [COpenVROpenGLWidget]: its data members, and the number of framebuffer
    objects made so far in the OpenGL context it inherits. *)
Record Widget : Type := mkWidget {
  m_vrSystem : option IVRSystem;
  m_trackedDevicePose : nat -> TrackedDevicePose_t;
  m_matrixDevicePose : nat -> QMatrix4x4;
  m_hmdPose : QMatrix4x4;
  m_eyeInfos : Eye -> option CEyeInfos;
  m_controllers : Eye -> SControllerInfos;
  m_cameraTranslation : QVector3D;
  m_cameraRotations : QVector3D;
  gl_framebuffers : nat
}.

Definition set_vrSystem (v : option IVRSystem) (w : Widget) : Widget :=
  mkWidget v (m_trackedDevicePose w) (m_matrixDevicePose w) (m_hmdPose w) (m_eyeInfos w)
           (m_controllers w) (m_cameraTranslation w) (m_cameraRotations w) (gl_framebuffers w).
Definition set_trackedDevicePose (v : nat -> TrackedDevicePose_t) (w : Widget) : Widget :=
  mkWidget (m_vrSystem w) v (m_matrixDevicePose w) (m_hmdPose w) (m_eyeInfos w)
           (m_controllers w) (m_cameraTranslation w) (m_cameraRotations w) (gl_framebuffers w).
Definition set_matrixDevicePose (v : nat -> QMatrix4x4) (w : Widget) : Widget :=
  mkWidget (m_vrSystem w) (m_trackedDevicePose w) v (m_hmdPose w) (m_eyeInfos w)
           (m_controllers w) (m_cameraTranslation w) (m_cameraRotations w) (gl_framebuffers w).
Definition set_hmdPose (v : QMatrix4x4) (w : Widget) : Widget :=
  mkWidget (m_vrSystem w) (m_trackedDevicePose w) (m_matrixDevicePose w) v (m_eyeInfos w)
           (m_controllers w) (m_cameraTranslation w) (m_cameraRotations w) (gl_framebuffers w).
Definition set_eyeInfos (v : Eye -> option CEyeInfos) (w : Widget) : Widget :=
  mkWidget (m_vrSystem w) (m_trackedDevicePose w) (m_matrixDevicePose w) (m_hmdPose w) v
           (m_controllers w) (m_cameraTranslation w) (m_cameraRotations w) (gl_framebuffers w).
Definition set_controllers (v : Eye -> SControllerInfos) (w : Widget) : Widget :=
  mkWidget (m_vrSystem w) (m_trackedDevicePose w) (m_matrixDevicePose w) (m_hmdPose w)
           (m_eyeInfos w) v (m_cameraTranslation w) (m_cameraRotations w) (gl_framebuffers w).
Definition set_cameraTranslation (v : QVector3D) (w : Widget) : Widget :=
  mkWidget (m_vrSystem w) (m_trackedDevicePose w) (m_matrixDevicePose w) (m_hmdPose w)
           (m_eyeInfos w) (m_controllers w) v (m_cameraRotations w) (gl_framebuffers w).
Definition set_cameraRotations (v : QVector3D) (w : Widget) : Widget :=
  mkWidget (m_vrSystem w) (m_trackedDevicePose w) (m_matrixDevicePose w) (m_hmdPose w)
           (m_eyeInfos w) (m_controllers w) (m_cameraTranslation w) v (gl_framebuffers w).
Definition set_gl_framebuffers (v : nat) (w : Widget) : Widget :=
  mkWidget (m_vrSystem w) (m_trackedDevicePose w) (m_matrixDevicePose w) (m_hmdPose w)
           (m_eyeInfos w) (m_controllers w) (m_cameraTranslation w) (m_cameraRotations w) v.

Definition camera_of (w : Widget) : Camera :=
  mkCamera (m_cameraTranslation w) (m_cameraRotations w).
Definition set_camera (c : Camera) (w : Widget) : Widget :=
  set_cameraRotations (cam_rotations c) (set_cameraTranslation (cam_translation c) w).

(** ** Observable calls *)

Inductive Event : Type :=
| E_initializeOpenGLFunctions
| E_glEnable (cap : GLcap)
| E_glDisable (cap : GLcap)
| E_glClearColor (r g b a : float)
| E_glClear
| E_glViewport (x y w h : Z)
| E_newFramebufferObject (fbo : QOpenGLFramebufferObject)
| E_bind (fbo : QOpenGLFramebufferObject)
| E_release (fbo : QOpenGLFramebufferObject)
| E_blitFramebuffer (target source : option QOpenGLFramebufferObject) (w h : Z)
| E_newShaderProgram (name : string)
| E_Draw (model : CRenderModel) (mvp : QMatrix4x4)
| E_FreeRenderModel
| E_FreeTexture
| E_InitializeRendering
| E_UpdateRendering
| E_Render (eye : Eye) (view projection : QMatrix4x4)
| E_InitializeInputs
| E_UpdateInputs
| E_VR_Init
| E_VR_Shutdown
| E_WaitGetPoses
| E_Submit (eye : Eye) (texture : Z)
| E_qDebug (msg : string)
| E_qCritical (msg : string)
| E_QMessageBox_critical (title msg : string)
| E_update.

(** ** Runs of the widget's methods *)

(** The null pointer a run stopped at. *)
Inductive Fault : Type :=
| NullVRSystem
| NullCompositor
| NullEyeInfos (eye : Eye)
| NullFramebuffer
| NullRenderModel (hand : Eye).

Inductive Outcome (A : Type) : Type :=
| Done (a : A) (w : Widget) (log : list Event)
| Crash (f : Fault).
Arguments Done {A} a w log.
Arguments Crash {A} f.

Definition M (A : Type) : Type := Widget -> Outcome A.

Definition ret {A : Type} (a : A) : M A := fun w => Done a w [].

(** The outcome [o] of a continuation, after [l] has already been logged. *)
Definition prepend {A : Type} (l : list Event) (o : Outcome A) : Outcome A :=
  match o with
  | Crash f => Crash f
  | Done a w l' => Done a w (l ++ l')
  end.

Definition bind {A B : Type} (m : M A) (k : A -> M B) : M B :=
  fun w =>
    match m w with
    | Crash f => Crash f
    | Done a w1 l1 => prepend l1 (k a w1)
    end.

Notation "x <- m ;; k" := (bind m (fun x => k))
  (at level 100, m at next level, k at level 200, right associativity).
Notation "m ;; k" := (bind m (fun _ => k))
  (at level 100, k at level 200, right associativity).

Definition gets {A : Type} (f : Widget -> A) : M A := fun w => Done (f w) w [].
Definition modify (f : Widget -> Widget) : M unit := fun w => Done tt (f w) [].
Definition emit (e : Event) : M unit := fun w => Done tt w [e].
Definition crash {A : Type} (f : Fault) : M A := fun _ => Crash f.

(** [p->...] on a pointer that may be null. *)
Definition deref {A : Type} (f : Fault) (p : option A) : M A :=
  match p with
  | Some a => ret a
  | None => crash f
  end.

(** [for (...) body] over the listed indices, in order. *)
Fixpoint for_each {I : Type} (l : list I) (body : I -> M unit) : M unit :=
  match l with
  | [] => ret tt
  | i :: l' => body i ;; for_each l' body
  end.

Definition when (b : bool) (m : M unit) : M unit := if b then m else ret tt.

Definition is_done {A : Type} (o : Outcome A) : bool :=
  match o with Done _ _ _ => true | Crash _ => false end.

Definition final_widget {A : Type} (o : Outcome A) : option Widget :=
  match o with Done _ w _ => Some w | Crash _ => None end.

(** ** [CEyeInfos] *)

(** The framebuffer object the driver makes when asked for the [n]-th one. *)
Definition driver_fbo (p : Platform) (n : nat) (w h : Z)
    (format : QOpenGLFramebufferObjectFormat) : QOpenGLFramebufferObject :=
  mkFbo n w h format (gl_framebuffer_complete p n w h format) (gl_framebuffer_texture p n).

(** [new QOpenGLFramebufferObject(width, height, format)]: the driver names
    the object, and [new] never yields a null pointer. *)
Definition new_QOpenGLFramebufferObject (p : Platform) (w h : Z)
    (format : QOpenGLFramebufferObjectFormat) : M QOpenGLFramebufferObject :=
  n <- gets gl_framebuffers ;;
  let fbo := driver_fbo p n w h format in
  modify (set_gl_framebuffers (S n)) ;;
  emit (E_newFramebufferObject fbo) ;;
  ret fbo.

(** [CEyeInfos::CEyeInfos(const QSize&)]. *)
Definition CEyeInfos_new (p : Platform) (i_eyeSize : QSize) : M CEyeInfos :=
  emit E_initializeOpenGLFunctions ;;
  let buffFormat :=
    setSamples 4 (setInternalTextureFormat GL_RGBA8 (setAttachment Depth default_format)) in
  frameBuffer <- new_QOpenGLFramebufferObject p (width i_eyeSize) (height i_eyeSize) buffFormat ;;
  let resolveFormat := setSamples 0 (setInternalTextureFormat GL_RGBA8 default_format) in
  resolveBuffer <- new_QOpenGLFramebufferObject p (width i_eyeSize) (height i_eyeSize) resolveFormat ;;
  ret (mkCEyeInfos QMatrix4x4_identity QMatrix4x4_identity
                   (Some frameBuffer) (Some resolveBuffer) i_eyeSize).

(** [CEyeInfos::SetSurface]. *)
Definition SetSurface (e : CEyeInfos) : M unit :=
  emit (E_glViewport 0 0 (width (m_size e)) (height (m_size e))) ;;
  emit (E_glEnable GL_MULTISAMPLE) ;;
  fb <- deref NullFramebuffer (m_frameBuffer e) ;;
  emit (E_bind fb).

(** [CEyeInfos::UnsetSurface]. *)
Definition UnsetSurface (e : CEyeInfos) : M unit :=
  fb <- deref NullFramebuffer (m_frameBuffer e) ;;
  emit (E_release fb) ;;
  emit (E_blitFramebuffer (m_resolveBuffer e) (m_frameBuffer e)
                          (width (m_size e)) (height (m_size e))).

(** [CEyeInfos::Texture]. *)
Definition Texture (e : CEyeInfos) : M Z :=
  rb <- deref NullFramebuffer (m_resolveBuffer e) ;;
  ret (fbo_texture rb).

(** [CEyeInfos::SetTransformMatrix]. *)
Definition SetTransformMatrix (i_view i_projection : QMatrix4x4) (e : CEyeInfos) : CEyeInfos :=
  mkCEyeInfos i_projection i_view (m_frameBuffer e) (m_resolveBuffer e) (m_size e).

Definition GetProjectionMatrix_eye (e : CEyeInfos) : QMatrix4x4 := m_projection e.
Definition GetViewMatrix (e : CEyeInfos) : QMatrix4x4 := m_view e.

(** [CEyeInfos::IsValid]. *)
Definition IsValid (e : CEyeInfos) : bool :=
  match m_frameBuffer e, m_resolveBuffer e with
  | Some fb, Some rb => fbo_isValid fb && fbo_isValid rb
  | _, _ => false
  end.

(** ** [CRenderModel] *)

Definition string_of_Z (z : Z) : string :=
  NilZero.string_of_int (Z.to_int z).

(** [CRenderModel::LoadModel] with the default [o_errorMessage = nullptr].
    Each of the two polling loops is replaced by the answer it ends with,
    which the platform holds and which is therefore not [Loading]; what
    follows each loop is the source's.  The loops themselves are in
    [Detail.LoadModel] below.  [InitModel] always returns [true]. *)
Definition LoadModel (p : Platform) (i_modelName : string) : M (option CRenderModel) :=
  let '(error, pModel) := LoadRenderModel_Async p i_modelName in
  if decide (error <> VRRenderModelError_None) then
    emit (E_qDebug
            (QString_arg p
               (QString_arg p "Unable to load render model %1 - %2" i_modelName)
               (GetRenderModelErrorNameFromEnum p error))) ;;
    ret None
  else
    let error := LoadTexture_Async p (diffuseTextureId pModel) in
    if decide (error <> VRRenderModelError_None) then
      emit (E_qDebug
              (QString_arg p
                 (QString_arg_int p "Unable to load render texture id:%1 for render model %2"
                                  (diffuseTextureId pModel))
                 i_modelName)) ;;
      emit E_FreeRenderModel ;;
      ret None
    else
      emit (E_newShaderProgram i_modelName) ;;
      let pRenderModel :=
        mkCRenderModel i_modelName (int_of_uint32 (unTriangleCount pModel * 3)) in
      emit E_FreeRenderModel ;;
      emit E_FreeTexture ;;
      ret (Some pRenderModel).

(** [CRenderModel::Draw]: one draw call with the given uniform matrix. *)
Definition Draw (model : CRenderModel) (i_mvpMatrix : QMatrix4x4) : M unit :=
  emit (E_Draw model i_mvpMatrix).

(** ** [COpenVROpenGLWidget] *)

(** The constructor.  [m_trackedDevicePose] is left uninitialised by the
    source and overwritten by [WaitGetPoses] before it is read; it starts
    here as all-zero invalid poses. *)
Definition COpenVROpenGLWidget : Widget :=
  let zero_row := mkRow4 F32.zero F32.zero F32.zero F32.zero in
  {| m_vrSystem := None;
     m_trackedDevicePose := fun _ => mkPose (mkHmdMatrix34 zero_row zero_row zero_row) false;
     m_matrixDevicePose := fun _ => QMatrix4x4_identity;
     m_hmdPose := QMatrix4x4_identity;
     m_eyeInfos := fun _ => None;
     m_controllers := fun _ => SControllerInfos_default;
     m_cameraTranslation := INITIAL_TRANSLATION;
     m_cameraRotations := INITIAL_ROTATION;
     gl_framebuffers := O |}.

(** The hand a controller's role selects, as both loops compute it. *)
Definition handIndex (role : ETrackedControllerRole) : Eye :=
  if decide (TrackedControllerRole_LeftHand = role) then Left else Right.

Section Methods.

Context {qt : QtMath} {scene : Scene}.

Local Open Scope qmat_scope.

(** A call of one of the scene's virtual methods. *)
Definition call_scene (e : Event) (f : Camera -> Camera) : M unit :=
  emit e ;;
  modify (fun w => set_camera (f (camera_of w)) w).

(** [TranslateEyes]. *)
Definition TranslateEyes (i_deltaX i_deltaY i_deltaZ : float) (w : Widget) : Widget :=
  let rollPitchYaw :=
    QMatrix4x4_rotate QMatrix4x4_identity
      (QQuaternion_fromEulerAngles (vx (m_cameraRotations w)) (vy (m_cameraRotations w))
                                   (vz (m_cameraRotations w))) in
  let translation := QMatrix4x4_map rollPitchYaw (mkQVector3D i_deltaX i_deltaY i_deltaZ) in
  set_cameraTranslation (QVector3D_add (m_cameraTranslation w) translation) w.

(** [ResetEyesPositions]. *)
Definition ResetEyesPositions (w : Widget) : Widget :=
  set_cameraTranslation INITIAL_TRANSLATION w.

(** [GetTranslations]. *)
Definition GetTranslations (w : Widget) : QVector3D := m_cameraTranslation w.

(** [RotateEyes]. *)
Definition RotateEyes (i_yaw i_pitch i_roll : float) (w : Widget) : Widget :=
  set_cameraRotations (QVector3D_add (m_cameraRotations w) (mkQVector3D i_yaw i_pitch i_roll)) w.

(** [ResetEyesRotations]. *)
Definition ResetEyesRotations (w : Widget) : Widget :=
  set_cameraRotations INITIAL_ROTATION w.

(** [GetRotations]. *)
Definition GetRotations (w : Widget) : QVector3D := m_cameraRotations w.

(** [GetControllerPose]. *)
Definition GetControllerPose (i_hand : Eye) (w : Widget) : QMatrix4x4 :=
  m_rmat4Pose (m_controllers w i_hand).

(** [GetCameraMatrix]. *)
Definition GetCameraMatrix (w : Widget) : QMatrix4x4 :=
  let cameraTransform :=
    QMatrix4x4_rotate QMatrix4x4_identity
      (QQuaternion_fromEulerAngles (vx (m_cameraRotations w)) (vy (m_cameraRotations w))
                                   (vz (m_cameraRotations w))) in
  QMatrix4x4_translate cameraTransform (m_cameraTranslation w).

(** [getTrackedDeviceString(i, vr::Prop_RenderModelName_String)]. *)
Definition getTrackedDeviceString (p : Platform) (i_device : nat) : M string :=
  _ <- (v <- gets m_vrSystem ;; deref NullVRSystem v) ;;
  let len := RenderModelName_length p i_device in
  if len =? 0 then ret EmptyString
  else ret (RenderModelName_text p i_device).

(** [InitializeVR]. *)
Definition InitializeVR (p : Platform) : M bool :=
  if negb (VR_IsRuntimeInstalled p) then
    let errMessage := "No VR runtime installed."%string in
    emit (E_qDebug errMessage) ;;
    emit (E_QMessageBox_critical (windowTitle p) errMessage) ;;
    ret false
  else if negb (VR_IsHmdPresent p) then
    let errMessage := "Any headset found."%string in
    emit (E_qDebug errMessage) ;;
    emit (E_QMessageBox_critical (windowTitle p) errMessage) ;;
    ret false
  else
    emit E_VR_Init ;;
    let initErr := snd (VR_Init p) in
    modify (set_vrSystem (fst (VR_Init p))) ;;
    if decide (initErr <> VRInitError_None) then
      modify (set_vrSystem None) ;;
      let errMessage :=
        ("Unable to init VR runtime: " ++ VR_GetVRInitErrorAsEnglishDescription p initErr)%string in
      emit (E_qDebug errMessage) ;;
      emit (E_QMessageBox_critical (windowTitle p) errMessage) ;;
      ret false
    else
      match VRCompositor p with
      | None =>
          let errMessage :=
            "Compositor initialization failed. See log file for details"%string in
          emit (E_qCritical errMessage) ;;
          emit (E_QMessageBox_critical (windowTitle p) errMessage) ;;
          emit E_VR_Shutdown ;;
          modify (set_vrSystem None) ;;
          ret false
      | Some _ => ret true
      end.

(** One turn of the loop of [InitializeEyesRendering]. *)
Definition create_eye (p : Platform) (eyeSize : QSize) (eye : Eye) (noErr : bool) : M bool :=
  e <- CEyeInfos_new p eyeSize ;;
  modify (fun w => set_eyeInfos (<[eye := Some e]> (m_eyeInfos w)) w) ;;
  e' <- (v <- gets (fun w => m_eyeInfos w eye) ;; deref (NullEyeInfos eye) v) ;;
  ret (noErr && IsValid e').

(** [InitializeEyesRendering]. *)
Definition InitializeEyesRendering (p : Platform) : M bool :=
  _ <- (v <- gets m_vrSystem ;; deref NullVRSystem v) ;;
  let eyeWidth := fst (GetRecommendedRenderTargetSize p) in
  let eyeHeight := snd (GetRecommendedRenderTargetSize p) in
  let eyeSize := mkQSize (int_of_uint32 eyeWidth) (int_of_uint32 eyeHeight) in
  let noErr := true in
  noErr <- create_eye p eyeSize Left noErr ;;
  noErr <- create_eye p eyeSize Right noErr ;;
  ret noErr.

(** The body of the loop of [InitializeControllers] for device [i]. *)
Definition init_controller (p : Platform) (i : nat) : M unit :=
  _ <- (v <- gets m_vrSystem ;; deref NullVRSystem v) ;;
  if decide (GetTrackedDeviceClass p i <> TrackedDeviceClass_Controller) then ret tt
  else
    controllerName <- getTrackedDeviceString p i ;;
    let hand := handIndex (GetControllerRoleForTrackedDeviceIndex p i) in
    model <- LoadModel p controllerName ;;
    modify (fun w =>
      let c := m_controllers w hand in
      set_controllers
        (<[hand := mkSControllerInfos (m_rmat4Pose c) model (m_bShowController c)]>
           (m_controllers w)) w) ;;
    modify (fun w =>
      let c := m_controllers w hand in
      set_controllers
        (<[hand := mkSControllerInfos (m_rmat4Pose c) (m_pRenderModel c) true]>
           (m_controllers w)) w).

(** [VRCompositor()->WaitGetPoses(m_trackedDevicePose, k_unMaxTrackedDeviceCount, NULL, 0)]. *)
Definition WaitGetPoses_call (p : Platform) : M unit :=
  _ <- deref NullCompositor (VRCompositor p) ;;
  emit E_WaitGetPoses ;;
  modify (set_trackedDevicePose (WaitGetPoses p)).

(** [InitializeControllers]. *)
Definition InitializeControllers (p : Platform) : M bool :=
  WaitGetPoses_call p ;;
  for_each (seq 0 k_unMaxTrackedDeviceCount) (init_controller p) ;;
  call_scene E_InitializeInputs InitializeInputs ;;
  ret true.

(** The first loop of [UpdatePositions], for one eye. *)
Definition update_eye (p : Platform) (eye : Eye) : M unit :=
  _ <- (v <- gets m_vrSystem ;; deref NullVRSystem v) ;;
  let view := QMatrix4x4_inverted (vrMatrixToQt34 (GetEyeToHeadTransform p eye)) in
  let projection := vrMatrixToQt44 (GetProjectionMatrix p eye NEAR_CLIP FAR_CLIP) in
  e <- (v <- gets (fun w => m_eyeInfos w eye) ;; deref (NullEyeInfos eye) v) ;;
  modify (fun w =>
    set_eyeInfos (<[eye := Some (SetTransformMatrix view projection e)]> (m_eyeInfos w)) w).

(** The second loop of [UpdatePositions], for device [nDevice]. *)
Definition update_device (p : Platform) (nDevice : nat) : M unit :=
  pose <- gets (fun w => m_trackedDevicePose w nDevice) ;;
  if bPoseIsValid pose then
    modify (fun w =>
      set_matrixDevicePose
        (<[nDevice := vrMatrixToQt34 (mDeviceToAbsoluteTracking pose)]>
           (m_matrixDevicePose w)) w) ;;
    _ <- (v <- gets m_vrSystem ;; deref NullVRSystem v) ;;
    match GetTrackedDeviceClass p nDevice with
    | TrackedDeviceClass_Controller =>
        let hand := handIndex (GetControllerRoleForTrackedDeviceIndex p nDevice) in
        modify (fun w =>
          let c := m_controllers w hand in
          set_controllers
            (<[hand := mkSControllerInfos
                         (vrMatrixToQt34 (mDeviceToAbsoluteTracking pose))
                         (m_pRenderModel c) (m_bShowController c)]>
               (m_controllers w)) w)
    | TrackedDeviceClass_HMD =>
        modify (fun w =>
          set_hmdPose
            (QMatrix4x4_inverted (m_matrixDevicePose w k_unTrackedDeviceIndex_Hmd)) w)
    | _ => ret tt
    end
  else ret tt.

(** [UpdatePositions]. *)
Definition UpdatePositions (p : Platform) : M unit :=
  for_each both_eyes (update_eye p) ;;
  WaitGetPoses_call p ;;
  for_each (seq 0 k_unMaxTrackedDeviceCount) (update_device p).

(** The controller part of [renderEye], for one hand. *)
Definition draw_controller (matVP : QMatrix4x4) (hand : Eye) : M unit :=
  c <- gets (fun w => m_controllers w hand) ;;
  if negb (m_bShowController c) then ret tt
  else
    model <- deref (NullRenderModel hand) (m_pRenderModel c) ;;
    Draw model (matVP * m_rmat4Pose c).

(** [renderEye]. *)
Definition renderEye (i_eye : Eye) : M unit :=
  emit E_glClear ;;
  emit (E_glEnable GL_DEPTH_TEST) ;;
  e <- (v <- gets (fun w => m_eyeInfos w i_eye) ;; deref (NullEyeInfos i_eye) v) ;;
  let projection := GetProjectionMatrix_eye e in
  hmdPose <- gets m_hmdPose ;;
  let view := GetViewMatrix e * hmdPose in
  let matVP := projection * view in
  for_each both_eyes (draw_controller matVP) ;;
  camera <- gets GetCameraMatrix ;;
  call_scene (E_Render i_eye (view * camera) projection)
             (Render i_eye (view * camera) projection).

(** The body of the first eye loop of [paintGL]. *)
Definition render_to_hmd (eye : Eye) : M unit :=
  e <- (v <- gets (fun w => m_eyeInfos w eye) ;; deref (NullEyeInfos eye) v) ;;
  SetSurface e ;;
  renderEye eye ;;
  e <- (v <- gets (fun w => m_eyeInfos w eye) ;; deref (NullEyeInfos eye) v) ;;
  UnsetSurface e.

(** The body of the second eye loop of [paintGL]. *)
Definition submit_eye (p : Platform) (eye : Eye) : M unit :=
  e <- (v <- gets (fun w => m_eyeInfos w eye) ;; deref (NullEyeInfos eye) v) ;;
  texture <- Texture e ;;
  _ <- deref NullCompositor (VRCompositor p) ;;
  emit (E_Submit eye texture).

(** The unconditional middle of [paintGL]: the mirror view in the window. *)
Definition render_mirror (p : Platform) : M unit :=
  emit (E_glClearColor (F32.lit 0 1) (F32.lit 0 1) (F32.lit 0 1) (F32.lit 1 1)) ;;
  emit (E_glViewport 0 0 (widget_width p) (widget_height p)) ;;
  emit (E_glDisable GL_MULTISAMPLE) ;;
  renderEye Right.

(** [paintGL]. *)
Definition paintGL (p : Platform) : M unit :=
  vrSystem <- gets m_vrSystem ;;
  when (bool_decide (vrSystem <> None))
    (UpdatePositions p ;;
     call_scene E_UpdateInputs UpdateInputs ;;
     emit (E_glClearColor (F32.lit 15 100) (F32.lit 15 100) (F32.lit 18 100) (F32.lit 1 1)) ;;
     call_scene E_UpdateRendering UpdateRendering ;;
     for_each both_eyes render_to_hmd) ;;
  render_mirror p ;;
  vrSystem <- gets m_vrSystem ;;
  when (bool_decide (vrSystem <> None))
    (for_each both_eyes (submit_eye p)) ;;
  emit E_update.

(** [initializeGL], without the [_DEBUG] logger. *)
Definition initializeGL (p : Platform) : M unit :=
  emit E_initializeOpenGLFunctions ;;
  emit (E_glEnable GL_DEPTH_TEST) ;;
  ok <- InitializeVR p ;;
  if negb ok then ret tt
  else
    ok <- InitializeEyesRendering p ;;
    if negb ok then ret tt
    else
      _ <- InitializeControllers p ;;
      call_scene E_InitializeRendering InitializeRendering.

End Methods.

(** ** The C library *)

(** [cosf] and [sinf] of the machine's C library, which Qt's quaternion
    code calls.  The C standard fixes their values at zero only. *)
Record Libm : Type := mkLibm {
  cosf : float -> float;
  sinf : float -> float
}.

(** ** An executable Qt for closed examples *)

(** The formulas of Qt's matrix and quaternion code for matrices that are
    not flagged as special, evaluated in binary32 one operation at a
    time.  [QQuaternion::fromEulerAngles] calls the C library's [cosf] and
    [sinf], which [Libm] stands for.  Qt takes shortcuts for matrices it
    has flagged and inverts in double precision, so the last bits of an
    inverse may differ. *)
Module PlainQt.

Local Open Scope nat_scope.

Definition tabulate (f : nat -> nat -> float) : QMatrix4x4 :=
  QMatrix4x4_of (f 0 0) (f 0 1) (f 0 2) (f 0 3)
                (f 1 0) (f 1 1) (f 1 2) (f 1 3)
                (f 2 0) (f 2 1) (f 2 2) (f 2 3)
                (f 3 0) (f 3 1) (f 3 2) (f 3 3).

Definition mul (a b : QMatrix4x4) : QMatrix4x4 :=
  tabulate (fun i j =>
    F32.add (F32.add (F32.add (F32.mul (q_at a i 0) (q_at b 0 j))
                              (F32.mul (q_at a i 1) (q_at b 1 j)))
                     (F32.mul (q_at a i 2) (q_at b 2 j)))
            (F32.mul (q_at a i 3) (q_at b 3 j))).

Definition det3 (m : QMatrix4x4) (r0 r1 r2 c0 c1 c2 : nat) : float :=
  F32.add
    (F32.sub
       (F32.mul (q_at m r0 c0)
                (F32.sub (F32.mul (q_at m r1 c1) (q_at m r2 c2))
                         (F32.mul (q_at m r1 c2) (q_at m r2 c1))))
       (F32.mul (q_at m r0 c1)
                (F32.sub (F32.mul (q_at m r1 c0) (q_at m r2 c2))
                         (F32.mul (q_at m r1 c2) (q_at m r2 c0)))))
    (F32.mul (q_at m r0 c2)
             (F32.sub (F32.mul (q_at m r1 c0) (q_at m r2 c1))
                      (F32.mul (q_at m r1 c1) (q_at m r2 c0)))).

Definition det4 (m : QMatrix4x4) : float :=
  F32.sub
    (F32.add
       (F32.sub (F32.mul (q_at m 0 0) (det3 m 1 2 3 1 2 3))
                (F32.mul (q_at m 0 1) (det3 m 1 2 3 0 2 3)))
       (F32.mul (q_at m 0 2) (det3 m 1 2 3 0 1 3)))
    (F32.mul (q_at m 0 3) (det3 m 1 2 3 0 1 2)).

(** The three indices other than [k]. *)
Definition others (k : nat) : nat * nat * nat :=
  match k with
  | 0 => (1, 2, 3)
  | 1 => (0, 2, 3)
  | 2 => (0, 1, 3)
  | _ => (0, 1, 2)
  end.

Definition cofactor (m : QMatrix4x4) (r c : nat) : float :=
  let '(r0, r1, r2) := others r in
  let '(c0, c1, c2) := others c in
  let d := det3 m r0 r1 r2 c0 c1 c2 in
  if Nat.even (r + c) then d else F32.opp d.

(** [inverted]: the identity when the determinant is zero. *)
Definition inverted (m : QMatrix4x4) : QMatrix4x4 :=
  let det := det4 m in
  if F32.eqb det F32.zero then QMatrix4x4_identity
  else tabulate (fun i j => F32.div (cofactor m j i) det).

(** [matrix * vector]: the affine image, divided by [w] unless [w] is 1. *)
Definition map (m : QMatrix4x4) (v : QVector3D) : QVector3D :=
  let coord i :=
    F32.add (F32.add (F32.add (F32.mul (vx v) (q_at m i 0)) (F32.mul (vy v) (q_at m i 1)))
                     (F32.mul (vz v) (q_at m i 2)))
            (q_at m i 3) in
  let w := coord 3 in
  if F32.eqb w F32.one then mkQVector3D (coord 0) (coord 1) (coord 2)
  else mkQVector3D (F32.div (coord 0) w) (F32.div (coord 1) w) (F32.div (coord 2) w).

(** The rotation matrix of a quaternion, as [QMatrix4x4::rotate] builds it. *)
Definition of_quaternion (q : QQuaternion) : QMatrix4x4 :=
  let f2x := F32.add (qx q) (qx q) in
  let f2y := F32.add (qy q) (qy q) in
  let f2z := F32.add (qz q) (qz q) in
  let f2xw := F32.mul f2x (qw q) in
  let f2yw := F32.mul f2y (qw q) in
  let f2zw := F32.mul f2z (qw q) in
  let f2xx := F32.mul f2x (qx q) in
  let f2xy := F32.mul f2x (qy q) in
  let f2xz := F32.mul f2x (qz q) in
  let f2yy := F32.mul f2y (qy q) in
  let f2yz := F32.mul f2y (qz q) in
  let f2zz := F32.mul f2z (qz q) in
  QMatrix4x4_of
    (F32.sub F32.one (F32.add f2yy f2zz)) (F32.sub f2xy f2zw) (F32.add f2xz f2yw) F32.zero
    (F32.add f2xy f2zw) (F32.sub F32.one (F32.add f2xx f2zz)) (F32.sub f2yz f2xw) F32.zero
    (F32.sub f2xz f2yw) (F32.add f2yz f2xw) (F32.sub F32.one (F32.add f2xx f2yy)) F32.zero
    F32.zero F32.zero F32.zero F32.one.

Definition rotate (m : QMatrix4x4) (q : QQuaternion) : QMatrix4x4 := mul m (of_quaternion q).

Definition translation (v : QVector3D) : QMatrix4x4 :=
  QMatrix4x4_of F32.one F32.zero F32.zero (vx v)
                F32.zero F32.one F32.zero (vy v)
                F32.zero F32.zero F32.one (vz v)
                F32.zero F32.zero F32.zero F32.one.

Definition translate (m : QMatrix4x4) (v : QVector3D) : QMatrix4x4 := mul m (translation v).

(** [float(M_PI / 180)], the factor of [qDegreesToRadians(float)]. *)
Definition radians_per_degree : float := S754_finite false 9370165 (-29).

Definition qDegreesToRadians (degrees : float) : float :=
  F32.mul degrees radians_per_degree.

(** The argument [fromEulerAngles] gives [cosf] and [sinf] for an angle
    in degrees: the angle in radians, times [0.5f]. *)
Definition half_angle (degrees : float) : float :=
  F32.mul (qDegreesToRadians degrees) (F32.lit 5 10).

(** [QQuaternion::fromEulerAngles], with the C library [lm]. *)
Definition fromEulerAngles (lm : Libm) (pitch yaw roll : float) : QQuaternion :=
  let pitch := half_angle pitch in
  let yaw := half_angle yaw in
  let roll := half_angle roll in
  let c1 := cosf lm yaw in
  let s1 := sinf lm yaw in
  let c2 := cosf lm roll in
  let s2 := sinf lm roll in
  let c3 := cosf lm pitch in
  let s3 := sinf lm pitch in
  let c1c2 := F32.mul c1 c2 in
  let s1s2 := F32.mul s1 s2 in
  mkQQuaternion
    (F32.add (F32.mul c1c2 c3) (F32.mul s1s2 s3))
    (F32.add (F32.mul c1c2 s3) (F32.mul s1s2 c3))
    (F32.sub (F32.mul (F32.mul s1 c2) c3) (F32.mul (F32.mul c1 s2) s3))
    (F32.sub (F32.mul (F32.mul c1 s2) c3) (F32.mul (F32.mul s1 c2) s3)).

(** Qt on a machine whose C library is [lm]. *)
Definition qt_with (lm : Libm) : QtMath :=
  {| QMatrix4x4_mul := mul;
     QMatrix4x4_inverted := inverted;
     QMatrix4x4_map := map;
     QMatrix4x4_rotate := rotate;
     QMatrix4x4_translate := translate;
     QQuaternion_fromEulerAngles := fromEulerAngles lm |}.

(** A C library for the closed examples: cosine and sine by reduction
    of the argument modulo pi/2 and Taylor series, in fixed point with 128
    fractional bits, rounded once to binary32. *)
Module Series.

Local Open Scope Z_scope.

(** An integer [v] stands for [v / 2^frac]; [guard] further bits are kept
    while an argument as large as 2^128 is reduced. *)
Definition frac : Z := 128.
Definition guard : Z := 160.

(** The arc tangent of [1/n], [sum_k (-1)^k / ((2k+1) n^(2k+1))], from
    term [k] on; [power] is [scale / n^(2k+1)]. *)
Fixpoint atan_inv_from (fuel : nat) (n k power acc : Z) : Z :=
  match fuel with
  | O => acc
  | S fuel' =>
      if power =? 0 then acc
      else
        let term := power / (2 * k + 1) in
        atan_inv_from fuel' n (k + 1) (power / (n * n))
                      (if Z.even k then acc + term else acc - term)
  end.

Definition atan_inv (scale n : Z) : Z := atan_inv_from 400 n 0 (scale / n) 0.

(** pi/2 by Machin's formula, pi/4 = 4 atan(1/5) - atan(1/239). *)
Definition half_pi_at (scale : Z) : Z :=
  2 * (4 * atan_inv scale 5 - atan_inv scale 239).

Definition half_pi : Z := Eval vm_compute in half_pi_at (2 ^ (frac + guard)).

(** The Taylor series of the cosine ([k = 0], first term 1) and of the
    sine ([k = 1], first term [r]); [r2] is the square of [r]. *)
Fixpoint taylor_from (fuel : nat) (r2 k term : Z) (positive : bool) (acc : Z) : Z :=
  match fuel with
  | O => acc
  | S fuel' =>
      if term =? 0 then acc
      else
        taylor_from fuel' r2 (k + 2)
                    (term * r2 / 2 ^ frac / ((k + 1) * (k + 2)))
                    (negb positive)
                    (if positive then acc + term else acc - term)
  end.

Definition cos_fixed (r : Z) : Z := taylor_from 100 (r * r / 2 ^ frac) 0 (2 ^ frac) true 0.
Definition sin_fixed (r : Z) : Z := taylor_from 100 (r * r / 2 ^ frac) 1 r true 0.

(** [m * 2^e = k * pi/2 + r] with [r] between -pi/4 and pi/4: [k mod 4]
    and [r]. *)
Definition reduce (m e : Z) : Z * Z :=
  let x := m * 2 ^ (e + frac + guard) in
  let k := (2 * x + half_pi) / (2 * half_pi) in
  (k mod 4, (x - k * half_pi) / 2 ^ guard).

Definition round (v : Z) : float := binary_normalize F32.prec F32.emax v (- frac) false.

Definition signed (s : bool) (m : positive) : Z := if s then Z.neg m else Z.pos m.

Definition cos (x : float) : float :=
  match x with
  | S754_zero _ => F32.one
  | S754_finite s m e =>
      let '(q, r) := reduce (signed s m) e in
      round (match q with
             | 0 => cos_fixed r
             | 1 => - sin_fixed r
             | 2 => - cos_fixed r
             | _ => sin_fixed r
             end)
  | _ => S754_nan
  end.

(** Below 2^-12 the sine of [x] rounds to [x]. *)
Definition sin (x : float) : float :=
  match x with
  | S754_zero _ => x
  | S754_finite s m e =>
      if Z.pos (digits2_pos m) + e <? -12 then x
      else
        let '(q, r) := reduce (signed s m) e in
        round (match q with
               | 0 => sin_fixed r
               | 1 => cos_fixed r
               | 2 => - sin_fixed r
               | _ => - cos_fixed r
               end)
  | _ => S754_nan
  end.

End Series.

Definition libm : Libm := {| cosf := Series.cos; sinf := Series.sin |}.

(** The cosine of the [float] nearest to pi/2, correctly rounded: about
    -4.37e-8, not zero. *)
Definition cosf_half_pi : float := S754_finite true 12303662 (-48).

(** A C library that gives [cosf] and [sinf] the values the C standard
    asks for at zero, and at [half_angle 180], the [float] nearest to
    pi/2, the correctly rounded ones. *)
Definition usual (lm : Libm) : Prop :=
  cosf lm F32.zero = F32.one
  /\ sinf lm F32.zero = F32.zero
  /\ cosf lm (half_angle (F32.of_Z 180)) = cosf_half_pi
  /\ sinf lm (half_angle (F32.of_Z 180)) = F32.one.

Definition qt : QtMath := qt_with libm.

(** A scene that draws and leaves the camera alone, except that its
    input handler walks one unit forward. *)
Definition scene : Scene :=
  {| InitializeRendering := fun c => c;
     UpdateRendering := fun c => c;
     Render := fun _ _ _ c => c;
     InitializeInputs := fun c => c;
     UpdateInputs := fun c =>
       mkCamera (QVector3D_add (cam_translation c) (mkQVector3D F32.zero F32.zero F32.one))
                (cam_rotations c) |}.

End PlainQt.

(** ** A concrete platform for closed examples *)

Module Rig.

Definition row (a b c d : Z) : Row4 :=
  mkRow4 (F32.of_Z a) (F32.of_Z b) (F32.of_Z c) (F32.of_Z d).

(** A pure translation by whole units. *)
Definition shift (x y z : Z) : HmdMatrix34_t :=
  mkHmdMatrix34 (row 1 0 0 x) (row 0 1 0 y) (row 0 0 1 z).

Definition projection : HmdMatrix44_t :=
  mkHmdMatrix44 (row 1 0 0 0) (row 0 1 0 0) (row 0 0 (-1) (-1)) (row 0 0 (-1) 0).

(** Device 0 is the headset, 1 the left controller, 2 the right one,
    3 a base station; nothing else is connected. *)
Definition device_class (i : nat) : ETrackedDeviceClass :=
  match i with
  | 0 => TrackedDeviceClass_HMD
  | 1 | 2 => TrackedDeviceClass_Controller
  | 3 => TrackedDeviceClass_TrackingReference
  | _ => TrackedDeviceClass_Invalid
  end%nat.

Definition device_role (i : nat) : ETrackedControllerRole :=
  match i with
  | 1 => TrackedControllerRole_LeftHand
  | 2 => TrackedControllerRole_RightHand
  | _ => TrackedControllerRole_Invalid
  end%nat.

Definition device_pose (hmd_tracked : bool) (i : nat) : TrackedDevicePose_t :=
  match i with
  | 0 => mkPose (shift 0 2 0) hmd_tracked
  | 1 => mkPose (shift (-1) 1 0) true
  | 2 => mkPose (shift 1 1 0) true
  | 3 => mkPose (shift 0 3 4) true
  | _ => mkPose (shift 0 0 0) false
  end%nat.

(** A piece of a format string: a character, or a place marker [%n] or
    [%Ln] with its number and its text. *)
Inductive Piece : Type :=
| Text (c : ascii)
| Marker (n : nat) (text : string).

Definition digitValue (c : ascii) : option nat :=
  let n := nat_of_ascii c in
  if (48 <=? n)%nat && (n <=? 57)%nat then Some (n - 48)%nat else None.

(** The marker that starts with [text] and the digit [d1], if [d1] is a
    digit, and what follows it; [s] follows [d1]. *)
Definition marker (text : string) (d1 : ascii) (s : string) : option (Piece * string) :=
  match digitValue d1 with
  | None => None
  | Some n1 =>
      let text := (text ++ String d1 EmptyString)%string in
      match s with
      | String d2 s' =>
          match digitValue d2 with
          | Some n2 =>
              Some (Marker (10 * n1 + n2) (text ++ String d2 EmptyString)%string, s')
          | None => Some (Marker n1 text, s)
          end
      | EmptyString => Some (Marker n1 text, s)
      end
  end.

Fixpoint pieces (fuel : nat) (s : string) : list Piece :=
  match fuel with
  | O => []
  | S fuel' =>
      match s with
      | EmptyString => []
      | String c s1 =>
          if Ascii.eqb c "%" then
            match s1 with
            | String d s2 =>
                if Ascii.eqb d "L" then
                  match s2 with
                  | String d' s3 =>
                      match marker "%L" d' s3 with
                      | Some (m, rest) => m :: pieces fuel' rest
                      | None => Text c :: Text d :: pieces fuel' s2
                      end
                  | EmptyString => [Text c; Text d]
                  end
                else
                  match marker "%" d s2 with
                  | Some (m, rest) => m :: pieces fuel' rest
                  | None => Text c :: pieces fuel' s1
                  end
            | EmptyString => [Text c]
            end
          else Text c :: pieces fuel' s1
      end
  end.

Definition lowest (l : list Piece) : option nat :=
  fold_left (fun low piece =>
               match piece, low with
               | Marker n _, Some m => Some (Nat.min n m)
               | Marker n _, None => Some n
               | Text _, _ => low
               end) l None.

(** A [QString::arg] for the examples: every marker with the lowest
    number is replaced, and a format without markers is returned as it
    is. *)
Definition arg (format a : string) : string :=
  let l := pieces (S (String.length format)) format in
  match lowest l with
  | None => format
  | Some low =>
      String.concat EmptyString
        (map (fun piece =>
                match piece with
                | Text c => String c EmptyString
                | Marker n text => if Nat.eqb n low then a else text
                end) l)
  end.

Definition arg_int (format : string) (a : Z) : string := arg format (string_of_Z a).

(** A working installation; [hmd_tracked] says whether the headset's
    pose is valid in this frame. *)
Definition platform (hmd_tracked : bool) : Platform :=
  {| VR_IsRuntimeInstalled := true;
     VR_IsHmdPresent := true;
     VR_Init := (Some VRSystemHandle, VRInitError_None);
     VR_GetVRInitErrorAsEnglishDescription := fun _ => "No Error"%string;
     VRCompositor := Some VRCompositorHandle;
     GetRecommendedRenderTargetSize := (1512, 1680);
     GetEyeToHeadTransform := fun eye =>
       match eye with Left => shift (-1) 0 0 | Right => shift 1 0 0 end;
     GetProjectionMatrix := fun _ _ _ => projection;
     WaitGetPoses := device_pose hmd_tracked;
     GetTrackedDeviceClass := device_class;
     GetControllerRoleForTrackedDeviceIndex := device_role;
     RenderModelName_length := fun _ => 11;
     RenderModelName_text := fun _ => "controller"%string;
     LoadRenderModel_Async := fun _ => (VRRenderModelError_None, mkRenderModel_t 8 12 7);
     LoadTexture_Async := fun _ => VRRenderModelError_None;
     GetRenderModelErrorNameFromEnum := fun _ => "VRRenderModelError_None"%string;
     gl_framebuffer_complete := fun _ _ _ _ => true;
     gl_framebuffer_texture := fun n => Z.of_nat n + 1;
     widget_width := 1024;
     widget_height := 720;
     windowTitle := "OpenVR"%string;
     QString_arg := arg;
     QString_arg_int := arg_int |}.

(** The same machine with no VR runtime installed. *)
Definition bare_platform : Platform :=
  {| VR_IsRuntimeInstalled := false;
     VR_IsHmdPresent := false;
     VR_Init := (None, VRInitError_Unknown);
     VR_GetVRInitErrorAsEnglishDescription := fun _ => "Unknown error"%string;
     VRCompositor := None;
     GetRecommendedRenderTargetSize := (0, 0);
     GetEyeToHeadTransform := fun _ => shift 0 0 0;
     GetProjectionMatrix := fun _ _ _ => projection;
     WaitGetPoses := fun _ => mkPose (shift 0 0 0) false;
     GetTrackedDeviceClass := fun _ => TrackedDeviceClass_Invalid;
     GetControllerRoleForTrackedDeviceIndex := fun _ => TrackedControllerRole_Invalid;
     RenderModelName_length := fun _ => 0;
     RenderModelName_text := fun _ => EmptyString;
     LoadRenderModel_Async := fun _ => (VRRenderModelError_Code 1, mkRenderModel_t 0 0 0);
     LoadTexture_Async := fun _ => VRRenderModelError_Code 1;
     GetRenderModelErrorNameFromEnum := fun _ => "VRRenderModelError_Unknown"%string;
     gl_framebuffer_complete := fun _ _ _ _ => true;
     gl_framebuffer_texture := fun n => Z.of_nat n + 1;
     widget_width := 1024;
     widget_height := 720;
     windowTitle := "OpenVR"%string;
     QString_arg := arg;
     QString_arg_int := arg_int |}.

(** The widget after a successful [initializeGL] on the working
    installation, and the constructor's widget when that run crashes. *)
Definition started : Widget :=
  match initializeGL (scene := PlainQt.scene) (platform true)
                     COpenVROpenGLWidget with
  | Done _ w _ => w
  | Crash _ => COpenVROpenGLWidget
  end.

End Rig.

(** ** What a run is expected to leave behind *)

Definition isSome {A : Type} (o : option A) : bool :=
  match o with Some _ => true | None => false end.

(** A shown controller has a render model to draw. *)
Definition has_model (c : SControllerInfos) : bool :=
  negb (m_bShowController c) || isSome (m_pRenderModel c).

Definition controllers_ready (w : Widget) : bool :=
  has_model (m_controllers w Left) && has_model (m_controllers w Right).

(** The eye's [CEyeInfos] exists and holds both framebuffers. *)
Definition eye_ready (w : Widget) (eye : Eye) : bool :=
  match m_eyeInfos w eye with
  | Some e => isSome (m_frameBuffer e) && isSome (m_resolveBuffer e)
  | None => false
  end.

Definition vr_active (w : Widget) : bool := isSome (m_vrSystem w).

(** Everything [paintGL] dereferences when the VR system is active. *)
Definition frame_ready (p : Platform) (w : Widget) : bool :=
  vr_active w && isSome (VRCompositor p) && eye_ready w Left && eye_ready w Right
  && controllers_ready w.

(** Everything [paintGL] dereferences when there is no VR system. *)
Definition mirror_ready (w : Widget) : bool :=
  isSome (m_eyeInfos w Right) && controllers_ready w.

(** Both [CEyeInfos] pointers are set, or neither is. *)
Definition eyes_paired (w : Widget) : bool :=
  eqb (isSome (m_eyeInfos w Left)) (isSome (m_eyeInfos w Right)).

(** The last index of [l] that satisfies [f]. *)
Fixpoint last_such (f : nat -> bool) (l : list nat) : option nat :=
  match l with
  | [] => None
  | i :: l' =>
      match last_such f l' with
      | Some j => Some j
      | None => if f i then Some i else None
      end
  end.

(** Device [i] is a controller that both loops file under [hand]. *)
Definition controller_for (p : Platform) (hand : Eye) (i : nat) : bool :=
  bool_decide (GetTrackedDeviceClass p i = TrackedDeviceClass_Controller)
  && bool_decide (handIndex (GetControllerRoleForTrackedDeviceIndex p i) = hand).

(** Device [i] is a headset with a valid pose among [poses]. *)
Definition tracked_hmd (p : Platform) (poses : nat -> TrackedDevicePose_t) (i : nat) : bool :=
  bPoseIsValid (poses i)
  && bool_decide (GetTrackedDeviceClass p i = TrackedDeviceClass_HMD).

(** What [LoadModel] returns and logs, as functions of the platform. *)
Definition loaded_model (p : Platform) (name : string) : option CRenderModel :=
  let '(error, pModel) := LoadRenderModel_Async p name in
  if decide (error <> VRRenderModelError_None) then None
  else if decide (LoadTexture_Async p (diffuseTextureId pModel) <> VRRenderModelError_None)
       then None
       else Some (mkCRenderModel name (int_of_uint32 (unTriangleCount pModel * 3))).

Definition loading_log (p : Platform) (name : string) : list Event :=
  let '(error, pModel) := LoadRenderModel_Async p name in
  if decide (error <> VRRenderModelError_None) then
    [E_qDebug (QString_arg p (QString_arg p "Unable to load render model %1 - %2" name)
                             (GetRenderModelErrorNameFromEnum p error))]
  else if decide (LoadTexture_Async p (diffuseTextureId pModel) <> VRRenderModelError_None)
       then [E_qDebug
               (QString_arg p
                  (QString_arg_int p "Unable to load render texture id:%1 for render model %2"
                                   (diffuseTextureId pModel))
                  name);
             E_FreeRenderModel]
       else [E_newShaderProgram name; E_FreeRenderModel; E_FreeTexture].

Definition device_model_name (p : Platform) (i : nat) : string :=
  if RenderModelName_length p i =? 0 then EmptyString else RenderModelName_text p i.

(** What the body of the loop of [InitializeControllers] logs for device [i]. *)
Definition init_controller_log (p : Platform) (i : nat) : list Event :=
  if decide (GetTrackedDeviceClass p i <> TrackedDeviceClass_Controller) then []
  else loading_log p (device_model_name p i).

(** Device [i] is a controller with a valid pose that [UpdatePositions]
    files under [hand]. *)
Definition tracked_controller_for (p : Platform) (poses : nat -> TrackedDevicePose_t)
    (hand : Eye) (i : nat) : bool :=
  bPoseIsValid (poses i)
  && bool_decide (GetTrackedDeviceClass p i = TrackedDeviceClass_Controller)
  && bool_decide (handIndex (GetControllerRoleForTrackedDeviceIndex p i) = hand).

Definition is_submit (e : Event) : bool :=
  match e with E_Submit _ _ => true | _ => false end.

Definition is_dialog (e : Event) : bool :=
  match e with E_QMessageBox_critical _ _ => true | _ => false end.

Definition is_shutdown (e : Event) : bool :=
  match e with E_VR_Shutdown => true | _ => false end.

(** The framebuffer objects a log creates, in order. *)
Definition created (log : list Event) : list QOpenGLFramebufferObject :=
  flat_map (fun e => match e with E_newFramebufferObject f => [f] | _ => [] end) log.

(** An event that belongs to eye, controller or scene initialisation. *)
Definition is_setup (e : Event) : bool :=
  match e with
  | E_newFramebufferObject _ | E_WaitGetPoses | E_newShaderProgram _
  | E_InitializeInputs | E_InitializeRendering => true
  | _ => false
  end.

(** An event that renders into a headset buffer or hands one over. *)
Definition is_hmd_output (e : Event) : bool :=
  match e with
  | E_bind _ | E_release _ | E_blitFramebuffer _ _ _ _ | E_Submit _ _ => true
  | _ => false
  end.

(** Whether the eye's [CEyeInfos] exists, and if so which of its two
    framebuffer pointers are set. *)
Definition eye_shape (w : Widget) (eye : Eye) : option (bool * bool) :=
  option_map (fun e => (isSome (m_frameBuffer e), isSome (m_resolveBuffer e)))
             (m_eyeInfos w eye).

(** The same eye and framebuffer pointers are null in [w'] as in [w]. *)
Definition same_shape (w w' : Widget) : Prop :=
  forall eye : Eye, eye_shape w' eye = eye_shape w eye.

(** Nothing that [paintGL] dereferences has appeared or gone from [w] to [w']. *)
Definition steady (w w' : Widget) : Prop :=
  same_shape w w'
  /\ vr_active w' = vr_active w
  /\ forall hand : Eye, has_model (m_controllers w' hand) = has_model (m_controllers w hand).

(** Whenever [m] ends well, the state it leaves is related by [R] to the
    state it started from. *)
Definition keeps {A : Type} (R : Widget -> Widget -> Prop) (m : M A) : Prop :=
  forall (w : Widget) (a : A) (w' : Widget) (log : list Event),
    m w = Done a w' log -> R w w'.

(** The framebuffer a log leaves bound: the last one bound and not
    released since, or none, which is the window's own. *)
Definition bound_after (log : list Event) : option QOpenGLFramebufferObject :=
  fold_left (fun b e =>
               match e with
               | E_bind fb => Some fb
               | E_release _ => None
               | _ => b
               end) log None.

(** A sequence of calls of the two camera methods that move the eyes. *)
Inductive CameraCall : Type :=
| Call_TranslateEyes (i_deltaX i_deltaY i_deltaZ : float)
| Call_RotateEyes (i_yaw i_pitch i_roll : float).

Section Expectations.

Context {qt : QtMath} {scene : Scene}.

Local Open Scope qmat_scope.

Definition call (c : CameraCall) (w : Widget) : Widget :=
  match c with
  | Call_TranslateEyes x y z => TranslateEyes x y z w
  | Call_RotateEyes yaw pitch roll => RotateEyes yaw pitch roll w
  end.

Definition calls (cs : list CameraCall) (w : Widget) : Widget :=
  fold_left (fun w c => call c w) cs w.

(** The draw call of one hand under [matVP], if the hand is shown. *)
Definition controller_draw (w : Widget) (matVP : QMatrix4x4) (hand : Eye) : list Event :=
  let c := m_controllers w hand in
  if m_bShowController c then
    match m_pRenderModel c with
    | Some model => [E_Draw model (matVP * m_rmat4Pose c)]
    | None => []
    end
  else [].

(** The log of [renderEye i_eye] in state [w] when the eye's infos are [e]. *)
Definition renderEye_log (i_eye : Eye) (e : CEyeInfos) (w : Widget) : list Event :=
  let view := m_view e * m_hmdPose w in
  [E_glClear; E_glEnable GL_DEPTH_TEST]
  ++ controller_draw w (m_projection e * view) Left
  ++ controller_draw w (m_projection e * view) Right
  ++ [E_Render i_eye (view * GetCameraMatrix w) (m_projection e)].

(** The state [renderEye] leaves: the scene's [Render] has run. *)
Definition after_render (i_eye : Eye) (e : CEyeInfos) (w : Widget) : Widget :=
  let view := m_view e * m_hmdPose w in
  set_camera (Render i_eye (view * GetCameraMatrix w) (m_projection e) (camera_of w)) w.

(** One turn of the headset loop of [paintGL]. *)
Definition hmd_pass (eye : Eye) (e : CEyeInfos) (fb : QOpenGLFramebufferObject)
    (w : Widget) : list Event :=
  [E_glViewport 0 0 (width (m_size e)) (height (m_size e)); E_glEnable GL_MULTISAMPLE;
   E_bind fb]
  ++ renderEye_log eye e w
  ++ [E_release fb;
      E_blitFramebuffer (m_resolveBuffer e) (Some fb) (width (m_size e)) (height (m_size e))].

(** The mirror view of [paintGL]. *)
Definition mirror_pass (p : Platform) (e : CEyeInfos) (w : Widget) : list Event :=
  [E_glClearColor (F32.lit 0 1) (F32.lit 0 1) (F32.lit 0 1) (F32.lit 1 1);
   E_glViewport 0 0 (widget_width p) (widget_height p);
   E_glDisable GL_MULTISAMPLE]
  ++ renderEye_log Right e w.

(** The eye's infos once [UpdatePositions] has stored this frame's matrices. *)
Definition refreshed (p : Platform) (eye : Eye) (e : CEyeInfos) : CEyeInfos :=
  SetTransformMatrix
    (QMatrix4x4_inverted (vrMatrixToQt34 (GetEyeToHeadTransform p eye)))
    (vrMatrixToQt44 (GetProjectionMatrix p eye NEAR_CLIP FAR_CLIP)) e.

(** The state the body of the device loop of [UpdatePositions] leaves. *)
Definition update_device_step (p : Platform) (nDevice : nat) (w : Widget) : Widget :=
  let pose := m_trackedDevicePose w nDevice in
  if bPoseIsValid pose then
    let w1 :=
      set_matrixDevicePose
        (<[nDevice := vrMatrixToQt34 (mDeviceToAbsoluteTracking pose)]>
           (m_matrixDevicePose w)) w in
    match GetTrackedDeviceClass p nDevice with
    | TrackedDeviceClass_Controller =>
        let hand := handIndex (GetControllerRoleForTrackedDeviceIndex p nDevice) in
        let c := m_controllers w1 hand in
        set_controllers
          (<[hand := mkSControllerInfos
                       (vrMatrixToQt34 (mDeviceToAbsoluteTracking pose))
                       (m_pRenderModel c) (m_bShowController c)]>
             (m_controllers w1)) w1
    | TrackedDeviceClass_HMD =>
        set_hmdPose (QMatrix4x4_inverted (m_matrixDevicePose w1 k_unTrackedDeviceIndex_Hmd)) w1
    | _ => w1
    end
  else w.

(** The state and the log the body of the loop of [InitializeControllers] leaves. *)
Definition init_controller_step (p : Platform) (i : nat) (w : Widget) : Widget :=
  if decide (GetTrackedDeviceClass p i <> TrackedDeviceClass_Controller) then w
  else
    let hand := handIndex (GetControllerRoleForTrackedDeviceIndex p i) in
    let c := m_controllers w hand in
    let w1 :=
      set_controllers
        (<[hand := mkSControllerInfos (m_rmat4Pose c)
                     (loaded_model p (device_model_name p i)) (m_bShowController c)]>
           (m_controllers w)) w in
    let c1 := m_controllers w1 hand in
    set_controllers
      (<[hand := mkSControllerInfos (m_rmat4Pose c1) (m_pRenderModel c1) true]>
         (m_controllers w1)) w1.

(** The state [UpdatePositions] leaves when both eyes exist: this frame's
    eye matrices, the new poses, and the devices treated one by one. *)
Definition eyes_refreshed (p : Platform) (eL eR : CEyeInfos) (w : Widget) : Widget :=
  let w1 := set_eyeInfos (<[Left := Some (refreshed p Left eL)]> (m_eyeInfos w)) w in
  set_eyeInfos (<[Right := Some (refreshed p Right eR)]> (m_eyeInfos w1)) w1.

Definition positions_updated (p : Platform) (eL eR : CEyeInfos) (w : Widget) : Widget :=
  fold_left (fun w i => update_device_step p i w) (seq 0 k_unMaxTrackedDeviceCount)
            (set_trackedDevicePose (WaitGetPoses p) (eyes_refreshed p eL eR w)).

(** The state of [paintGL] when it enters its first eye loop, from the
    state [w1] that [UpdatePositions] left. *)
Definition scene_updated (w1 : Widget) : Widget :=
  let w2 := set_camera (UpdateInputs (camera_of w1)) w1 in
  set_camera (UpdateRendering (camera_of w2)) w2.

(** What [paintGL] does before its first eye loop, when the VR system is active. *)
Definition frame_prologue : list Event :=
  [E_WaitGetPoses; E_UpdateInputs;
   E_glClearColor (F32.lit 15 100) (F32.lit 15 100) (F32.lit 18 100) (F32.lit 1 1);
   E_UpdateRendering].

(** The states a widget goes through, from its construction on. *)
Inductive reachable : Widget -> Prop :=
| reach_new : reachable COpenVROpenGLWidget
| reach_initializeGL p w w' log :
    reachable w -> initializeGL p w = Done tt w' log -> reachable w'
| reach_paintGL p w w' log :
    reachable w -> paintGL p w = Done tt w' log -> reachable w'
| reach_call c w :
    reachable w -> reachable (call c w)
| reach_ResetEyesPositions w :
    reachable w -> reachable (ResetEyesPositions w)
| reach_ResetEyesRotations w :
    reachable w -> reachable (ResetEyesRotations w).

End Expectations.

(** ** More of what runs leave behind *)


(** The platform lets [InitializeVR] through: a runtime, a headset, no
    error from [VR_Init], a compositor. *)
Definition vr_available (p : Platform) : bool :=
  VR_IsRuntimeInstalled p && VR_IsHmdPresent p
  && bool_decide (snd (VR_Init p) = VRInitError_None) && isSome (VRCompositor p).

(** Every load that [InitializeControllers] starts comes to an end: for
    each controller device, the answer the platform holds for its render
    model is not [Loading], and if the model loaded, neither is the
    answer for its texture.  A platform that holds [Loading] stands for
    no run of the code, which polls until the answer changes. *)
Definition loads_settle (p : Platform) : bool :=
  forallb
    (fun i =>
       negb (bool_decide (GetTrackedDeviceClass p i = TrackedDeviceClass_Controller))
       || (let answer := LoadRenderModel_Async p (device_model_name p i) in
           bool_decide (fst answer <> VRRenderModelError_Loading)
           && (negb (bool_decide (fst answer = VRRenderModelError_None))
               || bool_decide (LoadTexture_Async p (diffuseTextureId (snd answer))
                               <> VRRenderModelError_Loading))))
    (seq 0 k_unMaxTrackedDeviceCount).

(** The size [InitializeEyesRendering] gives both eyes. *)
Definition eyeSize (p : Platform) : QSize :=
  mkQSize (int_of_uint32 (fst (GetRecommendedRenderTargetSize p)))
          (int_of_uint32 (snd (GetRecommendedRenderTargetSize p))).

(** The [CEyeInfos] that [new CEyeInfos(eyeSize)] builds when [n]
    framebuffer objects exist already. *)
Definition new_eye (p : Platform) (n : nat) : CEyeInfos :=
  mkCEyeInfos QMatrix4x4_identity QMatrix4x4_identity
    (Some (driver_fbo p n (width (eyeSize p)) (height (eyeSize p))
                      (mkFormat Depth GL_RGBA8 4)))
    (Some (driver_fbo p (S n) (width (eyeSize p)) (height (eyeSize p))
                      (mkFormat NoAttachment GL_RGBA8 0)))
    (eyeSize p).

(** What the constructor of [CEyeInfos] logs. *)
Definition new_eye_log (p : Platform) (n : nat) : list Event :=
  [E_initializeOpenGLFunctions;
   E_newFramebufferObject
     (driver_fbo p n (width (eyeSize p)) (height (eyeSize p)) (mkFormat Depth GL_RGBA8 4));
   E_newFramebufferObject
     (driver_fbo p (S n) (width (eyeSize p)) (height (eyeSize p))
                 (mkFormat NoAttachment GL_RGBA8 0))].

(** The slot [InitializeControllers] leaves for [hand], from the slot [c]
    it found. *)
Definition slot_initialized (p : Platform) (hand : Eye) (c : SControllerInfos)
    : SControllerInfos :=
  match last_such (controller_for p hand) (seq 0 k_unMaxTrackedDeviceCount) with
  | Some j => mkSControllerInfos (m_rmat4Pose c) (loaded_model p (device_model_name p j)) true
  | None => c
  end.

Definition InitializeControllers_log (p : Platform) : list Event :=
  E_WaitGetPoses
  :: flat_map (init_controller_log p) (seq 0 k_unMaxTrackedDeviceCount)
  ++ [E_InitializeInputs].

(** Both eyes that [InitializeEyesRendering] builds are valid, when [n]
    framebuffer objects exist already. *)
Definition eyes_valid (p : Platform) (n : nat) : bool :=
  IsValid (new_eye p n) && IsValid (new_eye p (2 + n)).

(** What [initializeGL] logs once [InitializeVR] has let it through. *)
Definition initializeGL_log (p : Platform) (n : nat) : list Event :=
  [E_initializeOpenGLFunctions; E_glEnable GL_DEPTH_TEST; E_VR_Init]
  ++ new_eye_log p n ++ new_eye_log p (2 + n)
  ++ (if eyes_valid p n then InitializeControllers_log p ++ [E_InitializeRendering] else []).

(** The framebuffers and the size of the eye's [CEyeInfos], if it exists. *)
Definition eye_objects (w : Widget) (eye : Eye)
    : option (option QOpenGLFramebufferObject * option QOpenGLFramebufferObject * QSize) :=
  option_map (fun e => (m_frameBuffer e, m_resolveBuffer e, m_size e)) (m_eyeInfos w eye).

(** [w'] holds the objects that [w] holds: the same VR system, the same
    framebuffers in the same eyes, the same render models shown or hidden
    as before, and no framebuffer object was made in between. *)
Definition same_objects (w w' : Widget) : Prop :=
  m_vrSystem w' = m_vrSystem w
  /\ gl_framebuffers w' = gl_framebuffers w
  /\ (forall eye : Eye, eye_objects w' eye = eye_objects w eye)
  /\ (forall hand : Eye,
        m_pRenderModel (m_controllers w' hand) = m_pRenderModel (m_controllers w hand)
        /\ m_bShowController (m_controllers w' hand)
           = m_bShowController (m_controllers w hand)).

(** An event by which objects come and go, the widget is set up, or the
    user is told of a failure. *)
Definition is_lifecycle (e : Event) : bool :=
  match e with
  | E_initializeOpenGLFunctions | E_newFramebufferObject _ | E_newShaderProgram _
  | E_FreeRenderModel | E_FreeTexture | E_VR_Init | E_VR_Shutdown
  | E_InitializeRendering | E_InitializeInputs
  | E_qDebug _ | E_qCritical _ | E_QMessageBox_critical _ _ => true
  | _ => false
  end.

(** The pure virtual methods of the widget, as a subclass sees them called. *)
Inductive Hook : Type :=
| Hook_InitializeRendering
| Hook_UpdateRendering
| Hook_Render (eye : Eye)
| Hook_InitializeInputs
| Hook_UpdateInputs.

(** The calls of the subclass's methods in a log, in order. *)
Definition hooks (log : list Event) : list Hook :=
  flat_map (fun e =>
              match e with
              | E_InitializeRendering => [Hook_InitializeRendering]
              | E_UpdateRendering => [Hook_UpdateRendering]
              | E_Render eye _ _ => [Hook_Render eye]
              | E_InitializeInputs => [Hook_InitializeInputs]
              | E_UpdateInputs => [Hook_UpdateInputs]
              | _ => []
              end) log.

(** What is done to a widget between [initializeGL] and its destruction:
    Qt paints it, and the application moves the eyes. *)
Inductive Action : Type :=
| Act_paintGL
| Act_TranslateEyes (i_deltaX i_deltaY i_deltaZ : float)
| Act_RotateEyes (i_yaw i_pitch i_roll : float)
| Act_ResetEyesPositions
| Act_ResetEyesRotations.

Section Sessions.
Context {qt : QtMath} {scene : Scene}.

Definition act (p : Platform) (a : Action) : M unit :=
  match a with
  | Act_paintGL => paintGL p
  | Act_TranslateEyes x y z => modify (TranslateEyes x y z)
  | Act_RotateEyes yaw pitch roll => modify (RotateEyes yaw pitch roll)
  | Act_ResetEyesPositions => modify ResetEyesPositions
  | Act_ResetEyesRotations => modify ResetEyesRotations
  end.

Definition session (p : Platform) (l : list Action) : M unit := for_each l (act p).

(** The same when the SDK's answers change from one step to the next:
    each action comes with the platform as it is when the action runs. *)
Definition session_on (l : list (Platform * Action)) : M unit :=
  for_each l (fun step => act (fst step) (snd step)).

End Sessions.


(** ** Installations that go wrong *)

Module Cases.

(** The working installation of [Rig], except that no render model loads. *)
Definition no_render_models : Platform :=
  let p := Rig.platform true in
  {| VR_IsRuntimeInstalled := VR_IsRuntimeInstalled p;
     VR_IsHmdPresent := VR_IsHmdPresent p;
     VR_Init := VR_Init p;
     VR_GetVRInitErrorAsEnglishDescription := VR_GetVRInitErrorAsEnglishDescription p;
     VRCompositor := VRCompositor p;
     GetRecommendedRenderTargetSize := GetRecommendedRenderTargetSize p;
     GetEyeToHeadTransform := GetEyeToHeadTransform p;
     GetProjectionMatrix := GetProjectionMatrix p;
     WaitGetPoses := WaitGetPoses p;
     GetTrackedDeviceClass := GetTrackedDeviceClass p;
     GetControllerRoleForTrackedDeviceIndex := GetControllerRoleForTrackedDeviceIndex p;
     RenderModelName_length := RenderModelName_length p;
     RenderModelName_text := RenderModelName_text p;
     LoadRenderModel_Async := fun _ => (VRRenderModelError_Code 300%positive, mkRenderModel_t 0 0 0);
     LoadTexture_Async := LoadTexture_Async p;
     GetRenderModelErrorNameFromEnum := fun _ => "VRRenderModelError_InvalidModel"%string;
     gl_framebuffer_complete := gl_framebuffer_complete p;
     gl_framebuffer_texture := gl_framebuffer_texture p;
     widget_width := widget_width p;
     widget_height := widget_height p;
     windowTitle := windowTitle p;
     QString_arg := QString_arg p;
     QString_arg_int := QString_arg_int p |}.

(** The same, except that the driver completes no framebuffer object. *)
Definition incomplete_buffers : Platform :=
  let p := Rig.platform true in
  {| VR_IsRuntimeInstalled := VR_IsRuntimeInstalled p;
     VR_IsHmdPresent := VR_IsHmdPresent p;
     VR_Init := VR_Init p;
     VR_GetVRInitErrorAsEnglishDescription := VR_GetVRInitErrorAsEnglishDescription p;
     VRCompositor := VRCompositor p;
     GetRecommendedRenderTargetSize := GetRecommendedRenderTargetSize p;
     GetEyeToHeadTransform := GetEyeToHeadTransform p;
     GetProjectionMatrix := GetProjectionMatrix p;
     WaitGetPoses := WaitGetPoses p;
     GetTrackedDeviceClass := GetTrackedDeviceClass p;
     GetControllerRoleForTrackedDeviceIndex := GetControllerRoleForTrackedDeviceIndex p;
     RenderModelName_length := RenderModelName_length p;
     RenderModelName_text := RenderModelName_text p;
     LoadRenderModel_Async := LoadRenderModel_Async p;
     LoadTexture_Async := LoadTexture_Async p;
     GetRenderModelErrorNameFromEnum := GetRenderModelErrorNameFromEnum p;
     gl_framebuffer_complete := fun _ _ _ _ => false;
     gl_framebuffer_texture := gl_framebuffer_texture p;
     widget_width := widget_width p;
     widget_height := widget_height p;
     windowTitle := windowTitle p;
     QString_arg := QString_arg p;
     QString_arg_int := QString_arg_int p |}.

(** The same, except that neither controller has the left hand's role. *)
Definition two_right_hands : Platform :=
  let p := Rig.platform true in
  {| VR_IsRuntimeInstalled := VR_IsRuntimeInstalled p;
     VR_IsHmdPresent := VR_IsHmdPresent p;
     VR_Init := VR_Init p;
     VR_GetVRInitErrorAsEnglishDescription := VR_GetVRInitErrorAsEnglishDescription p;
     VRCompositor := VRCompositor p;
     GetRecommendedRenderTargetSize := GetRecommendedRenderTargetSize p;
     GetEyeToHeadTransform := GetEyeToHeadTransform p;
     GetProjectionMatrix := GetProjectionMatrix p;
     WaitGetPoses := WaitGetPoses p;
     GetTrackedDeviceClass := GetTrackedDeviceClass p;
     GetControllerRoleForTrackedDeviceIndex := fun _ => TrackedControllerRole_RightHand;
     RenderModelName_length := RenderModelName_length p;
     RenderModelName_text := RenderModelName_text p;
     LoadRenderModel_Async := LoadRenderModel_Async p;
     LoadTexture_Async := LoadTexture_Async p;
     GetRenderModelErrorNameFromEnum := GetRenderModelErrorNameFromEnum p;
     gl_framebuffer_complete := gl_framebuffer_complete p;
     gl_framebuffer_texture := gl_framebuffer_texture p;
     widget_width := widget_width p;
     widget_height := widget_height p;
     windowTitle := windowTitle p;
     QString_arg := QString_arg p;
     QString_arg_int := QString_arg_int p |}.

(** The same, except that the device at index 0 has no valid pose while
    device 5 reports the class of a headset, with a valid pose. *)
Definition second_headset : Platform :=
  let p := Rig.platform true in
  {| VR_IsRuntimeInstalled := VR_IsRuntimeInstalled p;
     VR_IsHmdPresent := VR_IsHmdPresent p;
     VR_Init := VR_Init p;
     VR_GetVRInitErrorAsEnglishDescription := VR_GetVRInitErrorAsEnglishDescription p;
     VRCompositor := VRCompositor p;
     GetRecommendedRenderTargetSize := GetRecommendedRenderTargetSize p;
     GetEyeToHeadTransform := GetEyeToHeadTransform p;
     GetProjectionMatrix := GetProjectionMatrix p;
     WaitGetPoses := fun i => if Nat.eqb i 5%nat then mkPose (Rig.shift 0 5 0) true else Rig.device_pose false i;
     GetTrackedDeviceClass := fun i => if Nat.eqb i 5%nat then TrackedDeviceClass_HMD else Rig.device_class i;
     GetControllerRoleForTrackedDeviceIndex := GetControllerRoleForTrackedDeviceIndex p;
     RenderModelName_length := RenderModelName_length p;
     RenderModelName_text := RenderModelName_text p;
     LoadRenderModel_Async := LoadRenderModel_Async p;
     LoadTexture_Async := LoadTexture_Async p;
     GetRenderModelErrorNameFromEnum := GetRenderModelErrorNameFromEnum p;
     gl_framebuffer_complete := gl_framebuffer_complete p;
     gl_framebuffer_texture := gl_framebuffer_texture p;
     widget_width := widget_width p;
     widget_height := widget_height p;
     windowTitle := windowTitle p;
     QString_arg := QString_arg p;
     QString_arg_int := QString_arg_int p |}.

End Cases.

(** ** Tearing the widget down *)

(** What the destructor does that can be seen from outside. *)
Inductive Release : Type :=
| R_makeCurrent
| R_doneCurrent
| R_delete_framebuffer (fbo : QOpenGLFramebufferObject)
| R_delete_CRenderModel (model : CRenderModel)
| R_VR_Shutdown.

(** [delete] of a framebuffer pointer; deleting a null pointer does nothing. *)
Definition delete_framebuffer (o : option QOpenGLFramebufferObject) : list Release :=
  match o with
  | Some fbo => [R_delete_framebuffer fbo]
  | None => []
  end.

(** [CEyeInfos::~CEyeInfos]: the resolve buffer first. *)
Definition CEyeInfos_delete (e : CEyeInfos) : list Release :=
  delete_framebuffer (m_resolveBuffer e) ++ delete_framebuffer (m_frameBuffer e).

(** [delete m_eyeInfos[eye]]. *)
Definition delete_CEyeInfos (o : option CEyeInfos) : list Release :=
  match o with
  | Some e => CEyeInfos_delete e
  | None => []
  end.

(** [delete m_controllers[hand].m_pRenderModel]. *)
Definition delete_CRenderModel (o : option CRenderModel) : list Release :=
  match o with
  | Some model => [R_delete_CRenderModel model]
  | None => []
  end.

(** [Destroy], without the [_DEBUG] logger.  It deletes what the pointers
    point to and leaves the pointers as they are. *)
Definition Destroy (w : Widget) : list Release :=
  flat_map (fun eye => delete_CEyeInfos (m_eyeInfos w eye)) both_eyes
  ++ flat_map (fun hand => delete_CRenderModel (m_pRenderModel (m_controllers w hand)))
              both_eyes.

(** [ShutDownVR], which is all the destructor does. *)
Definition ShutDownVR (w : Widget) : Widget * list Release :=
  let log := [R_makeCurrent] ++ Destroy w in
  match m_vrSystem w with
  | Some _ => (set_vrSystem None w, log ++ [R_VR_Shutdown] ++ [R_doneCurrent])
  | None => (w, log ++ [R_doneCurrent])
  end.

(** The framebuffer objects and render models a teardown deletes, in
    order, and the number of times it shuts the runtime down. *)
Definition deleted_framebuffers (l : list Release) : list QOpenGLFramebufferObject :=
  flat_map (fun r => match r with R_delete_framebuffer f => [f] | _ => [] end) l.

Definition deleted_models (l : list Release) : list CRenderModel :=
  flat_map (fun r => match r with R_delete_CRenderModel m => [m] | _ => [] end) l.

Definition shutdowns (l : list Release) : nat :=
  length (List.filter (fun r => match r with R_VR_Shutdown => true | _ => false end) l).

(** [VR_Init] is called and reports no error. *)
Definition vr_initialized (p : Platform) : bool :=
  VR_IsRuntimeInstalled p && VR_IsHmdPresent p
  && bool_decide (snd (VR_Init p) = VRInitError_None).

Definition is_new_program (e : Event) : bool :=
  match e with E_newShaderProgram _ => true | _ => false end.

(** Device [i] is a controller whose render model loads. *)
Definition loads_model (p : Platform) (i : nat) : bool :=
  bool_decide (GetTrackedDeviceClass p i = TrackedDeviceClass_Controller)
  && isSome (loaded_model p (device_model_name p i)).

(** The render model [InitializeControllers] leaves in the slot of
    [hand] on the new widget: that of the last controller filed under it. *)
Definition slot_model (p : Platform) (hand : Eye) : option CRenderModel :=
  match last_such (controller_for p hand) (seq 0 k_unMaxTrackedDeviceCount) with
  | Some j => loaded_model p (device_model_name p j)
  | None => None
  end.

(** ** [CRenderModel] in detail *)

(** The render model class once more, this time with its polling loops,
    its shaders and its OpenGL calls.  [LoadModel] above keeps of it what
    the widget can tell apart; the last section relates the two. *)
Module Detail.

Inductive ShaderType : Type := Vertex | Fragment.

Inductive BufferTarget : Type := GL_ARRAY_BUFFER | GL_ELEMENT_ARRAY_BUFFER.

(** [GL_TEXTURE0] is the enumerator 0x84C0; texture unit [i] is named
    [GL_TEXTURE0 + i]. *)
Definition GL_TEXTURE0 : Z := 33984.

Inductive TextureParameter : Type :=
| GL_TEXTURE_WRAP_S | GL_TEXTURE_WRAP_T | GL_TEXTURE_MAG_FILTER | GL_TEXTURE_MIN_FILTER.

Inductive TextureParameterValue : Type :=
| GL_CLAMP_TO_EDGE | GL_LINEAR | GL_LINEAR_MIPMAP_LINEAR.

(** [vr::RenderModel_TextureMap_t], the fields [InitModel] reads. *)
Record RenderModel_TextureMap_t : Type := mkTextureMap {
  unWidth : Z;
  unHeight : Z
}.

(** The calls that leave the class. *)
Inductive Call : Type :=
| LoadRenderModel_Async (name : string)
| LoadTexture_Async (textureId : Z)
| FreeRenderModel
| FreeTexture
| sleep_for_ms (ms : Z)
| qDebug (msg : string)
| new_QOpenGLShaderProgram
| delete_QOpenGLShaderProgram
| addShaderFromSourceCode (type : ShaderType)
| link
| initializeOpenGLFunctions
| glGenVertexArrays (array : Z)
| glBindVertexArray (array : Z)
| glDeleteVertexArrays (array : Z)
| glGenBuffers (buffer : Z)
| glBindBuffer (target : BufferTarget) (buffer : Z)
| glBufferData (target : BufferTarget) (size : Z)
| glDeleteBuffers (buffer : Z)
| glEnableVertexAttribArray (index : Z)
| glVertexAttribPointer (index size stride offset : Z)
| glGenTextures (texture : Z)
| glBindTexture (texture : Z)
| glTexImage2D (width height : Z)
| glGenerateMipmap
| glTexParameteri (pname : TextureParameter) (param : TextureParameterValue)
| glGetFloatv_MAX_ANISOTROPY
| glTexParameterf_MAX_ANISOTROPY (param : float)
| glEnable_CULL_FACE
| glDisable_CULL_FACE
| glUseProgram (program : Z)
| setUniformValue_matrix (value : QMatrix4x4)
| setUniformValue_diffuse (value : Z)
| glActiveTexture (texture : Z)
| glDrawElements (count : Z).

(** What the SDK, Qt and the OpenGL driver answer. *)
Record Services : Type := mkServices {
  (** [LoadRenderModel_Async] and [LoadTexture_Async]: the error code and
      the object of the call number [n], counted from 0. *)
  render_model_answer : string -> nat -> EVRRenderModelError * RenderModel_t;
  texture_answer : Z -> nat -> EVRRenderModelError * RenderModel_TextureMap_t;
  error_name : EVRRenderModelError -> string;
  (** [QString::arg] for a string and for an [int]. *)
  QString_arg : string -> string -> string;
  QString_arg_int : string -> Z -> string;
  (** The shader compiler and linker, and [QOpenGLShaderProgram::log]
      after each of them. *)
  compiles : ShaderType -> bool;
  links : bool;
  compile_log : ShaderType -> string;
  link_log : string;
  programId : Z;
  (** The names [glGenVertexArrays], [glGenBuffers] (first and second
      call) and [glGenTextures] write, and the largest anisotropy. *)
  new_vertex_array : Z;
  new_vertex_buffer : Z;
  new_index_buffer : Z;
  new_texture : Z;
  max_anisotropy : float;
  (** [sizeof(vr::RenderModel_Vertex_t)] with the offsets of its three
      members, and the number of bits of a [size_t]. *)
  sizeof_Vertex : Z;
  offsetof_vPosition : Z;
  offsetof_vNormal : Z;
  offsetof_rfTextureCoord : Z;
  size_t_bits : Z
}.

(** [CRenderModel]: [m_program] is the program's id and whether it was
    linked; [m_unVertexCount] has no value until [InitModel] gives it one. *)
Record CRenderModel : Type := mkCRenderModel {
  m_program : Z * bool;
  m_glVertBuffer : Z;
  m_glIndexBuffer : Z;
  m_glVertArray : Z;
  m_glTexture : Z;
  m_unVertexCount : option Z;
  m_sModelName : string
}.

(** A product of two [size_t]. *)
Definition size_t_mul (s : Services) (a b : Z) : Z := (a * b) mod 2 ^ size_t_bits s.

(** The constructor. *)
Definition CRenderModel_new (s : Services) (i_sRenderModelName : string)
    : CRenderModel * list Call :=
  let this linked := mkCRenderModel (programId s, linked) 0 0 0 0 None i_sRenderModelName in
  let log0 := [new_QOpenGLShaderProgram; initializeOpenGLFunctions] in
  let noError := true in
  let noError := noError && compiles s Vertex in
  let log1 := log0 ++ [addShaderFromSourceCode Vertex] in
  if negb noError then (this false, log1 ++ [qDebug (compile_log s Vertex)])
  else
    let noError := noError && compiles s Fragment in
    let log2 := log1 ++ [addShaderFromSourceCode Fragment] in
    if negb noError then (this false, log2 ++ [qDebug (compile_log s Fragment)])
    else
      let noError := noError && links s in
      let log3 := log2 ++ [link] in
      if negb noError then (this false, log3 ++ [qDebug (link_log s)])
      else (this true, log3).

(** [InitModel]. *)
Definition InitModel (s : Services) (i_vrModel : RenderModel_t)
    (i_vrDiffuseTexture : RenderModel_TextureMap_t) (this : CRenderModel)
    : bool * CRenderModel * list Call :=
  let vertArray := new_vertex_array s in
  let vertBuffer := new_vertex_buffer s in
  let indexBuffer := new_index_buffer s in
  let texture := new_texture s in
  (true,
   mkCRenderModel (m_program this) vertBuffer indexBuffer vertArray texture
                  (Some (int_of_uint32 (unTriangleCount i_vrModel * 3)))
                  (m_sModelName this),
   [glGenVertexArrays vertArray;
    glBindVertexArray vertArray;
    glGenBuffers vertBuffer;
    glBindBuffer GL_ARRAY_BUFFER vertBuffer;
    glBufferData GL_ARRAY_BUFFER (size_t_mul s (sizeof_Vertex s) (unVertexCount i_vrModel));
    glEnableVertexAttribArray 0;
    glVertexAttribPointer 0 3 (sizeof_Vertex s) (offsetof_vPosition s);
    glEnableVertexAttribArray 1;
    glVertexAttribPointer 1 3 (sizeof_Vertex s) (offsetof_vNormal s);
    glEnableVertexAttribArray 2;
    glVertexAttribPointer 2 2 (sizeof_Vertex s) (offsetof_rfTextureCoord s);
    glGenBuffers indexBuffer;
    glBindBuffer GL_ELEMENT_ARRAY_BUFFER indexBuffer;
    glBufferData GL_ELEMENT_ARRAY_BUFFER
                 (size_t_mul s (size_t_mul s 2 (unTriangleCount i_vrModel)) 3);
    glBindVertexArray 0;
    glGenTextures texture;
    glBindTexture texture;
    glTexImage2D (unWidth i_vrDiffuseTexture) (unHeight i_vrDiffuseTexture);
    glGenerateMipmap;
    glTexParameteri GL_TEXTURE_WRAP_S GL_CLAMP_TO_EDGE;
    glTexParameteri GL_TEXTURE_WRAP_T GL_CLAMP_TO_EDGE;
    glTexParameteri GL_TEXTURE_MAG_FILTER GL_LINEAR;
    glTexParameteri GL_TEXTURE_MIN_FILTER GL_LINEAR_MIPMAP_LINEAR;
    glGetFloatv_MAX_ANISOTROPY;
    glTexParameterf_MAX_ANISOTROPY (max_anisotropy s);
    glBindTexture 0]).

(** [Cleanup]. *)
Definition Cleanup (this : CRenderModel) : CRenderModel * list Call :=
  if m_glVertBuffer this =? 0 then (this, [delete_QOpenGLShaderProgram])
  else
    (mkCRenderModel (m_program this) 0 0 0 (m_glTexture this) (m_unVertexCount this)
                    (m_sModelName this),
     [glDeleteBuffers (m_glIndexBuffer this);
      glDeleteVertexArrays (m_glVertArray this);
      glDeleteBuffers (m_glVertBuffer this);
      delete_QOpenGLShaderProgram]).

(** The destructor, and [delete] of a pointer to a render model. *)
Definition CRenderModel_delete (this : CRenderModel) : list Call := snd (Cleanup this).

(** [Draw]; it has nothing to pass to [glDrawElements] before
    [InitModel] has run.  The local matrix [scale] is built and not used. *)
Definition Draw (this : CRenderModel) (i_mvpMatrix : QMatrix4x4) : option (list Call) :=
  match m_unVertexCount this with
  | None => None
  | Some count =>
      Some [glEnable_CULL_FACE;
            glUseProgram (fst (m_program this));
            setUniformValue_matrix i_mvpMatrix;
            setUniformValue_diffuse GL_TEXTURE0;
            glBindVertexArray (m_glVertArray this);
            glActiveTexture GL_TEXTURE0;
            glBindTexture (m_glTexture this);
            glDrawElements count;
            glBindVertexArray 0;
            glUseProgram 0;
            glDisable_CULL_FACE]
  end.

(** [GetName]. *)
Definition GetName (this : CRenderModel) : string := m_sModelName this.

(** One of the two loops [while (true) { error = ...; if (error !=
    Loading) break; sleep_for(10 ms); }], from call number [n] on: the
    answer it leaves with and what it did, or nothing when [fuel] calls
    were not enough. *)
Fixpoint poll {A : Type} (fuel : nat) (call : Call)
    (answer : nat -> EVRRenderModelError * A) (n : nat)
    : option (EVRRenderModelError * A * list Call) :=
  match fuel with
  | O => None
  | S fuel' =>
      let '(error, a) := answer n in
      if decide (error <> VRRenderModelError_Loading) then Some (error, a, [call])
      else
        match poll fuel' call answer (S n) with
        | Some (error', a', log) => Some (error', a', call :: sleep_for_ms 10 :: log)
        | None => None
        end
  end.

(** [*o_errorMessage = msg] when the pointer is not null. *)
Definition write_message (o_errorMessage : option string) (msg : string) : option string :=
  match o_errorMessage with
  | Some _ => Some msg
  | None => None
  end.

(** [LoadModel]: the pointer it returns, what [o_errorMessage] points to
    afterwards, and what it did; nothing when a loop needed more than
    [fuel] calls. *)
Definition LoadModel (s : Services) (fuel : nat) (i_modelName : string)
    (o_errorMessage : option string)
    : option (option CRenderModel * option string * list Call) :=
  match poll fuel (LoadRenderModel_Async i_modelName) (render_model_answer s i_modelName) 0 with
  | None => None
  | Some (error, pModel, log1) =>
      if decide (error <> VRRenderModelError_None) then
        let errMessage :=
          QString_arg s (QString_arg s "Unable to load render model %1 - %2" i_modelName)
                      (error_name s error) in
        Some (None, write_message o_errorMessage errMessage, log1 ++ [qDebug errMessage])
      else
        match poll fuel (LoadTexture_Async (diffuseTextureId pModel))
                   (texture_answer s (diffuseTextureId pModel)) 0 with
        | None => None
        | Some (error, pTexture, log2) =>
            if decide (error <> VRRenderModelError_None) then
              let errMessage :=
                QString_arg s
                  (QString_arg_int s "Unable to load render texture id:%1 for render model %2"
                                   (diffuseTextureId pModel))
                  i_modelName in
              Some (None, write_message o_errorMessage errMessage,
                    log1 ++ log2 ++ [qDebug errMessage; FreeRenderModel])
            else
              let '(pRenderModel, log3) := CRenderModel_new s i_modelName in
              let '(ok, pRenderModel, log4) := InitModel s pModel pTexture pRenderModel in
              let '(pRenderModel, o_errorMessage, log5) :=
                if negb ok then
                  let errMessage :=
                    QString_arg s "Unable to create GL model from render model %1"
                                i_modelName in
                  (None, write_message o_errorMessage errMessage,
                   qDebug errMessage :: CRenderModel_delete pRenderModel)
                else (Some pRenderModel, o_errorMessage, []) in
              let o_errorMessage :=
                match o_errorMessage, pRenderModel with
                | Some _, Some _ => Some "Success"%string
                | _, _ => o_errorMessage
                end in
              Some (pRenderModel, o_errorMessage,
                    log1 ++ log2 ++ log3 ++ log4 ++ log5 ++ [FreeRenderModel; FreeTexture])
        end
  end.

(** *** The OpenGL state that the calls change *)

(** The bindings and the switch the class touches, the names of the
    objects alive, and the program in use.  The 2D texture binding is
    kept per texture unit. *)
Record Context : Type := mkContext {
  vertex_array_binding : Z;
  array_buffer_binding : Z;
  texture_binding_2D : Z -> Z;
  active_texture : Z;
  cull_face : bool;
  vertex_arrays : list Z;
  buffers : list Z;
  textures : list Z;
  current_program : Z
}.

Definition remove_name (n : Z) (l : list Z) : list Z :=
  List.filter (fun m => negb (m =? n)) l.

(** The effect of one call on that state, as OpenGL specifies it: names
    come alive when generated and go when deleted, deleting a bound
    object resets its binding to 0, [glBindTexture] binds on the active
    unit, and [glUseProgram] makes a program the current one.  The
    element array binding belongs to the vertex array and is not kept
    here. *)
Definition gl (c : Context) (call : Call) : Context :=
  match call with
  | glGenVertexArrays n =>
      mkContext (vertex_array_binding c) (array_buffer_binding c) (texture_binding_2D c)
                (active_texture c) (cull_face c)
                (n :: vertex_arrays c) (buffers c) (textures c)
                (current_program c)
  | glBindVertexArray n =>
      mkContext n (array_buffer_binding c) (texture_binding_2D c)
                (active_texture c) (cull_face c)
                (vertex_arrays c) (buffers c) (textures c)
                (current_program c)
  | glDeleteVertexArrays n =>
      mkContext (if vertex_array_binding c =? n then 0 else vertex_array_binding c)
                (array_buffer_binding c) (texture_binding_2D c)
                (active_texture c) (cull_face c)
                (remove_name n (vertex_arrays c)) (buffers c) (textures c)
                (current_program c)
  | glGenBuffers n =>
      mkContext (vertex_array_binding c) (array_buffer_binding c) (texture_binding_2D c)
                (active_texture c) (cull_face c)
                (vertex_arrays c) (n :: buffers c) (textures c)
                (current_program c)
  | glBindBuffer GL_ARRAY_BUFFER n =>
      mkContext (vertex_array_binding c) n (texture_binding_2D c)
                (active_texture c) (cull_face c)
                (vertex_arrays c) (buffers c) (textures c)
                (current_program c)
  | glDeleteBuffers n =>
      mkContext (vertex_array_binding c)
                (if array_buffer_binding c =? n then 0 else array_buffer_binding c)
                (texture_binding_2D c)
                (active_texture c) (cull_face c)
                (vertex_arrays c) (remove_name n (buffers c)) (textures c)
                (current_program c)
  | glGenTextures n =>
      mkContext (vertex_array_binding c) (array_buffer_binding c) (texture_binding_2D c)
                (active_texture c) (cull_face c)
                (vertex_arrays c) (buffers c) (n :: textures c)
                (current_program c)
  | glBindTexture n =>
      mkContext (vertex_array_binding c) (array_buffer_binding c)
                (<[active_texture c := n]> (texture_binding_2D c))
                (active_texture c) (cull_face c)
                (vertex_arrays c) (buffers c) (textures c)
                (current_program c)
  | glActiveTexture n =>
      mkContext (vertex_array_binding c) (array_buffer_binding c) (texture_binding_2D c)
                n (cull_face c)
                (vertex_arrays c) (buffers c) (textures c)
                (current_program c)
  | glEnable_CULL_FACE =>
      mkContext (vertex_array_binding c) (array_buffer_binding c) (texture_binding_2D c)
                (active_texture c) true
                (vertex_arrays c) (buffers c) (textures c)
                (current_program c)
  | glDisable_CULL_FACE =>
      mkContext (vertex_array_binding c) (array_buffer_binding c) (texture_binding_2D c)
                (active_texture c) false
                (vertex_arrays c) (buffers c) (textures c)
                (current_program c)
  | glUseProgram n =>
      mkContext (vertex_array_binding c) (array_buffer_binding c) (texture_binding_2D c)
                (active_texture c) (cull_face c)
                (vertex_arrays c) (buffers c) (textures c)
                n
  | _ => c
  end.

Definition gl_run (c : Context) (calls : list Call) : Context := fold_left gl calls c.

End Detail.

(** *** The class as the widget sees it *)

(** What [LoadModel] above keeps of a render model and of a call, when
    the model is loaded under [name]; of a message it keeps that there
    was one. *)
Definition seen_model (model : Detail.CRenderModel) : option CRenderModel :=
  option_map (mkCRenderModel (Detail.m_sModelName model)) (Detail.m_unVertexCount model).

Definition seen (call : Detail.Call) : list Event :=
  match call with
  | Detail.qDebug _ => [E_qDebug EmptyString]
  | Detail.new_QOpenGLShaderProgram => [E_newShaderProgram EmptyString]
  | Detail.FreeRenderModel => [E_FreeRenderModel]
  | Detail.FreeTexture => [E_FreeTexture]
  | _ => []
  end.

Definition without_text (e : Event) : Event :=
  match e with
  | E_qDebug _ => E_qDebug EmptyString
  | E_newShaderProgram _ => E_newShaderProgram EmptyString
  | _ => e
  end.


(** The render models, programs and frees in a log, without their text. *)
Definition resources (log : list Event) : list Event :=
  List.filter (fun e => match e with
                        | E_newShaderProgram _ | E_FreeRenderModel | E_FreeTexture => true
                        | _ => false
                        end)
              (map without_text log).

(** The answers to a polling loop say [Loading] up to call [k] and
    something else at call [k]. *)
Definition settles {A : Type} (answer : nat -> EVRRenderModelError * A) (k : nat) : Prop :=
  fst (answer k) <> VRRenderModelError_Loading
  /\ forall i : nat, (i < k)%nat -> fst (answer i) = VRRenderModelError_Loading.

(** [k] rounds of a polling loop that were answered [Loading]. *)
Fixpoint waits (k : nat) (call : Detail.Call) : list Detail.Call :=
  match k with
  | O => []
  | S k' => call :: Detail.sleep_for_ms 10 :: waits k' call
  end.

Definition is_sleep (call : Detail.Call) : bool :=
  match call with Detail.sleep_for_ms _ => true | _ => false end.

(** A driver and an SDK for closed examples: the render model is ready
    at the third call and its texture at the second. *)
Definition example_services : Detail.Services :=
  {| Detail.render_model_answer := fun _ n =>
       if (n <? 2)%nat then (VRRenderModelError_Loading, mkRenderModel_t 0 0 0)
       else (VRRenderModelError_None, mkRenderModel_t 8 12 7);
     Detail.texture_answer := fun _ n =>
       if (n <? 1)%nat then (VRRenderModelError_Loading, Detail.mkTextureMap 0 0)
       else (VRRenderModelError_None, Detail.mkTextureMap 64 64);
     Detail.error_name := fun _ => "VRRenderModelError_None"%string;
     Detail.QString_arg := Rig.arg;
     Detail.QString_arg_int := Rig.arg_int;
     Detail.compiles := fun _ => true;
     Detail.links := true;
     Detail.compile_log := fun _ => EmptyString;
     Detail.link_log := EmptyString;
     Detail.programId := 3;
     Detail.new_vertex_array := 1;
     Detail.new_vertex_buffer := 1;
     Detail.new_index_buffer := 2;
     Detail.new_texture := 1;
     Detail.max_anisotropy := F32.of_Z 16;
     Detail.sizeof_Vertex := 32;
     Detail.offsetof_vPosition := 0;
     Detail.offsetof_vNormal := 12;
     Detail.offsetof_rfTextureCoord := 24;
     Detail.size_t_bits := 64 |}.

(** An OpenGL context with face culling enabled, texture unit 0 active
    and program 5 in use. *)
Definition example_context : Detail.Context :=
  Detail.mkContext 0 0 (fun _ => 0) Detail.GL_TEXTURE0 true [] [] [] 5.

(** The messages of [LoadModel]. *)
Definition model_error_message (s : Detail.Services) (name : string)
    (error : EVRRenderModelError) : string :=
  Detail.QString_arg s
    (Detail.QString_arg s "Unable to load render model %1 - %2" name)
    (Detail.error_name s error).

Definition texture_error_message (s : Detail.Services) (name : string) (textureId : Z)
    : string :=
  Detail.QString_arg s
    (Detail.QString_arg_int s "Unable to load render texture id:%1 for render model %2"
                            textureId)
    name.

(** The render model [LoadModel] builds from a loaded model, and the
    calls of its constructor and of [InitModel]. *)
Definition built_model (s : Detail.Services) (name : string) (pModel : RenderModel_t)
    : Detail.CRenderModel :=
  Detail.mkCRenderModel
    (Detail.programId s,
     Detail.compiles s Detail.Vertex && Detail.compiles s Detail.Fragment && Detail.links s)
    (Detail.new_vertex_buffer s) (Detail.new_index_buffer s) (Detail.new_vertex_array s)
    (Detail.new_texture s)
    (Some (int_of_uint32 (unTriangleCount pModel * 3)))
    name.

Definition building_calls (s : Detail.Services) (name : string) (pModel : RenderModel_t)
    (pTexture : Detail.RenderModel_TextureMap_t) : list Detail.Call :=
  snd (Detail.CRenderModel_new s name)
  ++ snd (Detail.InitModel s pModel pTexture (fst (Detail.CRenderModel_new s name))).

(** The calls of one polling loop that was answered at call [k]. *)
Definition polled (k : nat) (call : Detail.Call) : list Detail.Call :=
  waits k call ++ [call].

Definition is_message (call : Detail.Call) : bool :=
  match call with Detail.qDebug _ => true | _ => false end.

Definition is_draw (call : Detail.Call) : bool :=
  match call with Detail.glDrawElements _ => true | _ => false end.

(** The size in bytes that the last [glBufferData] of a log gives the
    element array buffer. *)
Definition index_buffer_size (log : list Detail.Call) : option Z :=
  fold_left (fun size call =>
               match call with
               | Detail.glBufferData Detail.GL_ELEMENT_ARRAY_BUFFER n => Some n
               | _ => size
               end) log None.

Definition is_shader_step (call : Detail.Call) : bool :=
  match call with
  | Detail.addShaderFromSourceCode _ | Detail.link => true
  | _ => false
  end.

(** * Proofs *)

(** ** Running the monad *)

Lemma prepend_nil {A : Type} (o : Outcome A) : prepend [] o = o.
Proof. destruct o; reflexivity. Qed.

Lemma prepend_prepend {A : Type} (l1 l2 : list Event) (o : Outcome A) :
  prepend l1 (prepend l2 o) = prepend (l1 ++ l2) o.
Proof. destruct o; simpl; [rewrite app_assoc|]; reflexivity. Qed.

Lemma prepend_Done {A : Type} (l l' : list Event) (a : A) (w : Widget) :
  prepend l (Done a w l') = Done a w (l ++ l').
Proof. reflexivity. Qed.

Lemma prepend_Crash {A : Type} (l : list Event) (f : Fault) :
  prepend l (@Crash A f) = Crash f.
Proof. reflexivity. Qed.

Lemma bind_ret {A B : Type} (a : A) (k : A -> M B) (w : Widget) :
  bind (ret a) k w = k a w.
Proof. unfold bind, ret. apply prepend_nil. Qed.

Lemma bind_gets {A B : Type} (f : Widget -> A) (k : A -> M B) (w : Widget) :
  bind (gets f) k w = k (f w) w.
Proof. unfold bind, gets. apply prepend_nil. Qed.

Lemma bind_modify {B : Type} (g : Widget -> Widget) (k : unit -> M B) (w : Widget) :
  bind (modify g) k w = k tt (g w).
Proof. unfold bind, modify. apply prepend_nil. Qed.

Lemma bind_emit {B : Type} (e : Event) (k : unit -> M B) (w : Widget) :
  bind (emit e) k w = prepend [e] (k tt w).
Proof. reflexivity. Qed.

Lemma bind_crash {A B : Type} (f : Fault) (k : A -> M B) (w : Widget) :
  bind (crash f) k w = Crash f.
Proof. reflexivity. Qed.

Lemma bind_deref_Some {A B : Type} (f : Fault) (a : A) (k : A -> M B) (w : Widget) :
  bind (deref f (Some a)) k w = k a w.
Proof. simpl. apply bind_ret. Qed.

Lemma bind_deref_None {A B : Type} (f : Fault) (k : A -> M B) (w : Widget) :
  bind (deref f (@None A)) k w = Crash f.
Proof. reflexivity. Qed.

Lemma bind_bind {A B C : Type} (m : M A) (k : A -> M B) (k' : B -> M C) (w : Widget) :
  bind (bind m k) k' w = bind m (fun a => bind (k a) k') w.
Proof.
  unfold bind. destruct (m w) as [a w1 l1|f]; [|reflexivity].
  destruct (k a w1) as [b w2 l2|f]; simpl; [|reflexivity].
  destruct (k' b w2) as [c w3 l3|f]; simpl; [|reflexivity].
  rewrite app_assoc. reflexivity.
Qed.

Lemma run_ret {A : Type} (a : A) (w : Widget) : ret a w = Done a w [].
Proof. reflexivity. Qed.

Lemma run_gets {A : Type} (f : Widget -> A) (w : Widget) : gets f w = Done (f w) w [].
Proof. reflexivity. Qed.

Lemma run_modify (g : Widget -> Widget) (w : Widget) : modify g w = Done tt (g w) [].
Proof. reflexivity. Qed.

Lemma run_emit (e : Event) (w : Widget) : emit e w = Done tt w [e].
Proof. reflexivity. Qed.

Lemma Done_inj {A : Type} (a a' : A) (w w' : Widget) (l l' : list Event) :
  Done a w l = Done a' w' l' -> a = a' /\ w = w' /\ l = l'.
Proof. intros H. injection H as -> -> ->. auto. Qed.

Lemma bind_Done {A B : Type} (m : M A) (k : A -> M B) (w w1 : Widget) (a : A)
    (l1 : list Event) :
  m w = Done a w1 l1 -> bind m k w = prepend l1 (k a w1).
Proof. intros H. unfold bind. rewrite H. reflexivity. Qed.

Lemma bind_Crash {A B : Type} (m : M A) (k : A -> M B) (w : Widget) (f : Fault) :
  m w = Crash f -> bind m k w = Crash f.
Proof. intros H. unfold bind. rewrite H. reflexivity. Qed.

(** A run of [bind] that ends well can be cut at the bind. *)
Lemma bind_inv {A B : Type} (m : M A) (k : A -> M B) (w w2 : Widget) (b : B)
    (l : list Event) :
  bind m k w = Done b w2 l ->
  exists a w1 l1 l2, m w = Done a w1 l1 /\ k a w1 = Done b w2 l2 /\ l = l1 ++ l2.
Proof.
  unfold bind. destruct (m w) as [a w1 l1|f]; [|discriminate].
  destruct (k a w1) as [b' w' l2|f] eqn:Hk; simpl; [|discriminate].
  intros H. injection H as -> -> <-. exists a, w1, l1, l2. auto.
Qed.

Create Rewrite HintDb run.

#[local] Hint Rewrite @bind_bind @bind_ret @bind_gets @bind_modify @bind_emit @bind_crash
  @bind_deref_Some @bind_deref_None @prepend_Done @prepend_Crash @prepend_prepend
  @run_ret @run_gets @run_modify @run_emit : run.

(** Reading a field back after a setter. *)
Ltac fields :=
  cbn [m_vrSystem m_trackedDevicePose m_matrixDevicePose m_hmdPose m_eyeInfos m_controllers
       m_cameraTranslation m_cameraRotations gl_framebuffers
       set_vrSystem set_trackedDevicePose set_matrixDevicePose set_hmdPose set_eyeInfos
       set_controllers set_cameraTranslation set_cameraRotations set_gl_framebuffers
       set_camera camera_of cam_translation cam_rotations
       m_projection m_view m_frameBuffer m_resolveBuffer m_size SetTransformMatrix
       m_rmat4Pose m_pRenderModel m_bShowController width height] in *.

Lemma Left_ne_Right : Left <> Right.
Proof. discriminate. Qed.

Lemma Right_ne_Left : Right <> Left.
Proof. discriminate. Qed.

Ltac slots :=
  repeat first
    [ rewrite fn_lookup_insert
    | rewrite (fn_lookup_insert_ne _ _ _ _ Left_ne_Right)
    | rewrite (fn_lookup_insert_ne _ _ _ _ Right_ne_Left) ].

Ltac run := repeat (autorewrite with run; simpl app; fields; slots).

(** A loop whose body never fails on states satisfying [P] and keeps [P]. *)
Lemma for_each_steps {I : Type} (P : Widget -> Prop) (body : I -> M unit)
    (step : I -> Widget -> Widget) (log : I -> list Event) (l : list I) :
  (forall i w, P w -> body i w = Done tt (step i w) (log i) /\ P (step i w)) ->
  forall w, P w ->
    for_each l body w = Done tt (fold_left (fun w i => step i w) l w) (flat_map log l)
    /\ P (fold_left (fun w i => step i w) l w).
Proof.
  intros Hbody. induction l as [|i l IH]; intros w HP; simpl.
  - split; [reflexivity | assumption].
  - destruct (Hbody i w HP) as [Hrun HP'].
    destruct (IH _ HP') as [Hrest HP''].
    split; [|assumption].
    rewrite (bind_Done _ _ _ _ _ _ Hrun), Hrest. reflexivity.
Qed.

(** ** Matrix conversion *)

Lemma Row4_eta (r : Row4) : mkRow4 (e0 r) (e1 r) (e2 r) (e3 r) = r.
Proof. destruct r; reflexivity. Qed.

(** C2.  [vrMatrixToQt] keeps the three rows of a 3x4 matrix in order and
    appends the row (0, 0, 0, 1); it copies the four rows, hence all
    sixteen entries, of a 4x4 matrix; so both overloads give the same
    result on a 4x4 matrix whose last row is (0, 0, 0, 1). *)
Theorem vrMatrixToQt_copies_rows (mat34 : HmdMatrix34_t) (mat44 : HmdMatrix44_t) :
  (q_r0 (vrMatrixToQt34 mat34) = m34_r0 mat34
   /\ q_r1 (vrMatrixToQt34 mat34) = m34_r1 mat34
   /\ q_r2 (vrMatrixToQt34 mat34) = m34_r2 mat34
   /\ q_r3 (vrMatrixToQt34 mat34) = mkRow4 F32.zero F32.zero F32.zero F32.one)
  /\ (q_r0 (vrMatrixToQt44 mat44) = m44_r0 mat44
      /\ q_r1 (vrMatrixToQt44 mat44) = m44_r1 mat44
      /\ q_r2 (vrMatrixToQt44 mat44) = m44_r2 mat44
      /\ q_r3 (vrMatrixToQt44 mat44) = m44_r3 mat44
      /\ forall i j : nat, q_at (vrMatrixToQt44 mat44) i j = m44 mat44 i j)
  /\ (m44_r3 mat44 = mkRow4 F32.zero F32.zero F32.zero F32.one ->
      vrMatrixToQt44 mat44 = vrMatrixToQt34 (top_rows mat44)).
Proof.
  split; [|split].
  - unfold vrMatrixToQt34, QMatrix4x4_of, m34; simpl.
    rewrite !Row4_eta. repeat split; reflexivity.
  - unfold vrMatrixToQt44, QMatrix4x4_of, m44; simpl.
    rewrite !Row4_eta. repeat split; reflexivity.
  - intros Hlast.
    unfold vrMatrixToQt44, vrMatrixToQt34, QMatrix4x4_of, m44, m34, top_rows; simpl.
    rewrite !Row4_eta, Hlast. reflexivity.
Qed.

(** The two overloads agree on the projection matrix of the example platform
    once its last row is replaced by (0, 0, 0, 1). *)
Lemma vrMatrixToQt_copies_rows_witness :
  vrMatrixToQt44 (mkHmdMatrix44 (Rig.row 1 0 0 5) (Rig.row 0 1 0 6) (Rig.row 0 0 1 7)
                                (Rig.row 0 0 0 1))
  = vrMatrixToQt34 (Rig.shift 5 6 7).
Proof.
  apply (proj2 (proj2 (vrMatrixToQt_copies_rows
                         (Rig.shift 5 6 7)
                         (mkHmdMatrix44 (Rig.row 1 0 0 5) (Rig.row 0 1 0 6) (Rig.row 0 0 1 7)
                                        (Rig.row 0 0 0 1))))).
  reflexivity.
Defined.

(** ** The camera *)

Section Camera.

Context {qt : QtMath}.

Lemma call_rotations_translation (c : CameraCall) (w : Widget) :
  m_vrSystem (call c w) = m_vrSystem w /\ m_eyeInfos (call c w) = m_eyeInfos w.
Proof. destruct c; split; reflexivity. Qed.

(** C9.  After any sequence of [TranslateEyes] and [RotateEyes] calls,
    [ResetEyesPositions] makes [GetTranslations] return (0, 0, 0) and
    [ResetEyesRotations] makes [GetRotations] return (0, 180, 0).  These
    are the values of a freshly constructed widget, and (0, 180, 0) is
    not (0, 0, 0). *)
Theorem reset_restores_initial_camera (cs : list CameraCall) (w : Widget) :
  GetTranslations (ResetEyesPositions (calls cs w))
    = mkQVector3D F32.zero F32.zero F32.zero
  /\ GetRotations (ResetEyesRotations (calls cs w))
    = mkQVector3D F32.zero (F32.of_Z 180) F32.zero
  /\ GetTranslations COpenVROpenGLWidget = GetTranslations (ResetEyesPositions (calls cs w))
  /\ GetRotations COpenVROpenGLWidget = GetRotations (ResetEyesRotations (calls cs w))
  /\ mkQVector3D F32.zero (F32.of_Z 180) F32.zero <> mkQVector3D F32.zero F32.zero F32.zero
  /\ F32.eqb (F32.of_Z 180) F32.zero = false.
Proof.
  repeat split; try reflexivity. discriminate.
Qed.

(** [TranslateEyes] in Qt's arithmetic with the C library [lm]. *)
Lemma TranslateEyes_PlainQt (lm : Libm) (i_deltaX i_deltaY i_deltaZ : float) (w : Widget) :
  GetTranslations (TranslateEyes (qt := PlainQt.qt_with lm) i_deltaX i_deltaY i_deltaZ w)
  = QVector3D_add (m_cameraTranslation w)
      (PlainQt.map
         (PlainQt.rotate QMatrix4x4_identity
            (PlainQt.fromEulerAngles lm (vx (m_cameraRotations w)) (vy (m_cameraRotations w))
                                     (vz (m_cameraRotations w))))
         (mkQVector3D i_deltaX i_deltaY i_deltaZ)).
Proof. reflexivity. Qed.

(** The quaternions of no rotation and of the constructor's rotation. *)
Lemma fromEulerAngles_zero (lm : Libm) :
  PlainQt.usual lm ->
  PlainQt.fromEulerAngles lm F32.zero F32.zero F32.zero
  = mkQQuaternion F32.one F32.zero F32.zero F32.zero.
Proof.
  intros (Hcos0 & Hsin0 & _ & _). unfold PlainQt.fromEulerAngles.
  replace (PlainQt.half_angle F32.zero) with F32.zero by (vm_compute; reflexivity).
  rewrite Hcos0, Hsin0. vm_compute. reflexivity.
Qed.

Lemma fromEulerAngles_half_turn (lm : Libm) :
  PlainQt.usual lm ->
  PlainQt.fromEulerAngles lm F32.zero (F32.of_Z 180) F32.zero
  = mkQQuaternion PlainQt.cosf_half_pi F32.zero F32.one (S754_zero true).
Proof.
  intros (Hcos0 & Hsin0 & Hcos & Hsin). unfold PlainQt.fromEulerAngles.
  replace (PlainQt.half_angle F32.zero) with F32.zero by (vm_compute; reflexivity).
  rewrite Hcos0, Hsin0, Hcos, Hsin. vm_compute. reflexivity.
Qed.

(** C10.  [TranslateEyes] adds to the stored translation the image of
    the delta vector under the rotation matrix of the quaternion built from
    the current Euler angles, and leaves the angles alone; [RotateEyes]
    adds its angles component by component, leaves the translation alone,
    and its result does not depend on the translation.  In Qt's
    arithmetic, on a machine whose [cosf] and [sinf] are the usual ones,
    the translation is in the camera's frame and not in the world's: take
    the new widget, whose angles are (0, 180, 0), and the same widget
    turned to (0, 0, 0), with the same translation.  One step forward,
    (0, 0, 1), or sideways, (1, 0, 0), is added as it is to the turned
    widget's translation; on the new widget it lands on the other side,
    at z = -1 or x = -1, which is not what adding the delta gives. *)
Theorem TranslateEyes_in_camera_frame (lm : Libm) (i_deltaX i_deltaY i_deltaZ : float)
    (i_yaw i_pitch i_roll : float) (w w2 : Widget) :
  GetTranslations (TranslateEyes i_deltaX i_deltaY i_deltaZ w)
    = QVector3D_add (GetTranslations w)
        (QMatrix4x4_map
           (QMatrix4x4_rotate QMatrix4x4_identity
              (QQuaternion_fromEulerAngles (vx (GetRotations w)) (vy (GetRotations w))
                                           (vz (GetRotations w))))
           (mkQVector3D i_deltaX i_deltaY i_deltaZ))
  /\ GetRotations (TranslateEyes i_deltaX i_deltaY i_deltaZ w) = GetRotations w
  /\ GetRotations (RotateEyes i_yaw i_pitch i_roll w)
     = mkQVector3D (F32.add (vx (GetRotations w)) i_yaw)
                   (F32.add (vy (GetRotations w)) i_pitch)
                   (F32.add (vz (GetRotations w)) i_roll)
  /\ GetTranslations (RotateEyes i_yaw i_pitch i_roll w) = GetTranslations w
  /\ (GetRotations w = GetRotations w2 ->
      GetRotations (RotateEyes i_yaw i_pitch i_roll w)
      = GetRotations (RotateEyes i_yaw i_pitch i_roll w2))
  /\ (PlainQt.usual lm ->
      let new := COpenVROpenGLWidget in
      let turned := RotateEyes F32.zero (F32.of_Z (-180)) F32.zero COpenVROpenGLWidget in
      let forward := mkQVector3D F32.zero F32.zero F32.one in
      let sideways := mkQVector3D F32.one F32.zero F32.zero in
      let tiny := F32.add PlainQt.cosf_half_pi PlainQt.cosf_half_pi in
      GetRotations new = mkQVector3D F32.zero (F32.of_Z 180) F32.zero
      /\ GetRotations turned = mkQVector3D F32.zero F32.zero F32.zero
      /\ GetTranslations turned = GetTranslations new
      /\ GetTranslations
           (TranslateEyes (qt := PlainQt.qt_with lm) F32.zero F32.zero F32.one turned)
         = QVector3D_add (GetTranslations turned) forward
      /\ GetTranslations
           (TranslateEyes (qt := PlainQt.qt_with lm) F32.one F32.zero F32.zero turned)
         = QVector3D_add (GetTranslations turned) sideways
      /\ GetTranslations
           (TranslateEyes (qt := PlainQt.qt_with lm) F32.zero F32.zero F32.one new)
         = mkQVector3D tiny F32.zero (F32.of_Z (-1))
      /\ GetTranslations
           (TranslateEyes (qt := PlainQt.qt_with lm) F32.one F32.zero F32.zero new)
         = mkQVector3D (F32.of_Z (-1)) F32.zero (F32.opp tiny)
      /\ GetTranslations
           (TranslateEyes (qt := PlainQt.qt_with lm) F32.zero F32.zero F32.one new)
         <> QVector3D_add (GetTranslations new) forward
      /\ GetTranslations
           (TranslateEyes (qt := PlainQt.qt_with lm) F32.one F32.zero F32.zero new)
         <> QVector3D_add (GetTranslations new) sideways).
Proof.
  split; [reflexivity|]. split; [reflexivity|]. split; [reflexivity|].
  split; [reflexivity|].
  split; [intros H; unfold RotateEyes, GetRotations in *; simpl; rewrite H; reflexivity|].
  intros Husual. cbv zeta.
  assert (Hturned : m_cameraRotations
                      (RotateEyes F32.zero (F32.of_Z (-180)) F32.zero COpenVROpenGLWidget)
                    = mkQVector3D F32.zero F32.zero F32.zero)
    by (vm_compute; reflexivity).
  assert (Hnew : m_cameraRotations COpenVROpenGLWidget
                 = mkQVector3D F32.zero (F32.of_Z 180) F32.zero)
    by (vm_compute; reflexivity).
  split; [exact Hnew|]. split; [exact Hturned|]. split; [reflexivity|].
  rewrite !TranslateEyes_PlainQt, Hturned, Hnew. cbn [vx vy vz].
  rewrite (fromEulerAngles_zero lm Husual), (fromEulerAngles_half_turn lm Husual).
  repeat split; try (vm_compute; reflexivity); vm_compute; discriminate.
Qed.

End Camera.

(** The C library of the examples is a usual one, and on it one step
    forward from the new widget ends at z = -1. *)
Lemma TranslateEyes_in_camera_frame_witness :
  PlainQt.usual PlainQt.libm
  /\ GetTranslations (TranslateEyes (qt := PlainQt.qt) F32.zero F32.zero F32.one
                                    COpenVROpenGLWidget)
     = mkQVector3D (F32.add PlainQt.cosf_half_pi PlainQt.cosf_half_pi) F32.zero
                   (F32.of_Z (-1))
  /\ GetRotations (RotateEyes F32.zero F32.one F32.zero COpenVROpenGLWidget)
     = GetRotations (RotateEyes F32.zero F32.one F32.zero
                       (TranslateEyes (qt := PlainQt.qt) F32.zero F32.zero F32.one
                                      COpenVROpenGLWidget)).
Proof.
  assert (Husual : PlainQt.usual PlainQt.libm)
    by (repeat split; vm_compute; reflexivity).
  split; [exact Husual|].
  destruct (TranslateEyes_in_camera_frame (qt := PlainQt.qt) PlainQt.libm
              F32.zero F32.zero F32.one F32.zero F32.one F32.zero COpenVROpenGLWidget
              (TranslateEyes (qt := PlainQt.qt) F32.zero F32.zero F32.one COpenVROpenGLWidget))
    as (_ & _ & _ & _ & Hrotate & Hframe).
  destruct (Hframe Husual) as (_ & _ & _ & _ & _ & Hforward & _).
  split; [exact Hforward | apply Hrotate; reflexivity].
Defined.

(** ** Initialisation *)

Lemma int_of_uint32_small (u : Z) : 0 <= u < 2 ^ 31 -> int_of_uint32 u = u.
Proof.
  intros H. unfold int_of_uint32. rewrite Z.mod_small by lia.
  destruct (u <? 2 ^ 31) eqn:E; [reflexivity|].
  apply Z.ltb_ge in E. lia.
Qed.

Lemma IsValid_iff (e : CEyeInfos) :
  IsValid e = true <->
  exists fb rb, m_frameBuffer e = Some fb /\ m_resolveBuffer e = Some rb
                /\ fbo_isValid fb = true /\ fbo_isValid rb = true.
Proof.
  unfold IsValid. split.
  - destruct (m_frameBuffer e) as [fb|]; [|discriminate].
    destruct (m_resolveBuffer e) as [rb|]; [|discriminate].
    intros H. apply andb_true_iff in H. exists fb, rb. tauto.
  - intros (fb & rb & -> & -> & Hf & Hr). rewrite Hf, Hr. reflexivity.
Qed.

Lemma isSome_true {A : Type} (o : option A) : isSome o = true -> exists a, o = Some a.
Proof. destruct o; [eauto | discriminate]. Qed.

Lemma CEyeInfos_new_run (p : Platform) (size : QSize) (w : Widget) :
  CEyeInfos_new p size w
  = Done (mkCEyeInfos QMatrix4x4_identity QMatrix4x4_identity
            (Some (driver_fbo p (gl_framebuffers w) (width size) (height size)
                              (mkFormat Depth GL_RGBA8 4)))
            (Some (driver_fbo p (S (gl_framebuffers w)) (width size) (height size)
                              (mkFormat NoAttachment GL_RGBA8 0)))
            size)
         (set_gl_framebuffers (S (S (gl_framebuffers w))) w)
         [E_initializeOpenGLFunctions;
          E_newFramebufferObject
            (driver_fbo p (gl_framebuffers w) (width size) (height size)
                        (mkFormat Depth GL_RGBA8 4));
          E_newFramebufferObject
            (driver_fbo p (S (gl_framebuffers w)) (width size) (height size)
                        (mkFormat NoAttachment GL_RGBA8 0))].
Proof.
  unfold CEyeInfos_new, new_QOpenGLFramebufferObject. run. reflexivity.
Qed.

Section Initialisation.

Context {scene : Scene}.

(** C4.  With a VR system and a recommended size that fits an [int],
    [InitializeEyesRendering] creates exactly four framebuffer objects,
    two per eye and all of the recommended size: a render buffer with
    depth attachment, RGBA8 and 4 samples, then a resolve buffer with
    RGBA8 and 0 samples.  [IsValid] holds exactly when both buffers of
    an eye exist and are valid, and the function returns [true] exactly
    when both eyes are valid. *)
Theorem InitializeEyesRendering_framebuffers (p : Platform) (w : Widget) :
  vr_active w = true ->
  0 <= fst (GetRecommendedRenderTargetSize p) < 2 ^ 31 ->
  0 <= snd (GetRecommendedRenderTargetSize p) < 2 ^ 31 ->
  exists (noErr : bool) (w' : Widget) (log : list Event) (eL eR : CEyeInfos),
    InitializeEyesRendering p w = Done noErr w' log
    /\ m_eyeInfos w' Left = Some eL
    /\ m_eyeInfos w' Right = Some eR
    /\ created log
       = [driver_fbo p (gl_framebuffers w)
            (fst (GetRecommendedRenderTargetSize p)) (snd (GetRecommendedRenderTargetSize p))
            (mkFormat Depth GL_RGBA8 4);
          driver_fbo p (1 + gl_framebuffers w)
            (fst (GetRecommendedRenderTargetSize p)) (snd (GetRecommendedRenderTargetSize p))
            (mkFormat NoAttachment GL_RGBA8 0);
          driver_fbo p (2 + gl_framebuffers w)
            (fst (GetRecommendedRenderTargetSize p)) (snd (GetRecommendedRenderTargetSize p))
            (mkFormat Depth GL_RGBA8 4);
          driver_fbo p (3 + gl_framebuffers w)
            (fst (GetRecommendedRenderTargetSize p)) (snd (GetRecommendedRenderTargetSize p))
            (mkFormat NoAttachment GL_RGBA8 0)]
    /\ m_frameBuffer eL = nth_error (created log) 0
    /\ m_resolveBuffer eL = nth_error (created log) 1
    /\ m_frameBuffer eR = nth_error (created log) 2
    /\ m_resolveBuffer eR = nth_error (created log) 3
    /\ (forall e : CEyeInfos,
          IsValid e = true <->
          exists fb rb, m_frameBuffer e = Some fb /\ m_resolveBuffer e = Some rb
                        /\ fbo_isValid fb = true /\ fbo_isValid rb = true)
    /\ (noErr = true <-> IsValid eL = true /\ IsValid eR = true).
Proof.
  intros Hvr Hw Hh.
  apply isSome_true in Hvr. destruct Hvr as [sys Hsys].
  unfold InitializeEyesRendering, create_eye.
  rewrite !int_of_uint32_small by assumption.
  set (W := fst (GetRecommendedRenderTargetSize p)).
  set (H := snd (GetRecommendedRenderTargetSize p)).
  run. rewrite Hsys. run.
  rewrite (bind_Done _ _ _ _ _ _ (CEyeInfos_new_run p (mkQSize W H) w)). run.
  erewrite (bind_Done (CEyeInfos_new _ _)) by apply CEyeInfos_new_run.
  run.
  eexists _, _, _, _, _. split; [reflexivity|]. fields. slots.
  split; [reflexivity|]. split; [reflexivity|]. split; [reflexivity|].
  split; [reflexivity|]. split; [reflexivity|]. split; [reflexivity|].
  split; [reflexivity|]. split; [apply IsValid_iff|].
  rewrite andb_true_l. apply andb_true_iff.
Qed.

(** C6.  On a widget whose VR system pointer is null, and with a runtime
    whose [VR_Init] returns a non-null pointer whenever it reports no
    error, [InitializeVR] returns [false] in exactly four cases: no
    runtime installed, no headset present, an error from [VR_Init], no
    compositor.  Each of them shows one critical dialog and leaves the
    pointer null, and only the last one shuts the runtime down.  In every
    other case it returns [true] with a non-null pointer and no dialog.
    When it returns [false], [initializeGL] stops there: nothing of the
    eye, controller or scene initialisation runs. *)
Theorem InitializeVR_failure_cases (p : Platform) (w : Widget) :
  m_vrSystem w = None ->
  (snd (VR_Init p) = VRInitError_None -> fst (VR_Init p) <> None) ->
  exists (ok : bool) (w' : Widget) (log : list Event),
    InitializeVR p w = Done ok w' log
    /\ (ok = false <->
        VR_IsRuntimeInstalled p = false \/ VR_IsHmdPresent p = false
        \/ snd (VR_Init p) <> VRInitError_None \/ VRCompositor p = None)
    /\ (VR_IsRuntimeInstalled p = false ->
        log = [E_qDebug "No VR runtime installed.";
               E_QMessageBox_critical (windowTitle p) "No VR runtime installed."])
    /\ (VR_IsRuntimeInstalled p = true -> VR_IsHmdPresent p = false ->
        log = [E_qDebug "Any headset found.";
               E_QMessageBox_critical (windowTitle p) "Any headset found."])
    /\ (VR_IsRuntimeInstalled p = true -> VR_IsHmdPresent p = true ->
        snd (VR_Init p) <> VRInitError_None ->
        log = [E_VR_Init;
               E_qDebug ("Unable to init VR runtime: "
                         ++ VR_GetVRInitErrorAsEnglishDescription p (snd (VR_Init p)));
               E_QMessageBox_critical (windowTitle p)
                 ("Unable to init VR runtime: "
                  ++ VR_GetVRInitErrorAsEnglishDescription p (snd (VR_Init p)))])
    /\ (VR_IsRuntimeInstalled p = true -> VR_IsHmdPresent p = true ->
        snd (VR_Init p) = VRInitError_None -> VRCompositor p = None ->
        log = [E_VR_Init;
               E_qCritical "Compositor initialization failed. See log file for details";
               E_QMessageBox_critical (windowTitle p)
                 "Compositor initialization failed. See log file for details";
               E_VR_Shutdown])
    /\ (ok = false ->
        m_vrSystem w' = None
        /\ length (List.filter is_dialog log) = 1%nat
        /\ (existsb is_shutdown log = true <->
            VR_IsRuntimeInstalled p = true /\ VR_IsHmdPresent p = true
            /\ snd (VR_Init p) = VRInitError_None /\ VRCompositor p = None)
        /\ initializeGL p w
           = Done tt w' ([E_initializeOpenGLFunctions; E_glEnable GL_DEPTH_TEST] ++ log)
        /\ existsb is_setup log = false
        /\ m_eyeInfos w' = m_eyeInfos w
        /\ m_controllers w' = m_controllers w
        /\ gl_framebuffers w' = gl_framebuffers w)
    /\ (ok = true ->
        m_vrSystem w' = fst (VR_Init p) /\ m_vrSystem w' <> None
        /\ log = [E_VR_Init]).
Proof.
  intros Hnull Hsdk.
  unfold initializeGL, InitializeVR.
  destruct (VR_IsRuntimeInstalled p) eqn:Hinst; cbn [negb].
  2:{ run. eexists _, _, _. split; [reflexivity|].
      repeat split; try reflexivity; try discriminate; try assumption; auto.
      all: cbn; intros; intuition discriminate. }
  destruct (VR_IsHmdPresent p) eqn:Hhmd; cbn [negb].
  2:{ run. eexists _, _, _. split; [reflexivity|].
      repeat split; try reflexivity; try discriminate; try assumption; auto.
      all: cbn; intros; intuition discriminate. }
  destruct (decide (snd (VR_Init p) <> VRInitError_None)) as [Herr|Herr].
  { run. eexists _, _, _. split; [reflexivity|].
    repeat split; try reflexivity; try discriminate; auto.
    all: cbn; intros; intuition (try discriminate; try congruence). }
  assert (Hnone : snd (VR_Init p) = VRInitError_None).
  { destruct (decide (snd (VR_Init p) = VRInitError_None)); [assumption|contradiction]. }
  destruct (VRCompositor p) as [comp|] eqn:Hcomp.
  - run. eexists _, _, _. split; [reflexivity|].
    repeat split; try reflexivity; try discriminate; auto.
    all: cbn; intros; intuition (try discriminate; try congruence).
  - run. eexists _, _, _. split; [reflexivity|].
    repeat split; try reflexivity; try discriminate; auto.
    all: cbn; intros; intuition (try discriminate; try congruence).
Qed.

End Initialisation.

(** ** The two device loops *)

Lemma LoadModel_run (p : Platform) (name : string) (w : Widget) :
  LoadModel p name w = Done (loaded_model p name) w (loading_log p name).
Proof.
  unfold LoadModel, loaded_model, loading_log.
  destruct (LoadRenderModel_Async p name) as [error pModel].
  destruct (decide (error <> VRRenderModelError_None)); [run; reflexivity|].
  destruct (decide (LoadTexture_Async p (diffuseTextureId pModel) <> VRRenderModelError_None));
    run; reflexivity.
Qed.

Lemma last_such_app (f : nat -> bool) (l : list nat) (i : nat) :
  last_such f (l ++ [i])
  = if f i then Some i else last_such f l.
Proof.
  induction l as [|j l IH]; simpl.
  - reflexivity.
  - rewrite IH. destruct (f i); [reflexivity|].
    destruct (last_such f l); reflexivity.
Qed.

Lemma last_such_Some (f : nat -> bool) (l : list nat) (i : nat) :
  last_such f l = Some i -> In i l /\ f i = true.
Proof.
  induction l as [|j l IH]; simpl; [discriminate|].
  destruct (last_such f l) as [k|].
  - intros H. injection H as ->. destruct (IH eq_refl). auto.
  - destruct (f j) eqn:E; [|discriminate].
    intros H. injection H as ->. auto.
Qed.

Lemma last_such_None (f : nat -> bool) (l : list nat) :
  last_such f l = None -> forall i, In i l -> f i = false.
Proof.
  induction l as [|j l IH]; simpl; [tauto|].
  destruct (last_such f l) as [k|]; [discriminate|].
  destruct (f j) eqn:E; [discriminate|].
  intros _ i [<-|Hin]; auto.
Qed.

Lemma handIndex_Left (role : ETrackedControllerRole) :
  handIndex role = Left <-> role = TrackedControllerRole_LeftHand.
Proof.
  unfold handIndex. destruct (decide (TrackedControllerRole_LeftHand = role)); split;
    intros H; try congruence; try discriminate.
Qed.

Lemma handIndex_Right (role : ETrackedControllerRole) :
  handIndex role = Right <-> role <> TrackedControllerRole_LeftHand.
Proof.
  unfold handIndex. destruct (decide (TrackedControllerRole_LeftHand = role)); split;
    intros H; try congruence; try discriminate.
Qed.

Section DeviceLoops.

Context {qt : QtMath} {scene : Scene}.

Lemma getTrackedDeviceString_run (p : Platform) (i : nat) (w : Widget) :
  vr_active w = true ->
  getTrackedDeviceString p i w = Done (device_model_name p i) w [].
Proof.
  intros Hvr. apply isSome_true in Hvr. destruct Hvr as [sys Hsys].
  unfold getTrackedDeviceString, device_model_name. run. rewrite Hsys. run.
  destruct (RenderModelName_length p i =? 0); reflexivity.
Qed.

Lemma init_controller_run (p : Platform) (i : nat) (w : Widget) :
  vr_active w = true ->
  init_controller p i w = Done tt (init_controller_step p i w) (init_controller_log p i)
  /\ vr_active (init_controller_step p i w) = true.
Proof.
  intros Hvr. pose proof Hvr as Hvr'.
  apply isSome_true in Hvr'. destruct Hvr' as [sys Hsys].
  unfold init_controller, init_controller_step, init_controller_log.
  run. rewrite Hsys. run.
  destruct (decide (GetTrackedDeviceClass p i <> TrackedDeviceClass_Controller)).
  - split; [reflexivity | assumption].
  - rewrite (bind_Done _ _ _ _ _ _ (getTrackedDeviceString_run p i w Hvr)). run.
    rewrite (bind_Done _ _ _ _ _ _ (LoadModel_run p _ w)). run.
    rewrite app_nil_r. split; [reflexivity | assumption].
Qed.

Lemma update_device_run (p : Platform) (n : nat) (w : Widget) :
  vr_active w = true ->
  update_device p n w = Done tt (update_device_step p n w) []
  /\ vr_active (update_device_step p n w) = true.
Proof.
  intros Hvr. pose proof Hvr as Hvr'.
  apply isSome_true in Hvr'. destruct Hvr' as [sys Hsys].
  unfold update_device, update_device_step. run.
  destruct (bPoseIsValid (m_trackedDevicePose w n)); [|split; [reflexivity|assumption]].
  run. rewrite Hsys. run.
  destruct (GetTrackedDeviceClass p n); run; split; try reflexivity; assumption.
Qed.

End DeviceLoops.

(** A component that every step of a loop either overwrites with a value
    of its own or leaves alone ends up with the last value written. *)
Lemma fold_last_write {X : Type} (Inv : Widget -> Prop) (get : Widget -> X)
    (step : nat -> Widget -> Widget) (f : nat -> bool) (v : nat -> X) (l : list nat) :
  (forall i w, In i l -> Inv w ->
               Inv (step i w) /\ get (step i w) = if f i then v i else get w) ->
  forall w, Inv w ->
    get (fold_left (fun w i => step i w) l w)
    = match last_such f l with Some i => v i | None => get w end.
Proof.
  induction l as [|i l IH]; intros Hstep w HI; simpl; [reflexivity|].
  destruct (Hstep i w (or_introl eq_refl) HI) as [HI' Hget].
  rewrite IH; [|intros; apply Hstep; [right|]; assumption | assumption].
  destruct (last_such f l); [reflexivity|].
  rewrite Hget. destruct (f i); reflexivity.
Qed.

Lemma fold_untouched {X : Type} (get : Widget -> X) (step : nat -> Widget -> Widget)
    (l : list nat) :
  (forall i w, get (step i w) = get w) ->
  forall w, get (fold_left (fun w i => step i w) l w) = get w.
Proof.
  intros Hstep. induction l as [|i l IH]; intros w; simpl; [reflexivity|].
  rewrite IH. apply Hstep.
Qed.

Section DeviceLoopResults.

Context {qt : QtMath}.

(** *** [InitializeControllers] *)

Lemma init_controller_step_slot (p : Platform) (i : nat) (w : Widget) (hand : Eye) :
  m_controllers (init_controller_step p i w) hand
  = if controller_for p hand i
    then mkSControllerInfos (m_rmat4Pose (m_controllers w hand))
                            (loaded_model p (device_model_name p i)) true
    else m_controllers w hand.
Proof.
  unfold init_controller_step, controller_for.
  destruct (decide (GetTrackedDeviceClass p i <> TrackedDeviceClass_Controller)) as [Hc|Hc].
  - rewrite bool_decide_eq_false_2 by assumption. reflexivity.
  - rewrite bool_decide_eq_true_2 by (destruct (decide (GetTrackedDeviceClass p i
                                                 = TrackedDeviceClass_Controller)); tauto).
    cbn [andb]. fields.
    destruct (decide (handIndex (GetControllerRoleForTrackedDeviceIndex p i) = hand)) as [<-|Hh].
    + rewrite bool_decide_eq_true_2 by reflexivity. slots. reflexivity.
    + rewrite bool_decide_eq_false_2 by assumption.
      rewrite !fn_lookup_insert_ne by assumption. reflexivity.
Qed.

Lemma init_controller_step_frame (p : Platform) (i : nat) (w : Widget) :
  m_vrSystem (init_controller_step p i w) = m_vrSystem w
  /\ m_eyeInfos (init_controller_step p i w) = m_eyeInfos w
  /\ m_hmdPose (init_controller_step p i w) = m_hmdPose w
  /\ m_trackedDevicePose (init_controller_step p i w) = m_trackedDevicePose w
  /\ camera_of (init_controller_step p i w) = camera_of w
  /\ gl_framebuffers (init_controller_step p i w) = gl_framebuffers w.
Proof.
  unfold init_controller_step.
  destruct (decide (GetTrackedDeviceClass p i <> TrackedDeviceClass_Controller));
    repeat split; reflexivity.
Qed.

Lemma init_loop_slot (p : Platform) (l : list nat) (w : Widget) (hand : Eye) :
  m_controllers (fold_left (fun w i => init_controller_step p i w) l w) hand
  = match last_such (controller_for p hand) l with
    | Some i => mkSControllerInfos (m_rmat4Pose (m_controllers w hand))
                                   (loaded_model p (device_model_name p i)) true
    | None => m_controllers w hand
    end.
Proof.
  apply (fold_last_write
           (fun u => m_rmat4Pose (m_controllers u hand) = m_rmat4Pose (m_controllers w hand))
           (fun u => m_controllers u hand)
           (fun i u => init_controller_step p i u)
           (controller_for p hand)
           (fun i => mkSControllerInfos (m_rmat4Pose (m_controllers w hand))
                                        (loaded_model p (device_model_name p i)) true));
    [|reflexivity].
  intros i u _ HI. rewrite init_controller_step_slot.
  destruct (controller_for p hand i); fields; rewrite ?HI; auto.
Qed.

(** *** The device loop of [UpdatePositions] *)

Lemma update_device_step_frame (p : Platform) (n : nat) (w : Widget) :
  m_vrSystem (update_device_step p n w) = m_vrSystem w
  /\ m_eyeInfos (update_device_step p n w) = m_eyeInfos w
  /\ m_trackedDevicePose (update_device_step p n w) = m_trackedDevicePose w
  /\ camera_of (update_device_step p n w) = camera_of w
  /\ gl_framebuffers (update_device_step p n w) = gl_framebuffers w.
Proof.
  unfold update_device_step.
  destruct (bPoseIsValid (m_trackedDevicePose w n)); [|repeat split; reflexivity].
  destruct (GetTrackedDeviceClass p n); repeat split; reflexivity.
Qed.

Lemma update_device_step_slot (p : Platform) (n : nat) (w : Widget) (hand : Eye) :
  m_controllers (update_device_step p n w) hand
  = if tracked_controller_for p (m_trackedDevicePose w) hand n
    then mkSControllerInfos
           (vrMatrixToQt34 (mDeviceToAbsoluteTracking (m_trackedDevicePose w n)))
           (m_pRenderModel (m_controllers w hand)) (m_bShowController (m_controllers w hand))
    else m_controllers w hand.
Proof.
  unfold update_device_step, tracked_controller_for.
  destruct (bPoseIsValid (m_trackedDevicePose w n)); [|reflexivity].
  cbn [andb].
  destruct (GetTrackedDeviceClass p n) eqn:Hc;
    try (rewrite bool_decide_eq_false_2 by discriminate; reflexivity).
  rewrite bool_decide_eq_true_2 by reflexivity. cbn [andb]. fields.
  destruct (decide (handIndex (GetControllerRoleForTrackedDeviceIndex p n) = hand)) as [<-|Hh].
  - rewrite bool_decide_eq_true_2 by reflexivity. slots. reflexivity.
  - rewrite bool_decide_eq_false_2 by assumption.
    rewrite fn_lookup_insert_ne by assumption. reflexivity.
Qed.

Lemma update_loop_slot (p : Platform) (l : list nat) (w : Widget) (hand : Eye) :
  let c := m_controllers (fold_left (fun w i => update_device_step p i w) l w) hand in
  m_pRenderModel c = m_pRenderModel (m_controllers w hand)
  /\ m_bShowController c = m_bShowController (m_controllers w hand)
  /\ m_rmat4Pose c
     = match last_such (tracked_controller_for p (m_trackedDevicePose w) hand) l with
       | Some i => vrMatrixToQt34 (mDeviceToAbsoluteTracking (m_trackedDevicePose w i))
       | None => m_rmat4Pose (m_controllers w hand)
       end.
Proof.
  cbv zeta. split; [|split].
  - apply (fold_untouched (fun u => m_pRenderModel (m_controllers u hand))
                          (fun i u => update_device_step p i u)).
    intros i u. rewrite update_device_step_slot.
    destruct (tracked_controller_for p (m_trackedDevicePose u) hand i); reflexivity.
  - apply (fold_untouched (fun u => m_bShowController (m_controllers u hand))
                          (fun i u => update_device_step p i u)).
    intros i u. rewrite update_device_step_slot.
    destruct (tracked_controller_for p (m_trackedDevicePose u) hand i); reflexivity.
  - apply (fold_last_write
             (fun u => m_trackedDevicePose u = m_trackedDevicePose w)
             (fun u => m_rmat4Pose (m_controllers u hand))
             (fun i u => update_device_step p i u)
             (tracked_controller_for p (m_trackedDevicePose w) hand)
             (fun i => vrMatrixToQt34 (mDeviceToAbsoluteTracking (m_trackedDevicePose w i))));
      [|reflexivity].
    intros i u _ HI. split.
    + rewrite <- HI. apply update_device_step_frame.
    + rewrite update_device_step_slot, HI.
      destruct (tracked_controller_for p (m_trackedDevicePose w) hand i); reflexivity.
Qed.

Lemma update_device_step_hmd (p : Platform) (n : nat) (w : Widget) :
  m_hmdPose (update_device_step p n w)
  = if tracked_hmd p (m_trackedDevicePose w) n
    then QMatrix4x4_inverted
           (m_matrixDevicePose (update_device_step p n w) k_unTrackedDeviceIndex_Hmd)
    else m_hmdPose w.
Proof.
  unfold update_device_step, tracked_hmd.
  destruct (bPoseIsValid (m_trackedDevicePose w n)); [|reflexivity].
  cbn [andb].
  destruct (GetTrackedDeviceClass p n) eqn:Hc;
    try (rewrite bool_decide_eq_false_2 by discriminate; reflexivity).
  rewrite bool_decide_eq_true_2 by reflexivity. reflexivity.
Qed.

Lemma update_device_step_matrix (p : Platform) (n k : nat) (w : Widget) :
  m_matrixDevicePose (update_device_step p n w) k
  = if bPoseIsValid (m_trackedDevicePose w n) && bool_decide (n = k)
    then vrMatrixToQt34 (mDeviceToAbsoluteTracking (m_trackedDevicePose w n))
    else m_matrixDevicePose w k.
Proof.
  unfold update_device_step.
  destruct (bPoseIsValid (m_trackedDevicePose w n)); [|reflexivity].
  cbn [andb].
  assert (H : m_matrixDevicePose
                (set_matrixDevicePose
                   (<[n := vrMatrixToQt34 (mDeviceToAbsoluteTracking (m_trackedDevicePose w n))]>
                      (m_matrixDevicePose w)) w) k
              = if bool_decide (n = k)
                then vrMatrixToQt34 (mDeviceToAbsoluteTracking (m_trackedDevicePose w n))
                else m_matrixDevicePose w k).
  { fields. destruct (decide (n = k)) as [<-|Hne].
    - rewrite bool_decide_eq_true_2 by reflexivity. apply fn_lookup_insert.
    - rewrite bool_decide_eq_false_2 by assumption. apply fn_lookup_insert_ne. assumption. }
  destruct (GetTrackedDeviceClass p n); exact H.
Qed.

(** After device 0, no later device rewrites the headset's matrix. *)
Lemma update_loop_hmd_tail (p : Platform) (l : list nat) (w : Widget) :
  ~ In k_unTrackedDeviceIndex_Hmd l ->
  m_hmdPose (fold_left (fun w i => update_device_step p i w) l w)
  = match last_such (tracked_hmd p (m_trackedDevicePose w)) l with
    | Some _ => QMatrix4x4_inverted (m_matrixDevicePose w k_unTrackedDeviceIndex_Hmd)
    | None => m_hmdPose w
    end.
Proof.
  intros Hnotin.
  apply (fold_last_write
           (fun u => m_trackedDevicePose u = m_trackedDevicePose w
                     /\ m_matrixDevicePose u k_unTrackedDeviceIndex_Hmd
                        = m_matrixDevicePose w k_unTrackedDeviceIndex_Hmd)
           m_hmdPose
           (fun i u => update_device_step p i u)
           (tracked_hmd p (m_trackedDevicePose w))
           (fun _ => QMatrix4x4_inverted (m_matrixDevicePose w k_unTrackedDeviceIndex_Hmd)));
    [|split; reflexivity].
  intros i u Hin [HP HM].
  assert (Hm : m_matrixDevicePose (update_device_step p i u) k_unTrackedDeviceIndex_Hmd
               = m_matrixDevicePose w k_unTrackedDeviceIndex_Hmd).
  { rewrite update_device_step_matrix.
    rewrite (bool_decide_eq_false_2 (i = k_unTrackedDeviceIndex_Hmd)), andb_false_r
      by (intros ->; contradiction).
    exact HM. }
  split; [split|].
  - rewrite <- HP. apply update_device_step_frame.
  - exact Hm.
  - rewrite update_device_step_hmd, Hm, HP. reflexivity.
Qed.

Lemma device_indices :
  seq 0 k_unMaxTrackedDeviceCount = k_unTrackedDeviceIndex_Hmd :: seq 1 63.
Proof. reflexivity. Qed.

Lemma not_in_seq_1 (n : nat) : ~ In k_unTrackedDeviceIndex_Hmd (seq 1 n).
Proof. rewrite in_seq. unfold k_unTrackedDeviceIndex_Hmd. lia. Qed.

Lemma update_loop_hmd_cons (p : Platform) (l : list nat) (w : Widget) :
  ~ In k_unTrackedDeviceIndex_Hmd l ->
  m_hmdPose (fold_left (fun w i => update_device_step p i w)
                       (k_unTrackedDeviceIndex_Hmd :: l) w)
  = match last_such (tracked_hmd p (m_trackedDevicePose w))
                    (k_unTrackedDeviceIndex_Hmd :: l) with
    | Some _ =>
        QMatrix4x4_inverted
          (if bPoseIsValid (m_trackedDevicePose w k_unTrackedDeviceIndex_Hmd)
           then vrMatrixToQt34
                  (mDeviceToAbsoluteTracking (m_trackedDevicePose w k_unTrackedDeviceIndex_Hmd))
           else m_matrixDevicePose w k_unTrackedDeviceIndex_Hmd)
    | None => m_hmdPose w
    end.
Proof.
  intros Hnotin.
  cbn [fold_left last_such].
  rewrite update_loop_hmd_tail by assumption.
  assert (HP : m_trackedDevicePose (update_device_step p k_unTrackedDeviceIndex_Hmd w)
               = m_trackedDevicePose w)
    by apply update_device_step_frame.
  rewrite HP.
  assert (HM : m_matrixDevicePose (update_device_step p k_unTrackedDeviceIndex_Hmd w)
                                  k_unTrackedDeviceIndex_Hmd
               = if bPoseIsValid (m_trackedDevicePose w k_unTrackedDeviceIndex_Hmd)
                 then vrMatrixToQt34
                        (mDeviceToAbsoluteTracking
                           (m_trackedDevicePose w k_unTrackedDeviceIndex_Hmd))
                 else m_matrixDevicePose w k_unTrackedDeviceIndex_Hmd).
  { rewrite update_device_step_matrix.
    rewrite bool_decide_eq_true_2 by reflexivity. rewrite andb_true_r. reflexivity. }
  destruct (last_such (tracked_hmd p (m_trackedDevicePose w)) l).
  - rewrite HM. reflexivity.
  - rewrite update_device_step_hmd, HM.
    unfold tracked_hmd.
    destruct (bPoseIsValid (m_trackedDevicePose w k_unTrackedDeviceIndex_Hmd)); cbn [andb];
      [|reflexivity].
    destruct (bool_decide (GetTrackedDeviceClass p k_unTrackedDeviceIndex_Hmd
                           = TrackedDeviceClass_HMD)); reflexivity.
Qed.

Lemma update_loop_hmd (p : Platform) (w : Widget) :
  m_hmdPose (fold_left (fun w i => update_device_step p i w)
                       (seq 0 k_unMaxTrackedDeviceCount) w)
  = match last_such (tracked_hmd p (m_trackedDevicePose w)) (seq 0 k_unMaxTrackedDeviceCount) with
    | Some _ =>
        QMatrix4x4_inverted
          (if bPoseIsValid (m_trackedDevicePose w k_unTrackedDeviceIndex_Hmd)
           then vrMatrixToQt34
                  (mDeviceToAbsoluteTracking (m_trackedDevicePose w k_unTrackedDeviceIndex_Hmd))
           else m_matrixDevicePose w k_unTrackedDeviceIndex_Hmd)
    | None => m_hmdPose w
    end.
Proof.
  rewrite device_indices. apply update_loop_hmd_cons, not_in_seq_1.
Qed.

End DeviceLoopResults.

(** ** [UpdatePositions] and [renderEye] *)

Section Frames.

Context {qt : QtMath} {scene : Scene}.

Local Open Scope qmat_scope.

Lemma update_loop_run (p : Platform) (l : list nat) (w : Widget) :
  vr_active w = true ->
  for_each l (update_device p) w
  = Done tt (fold_left (fun w i => update_device_step p i w) l w) [].
Proof.
  intros Hvr.
  destruct (for_each_steps (fun u => vr_active u = true) (update_device p)
              (update_device_step p) (fun _ => []) l (update_device_run p) w Hvr)
    as [Hrun _].
  rewrite Hrun. f_equal. clear. induction l; [reflexivity | assumption].
Qed.

Lemma init_loop_run (p : Platform) (l : list nat) (w : Widget) :
  vr_active w = true ->
  for_each l (init_controller p) w
  = Done tt (fold_left (fun w i => init_controller_step p i w) l w)
            (flat_map (init_controller_log p) l).
Proof.
  intros Hvr.
  apply (for_each_steps (fun u => vr_active u = true) (init_controller p)
           (init_controller_step p) (init_controller_log p) l (init_controller_run p) w Hvr).
Qed.

Lemma UpdatePositions_run (p : Platform) (w : Widget) (eL eR : CEyeInfos) :
  vr_active w = true ->
  isSome (VRCompositor p) = true ->
  m_eyeInfos w Left = Some eL ->
  m_eyeInfos w Right = Some eR ->
  UpdatePositions p w = Done tt (positions_updated p eL eR w) [E_WaitGetPoses].
Proof.
  intros Hvr Hcomp HL HR. pose proof Hvr as Hvr'.
  apply isSome_true in Hvr'. destruct Hvr' as [sys Hsys].
  apply isSome_true in Hcomp. destruct Hcomp as [comp Hcomp].
  unfold UpdatePositions, positions_updated, eyes_refreshed, update_eye, WaitGetPoses_call,
    both_eyes.
  cbn [for_each]. run. rewrite Hsys. run. rewrite HL. run. rewrite Hsys. run.
  rewrite HR. run. rewrite Hcomp. run.
  rewrite update_loop_run by exact Hvr.
  reflexivity.
Qed.

(** The fields of the state [UpdatePositions] leaves. *)
Lemma positions_updated_fields (p : Platform) (w : Widget) (eL eR : CEyeInfos) :
  m_vrSystem (positions_updated p eL eR w) = m_vrSystem w
  /\ m_eyeInfos (positions_updated p eL eR w) Left = Some (refreshed p Left eL)
  /\ m_eyeInfos (positions_updated p eL eR w) Right = Some (refreshed p Right eR)
  /\ camera_of (positions_updated p eL eR w) = camera_of w
  /\ gl_framebuffers (positions_updated p eL eR w) = gl_framebuffers w
  /\ m_trackedDevicePose (positions_updated p eL eR w) = WaitGetPoses p.
Proof.
  unfold positions_updated.
  repeat split.
  - rewrite (fold_untouched m_vrSystem (fun i u => update_device_step p i u));
      [reflexivity | intros; apply update_device_step_frame].
  - rewrite (fold_untouched (fun u => m_eyeInfos u Left) (fun i u => update_device_step p i u)).
    + unfold eyes_refreshed. fields. slots. reflexivity.
    + intros i u. destruct (update_device_step_frame p i u) as (_ & -> & _). reflexivity.
  - rewrite (fold_untouched (fun u => m_eyeInfos u Right) (fun i u => update_device_step p i u)).
    + unfold eyes_refreshed. fields. slots. reflexivity.
    + intros i u. destruct (update_device_step_frame p i u) as (_ & -> & _). reflexivity.
  - rewrite (fold_untouched camera_of (fun i u => update_device_step p i u));
      [reflexivity | intros; apply update_device_step_frame].
  - rewrite (fold_untouched gl_framebuffers (fun i u => update_device_step p i u));
      [reflexivity | intros; apply update_device_step_frame].
  - rewrite (fold_untouched m_trackedDevicePose (fun i u => update_device_step p i u));
      [reflexivity | intros; apply update_device_step_frame].
Qed.

Lemma positions_updated_slot (p : Platform) (w : Widget) (eL eR : CEyeInfos) (hand : Eye) :
  m_pRenderModel (m_controllers (positions_updated p eL eR w) hand)
    = m_pRenderModel (m_controllers w hand)
  /\ m_bShowController (m_controllers (positions_updated p eL eR w) hand)
    = m_bShowController (m_controllers w hand)
  /\ m_rmat4Pose (m_controllers (positions_updated p eL eR w) hand)
    = match last_such (tracked_controller_for p (WaitGetPoses p) hand)
                      (seq 0 k_unMaxTrackedDeviceCount) with
      | Some i => vrMatrixToQt34 (mDeviceToAbsoluteTracking (WaitGetPoses p i))
      | None => m_rmat4Pose (m_controllers w hand)
      end.
Proof.
  unfold positions_updated.
  apply (update_loop_slot p (seq 0 k_unMaxTrackedDeviceCount)
           (set_trackedDevicePose (WaitGetPoses p) (eyes_refreshed p eL eR w)) hand).
Qed.

Lemma positions_updated_hmd (p : Platform) (w : Widget) (eL eR : CEyeInfos) :
  m_hmdPose (positions_updated p eL eR w)
  = match last_such (tracked_hmd p (WaitGetPoses p)) (seq 0 k_unMaxTrackedDeviceCount) with
    | Some _ =>
        QMatrix4x4_inverted
          (if bPoseIsValid (WaitGetPoses p k_unTrackedDeviceIndex_Hmd)
           then vrMatrixToQt34
                  (mDeviceToAbsoluteTracking (WaitGetPoses p k_unTrackedDeviceIndex_Hmd))
           else m_matrixDevicePose w k_unTrackedDeviceIndex_Hmd)
    | None => m_hmdPose w
    end.
Proof.
  unfold positions_updated.
  apply (update_loop_hmd p (set_trackedDevicePose (WaitGetPoses p) (eyes_refreshed p eL eR w))).
Qed.

Lemma positions_updated_ready (p : Platform) (w : Widget) (eL eR : CEyeInfos) :
  controllers_ready (positions_updated p eL eR w) = controllers_ready w.
Proof.
  unfold controllers_ready, has_model.
  destruct (positions_updated_slot p w eL eR Left) as (-> & -> & _).
  destruct (positions_updated_slot p w eL eR Right) as (-> & -> & _).
  reflexivity.
Qed.

Lemma draw_controller_run (matVP : QMatrix4x4) (hand : Eye) (w : Widget) :
  has_model (m_controllers w hand) = true ->
  draw_controller matVP hand w = Done tt w (controller_draw w matVP hand).
Proof.
  unfold has_model, draw_controller, controller_draw, Draw. intros Hm. run.
  destruct (m_bShowController (m_controllers w hand)); cbn [negb] in *; [|reflexivity].
  destruct (m_pRenderModel (m_controllers w hand)); [|discriminate].
  run. reflexivity.
Qed.

Lemma renderEye_run (i_eye : Eye) (e : CEyeInfos) (w : Widget) :
  m_eyeInfos w i_eye = Some e ->
  controllers_ready w = true ->
  renderEye i_eye w = Done tt (after_render i_eye e w) (renderEye_log i_eye e w).
Proof.
  intros He Hready. apply andb_true_iff in Hready. destruct Hready as [HL HR].
  unfold renderEye, renderEye_log, after_render, call_scene, both_eyes,
    GetProjectionMatrix_eye, GetViewMatrix.
  cbn [for_each]. run. rewrite He. run.
  rewrite (bind_Done _ _ _ _ _ _ (draw_controller_run _ Left w HL)). run.
  rewrite (bind_Done _ _ _ _ _ _ (draw_controller_run _ Right w HR)). run.
  rewrite <- !app_assoc. reflexivity.
Qed.

Lemma renderEye_null (i_eye : Eye) (w : Widget) :
  m_eyeInfos w i_eye = None -> renderEye i_eye w = Crash (NullEyeInfos i_eye).
Proof.
  intros He. unfold renderEye. run. rewrite He. run. reflexivity.
Qed.

Lemma after_render_fields (i_eye : Eye) (e : CEyeInfos) (w : Widget) :
  m_vrSystem (after_render i_eye e w) = m_vrSystem w
  /\ m_eyeInfos (after_render i_eye e w) = m_eyeInfos w
  /\ m_controllers (after_render i_eye e w) = m_controllers w
  /\ m_hmdPose (after_render i_eye e w) = m_hmdPose w.
Proof. repeat split; reflexivity. Qed.

Lemma render_to_hmd_run (eye : Eye) (e : CEyeInfos) (fb : QOpenGLFramebufferObject)
    (w : Widget) :
  m_eyeInfos w eye = Some e ->
  m_frameBuffer e = Some fb ->
  controllers_ready w = true ->
  render_to_hmd eye w = Done tt (after_render eye e w) (hmd_pass eye e fb w).
Proof.
  intros He Hfb Hready.
  unfold render_to_hmd, hmd_pass, SetSurface, UnsetSurface.
  run. rewrite He. run. rewrite Hfb. run.
  rewrite (bind_Done _ _ _ _ _ _ (renderEye_run eye e w He Hready)). run.
  destruct (after_render_fields eye e w) as (_ & -> & _).
  rewrite He. run. rewrite Hfb. run.
  unfold renderEye_log. rewrite <- !app_assoc. reflexivity.
Qed.

End Frames.

(** ** [paintGL] *)

Lemma eye_ready_inv (w : Widget) (eye : Eye) :
  eye_ready w eye = true ->
  exists e fb rb,
    m_eyeInfos w eye = Some e /\ m_frameBuffer e = Some fb /\ m_resolveBuffer e = Some rb.
Proof.
  unfold eye_ready. destruct (m_eyeInfos w eye) as [e|]; [|discriminate].
  intros H. apply andb_true_iff in H. destruct H as [Hf Hr].
  apply isSome_true in Hf. destruct Hf as [fb Hf].
  apply isSome_true in Hr. destruct Hr as [rb Hr].
  exists e, fb, rb. auto.
Qed.

Lemma frame_ready_inv (p : Platform) (w : Widget) :
  frame_ready p w = true ->
  vr_active w = true /\ isSome (VRCompositor p) = true
  /\ eye_ready w Left = true /\ eye_ready w Right = true /\ controllers_ready w = true.
Proof.
  unfold frame_ready. rewrite !andb_true_iff. tauto.
Qed.

Section Painting.

Context {qt : QtMath} {scene : Scene}.

Local Open Scope qmat_scope.

Lemma vr_active_decide (w : Widget) :
  bool_decide (m_vrSystem w <> None) = vr_active w.
Proof.
  unfold vr_active. destruct (m_vrSystem w); [|reflexivity].
  apply bool_decide_eq_true_2. discriminate.
Qed.

(** A frame with the VR system active and everything in place; [w1] is
    the state [UpdatePositions] leaves, [eL] and [eR] the eyes it holds. *)
Lemma paintGL_active (p : Platform) (w w1 : Widget) (eL eR : CEyeInfos)
    (fbL rbL fbR rbR : QOpenGLFramebufferObject) :
  vr_active w = true ->
  isSome (VRCompositor p) = true ->
  UpdatePositions p w = Done tt w1 [E_WaitGetPoses] ->
  vr_active w1 = true ->
  m_eyeInfos w1 Left = Some eL ->
  m_eyeInfos w1 Right = Some eR ->
  m_frameBuffer eL = Some fbL -> m_resolveBuffer eL = Some rbL ->
  m_frameBuffer eR = Some fbR -> m_resolveBuffer eR = Some rbR ->
  controllers_ready w1 = true ->
  paintGL p w
  = Done tt
      (after_render Right eR
         (after_render Right eR (after_render Left eL (scene_updated w1))))
      (frame_prologue
       ++ hmd_pass Left eL fbL (scene_updated w1)
       ++ hmd_pass Right eR fbR (after_render Left eL (scene_updated w1))
       ++ mirror_pass p eR (after_render Right eR (after_render Left eL (scene_updated w1)))
       ++ [E_Submit Left (fbo_texture rbL); E_Submit Right (fbo_texture rbR)]
       ++ [E_update]).
Proof.
  intros Hvr Hcomp Hrun Hvr1 HL HR HfL HrL HfR HrR Hready.
  set (w3 := scene_updated w1).
  assert (HL3 : m_eyeInfos w3 Left = Some eL) by exact HL.
  assert (HR3 : m_eyeInfos w3 Right = Some eR) by exact HR.
  assert (Hready3 : controllers_ready w3 = true) by exact Hready.
  set (w4 := after_render Left eL w3).
  set (w5 := after_render Right eR w4).
  assert (HR4 : m_eyeInfos w4 Right = Some eR) by exact HR.
  assert (HR5 : m_eyeInfos w5 Right = Some eR) by exact HR.
  assert (HL6 : m_eyeInfos (after_render Right eR w5) Left = Some eL) by exact HL.
  assert (HR6 : m_eyeInfos (after_render Right eR w5) Right = Some eR) by exact HR.
  assert (Hvr6 : vr_active (after_render Right eR w5) = true) by exact Hvr1.
  assert (Hready4 : controllers_ready w4 = true) by exact Hready.
  assert (Hready5 : controllers_ready w5 = true) by exact Hready.
  apply isSome_true in Hcomp. destruct Hcomp as [comp Hcomp].
  unfold paintGL, render_mirror, submit_eye, Texture, both_eyes, when, call_scene.
  run. rewrite vr_active_decide, Hvr. cbn [for_each]. run.
  rewrite (bind_Done _ _ _ _ _ _ Hrun). run.
  change (set_cameraRotations _ (set_cameraTranslation _ _)) with w3.
  rewrite (bind_Done _ _ _ _ _ _ (render_to_hmd_run Left eL fbL w3 HL3 HfL Hready3)). run.
  fold w4.
  rewrite (bind_Done _ _ _ _ _ _ (render_to_hmd_run Right eR fbR w4 HR4 HfR Hready4)). run.
  fold w5.
  rewrite (bind_Done _ _ _ _ _ _ (renderEye_run Right eR w5 HR5 Hready5)). run.
  rewrite vr_active_decide, Hvr6. run.
  rewrite HL6. run. rewrite HrL. run. rewrite Hcomp. run.
  rewrite HR6. run. rewrite HrR. run.
  unfold frame_prologue, mirror_pass, hmd_pass, renderEye_log.
  rewrite ?HrL, ?HrR. rewrite <- ?app_assoc. cbn [app]. reflexivity.
Qed.

(** A frame without a VR system: the mirror view alone. *)
Lemma paintGL_inactive (p : Platform) (w : Widget) (eR : CEyeInfos) :
  vr_active w = false ->
  m_eyeInfos w Right = Some eR ->
  controllers_ready w = true ->
  paintGL p w = Done tt (after_render Right eR w) (mirror_pass p eR w ++ [E_update]).
Proof.
  intros Hvr HR Hready.
  assert (Hvr' : vr_active (after_render Right eR w) = false) by exact Hvr.
  unfold paintGL, render_mirror, when.
  run. rewrite vr_active_decide, Hvr. run.
  rewrite (bind_Done _ _ _ _ _ _ (renderEye_run Right eR w HR Hready)). run.
  rewrite vr_active_decide, Hvr'. run.
  unfold mirror_pass, renderEye_log. rewrite <- ?app_assoc. cbn [app]. reflexivity.
Qed.

(** A ready frame, with the states and the eyes it goes through. *)
Lemma paintGL_ready_frame (p : Platform) (w : Widget) :
  frame_ready p w = true ->
  exists (eL0 eR0 : CEyeInfos) (fbL rbL fbR rbR : QOpenGLFramebufferObject) (w1 : Widget),
    m_eyeInfos w Left = Some eL0 /\ m_eyeInfos w Right = Some eR0
    /\ m_frameBuffer eL0 = Some fbL /\ m_resolveBuffer eL0 = Some rbL
    /\ m_frameBuffer eR0 = Some fbR /\ m_resolveBuffer eR0 = Some rbR
    /\ UpdatePositions p w = Done tt w1 [E_WaitGetPoses]
    /\ m_eyeInfos w1 Left = Some (refreshed p Left eL0)
    /\ m_eyeInfos w1 Right = Some (refreshed p Right eR0)
    /\ paintGL p w
       = Done tt
           (after_render Right (refreshed p Right eR0)
              (after_render Right (refreshed p Right eR0)
                 (after_render Left (refreshed p Left eL0) (scene_updated w1))))
           (frame_prologue
            ++ hmd_pass Left (refreshed p Left eL0) fbL (scene_updated w1)
            ++ hmd_pass Right (refreshed p Right eR0) fbR
                 (after_render Left (refreshed p Left eL0) (scene_updated w1))
            ++ mirror_pass p (refreshed p Right eR0)
                 (after_render Right (refreshed p Right eR0)
                    (after_render Left (refreshed p Left eL0) (scene_updated w1)))
            ++ [E_Submit Left (fbo_texture rbL); E_Submit Right (fbo_texture rbR)]
            ++ [E_update]).
Proof.
  intros Hready. apply frame_ready_inv in Hready.
  destruct Hready as (Hvr & Hcomp & HeL & HeR & Hctl).
  apply eye_ready_inv in HeL. destruct HeL as (eL0 & fbL & rbL & HL & HfL & HrL).
  apply eye_ready_inv in HeR. destruct HeR as (eR0 & fbR & rbR & HR & HfR & HrR).
  pose proof (UpdatePositions_run p w eL0 eR0 Hvr Hcomp HL HR) as Hrun.
  destruct (positions_updated_fields p w eL0 eR0) as (Hvr1 & HL1 & HR1 & _).
  pose proof (positions_updated_ready p w eL0 eR0) as Hctl1.
  rewrite Hctl in Hctl1.
  assert (Hact1 : vr_active (positions_updated p eL0 eR0 w) = true).
  { unfold vr_active. rewrite Hvr1. exact Hvr. }
  clear Hvr1.
  revert Hrun HL1 HR1 Hctl1 Hact1. generalize (positions_updated p eL0 eR0 w).
  intros w1 Hrun HL1 HR1 Hctl1 Hact1.
  exists eL0, eR0, fbL, rbL, fbR, rbR, w1.
  repeat (split; [assumption|]).
  exact (paintGL_active p w w1 (refreshed p Left eL0) (refreshed p Right eR0)
           fbL rbL fbR rbR Hvr Hcomp Hrun Hact1 HL1 HR1 HfL HrL HfR HrR Hctl1).
Qed.

End Painting.

(** ** Controllers and hands *)

Lemma last_such_exists (f : nat -> bool) (l : list nat) (i : nat) :
  In i l -> f i = true -> exists j, last_such f l = Some j.
Proof.
  induction l as [|k l IH]; simpl; [tauto|].
  intros [->|Hin] Hf.
  - destruct (last_such f l); [eauto|]. rewrite Hf. eauto.
  - destruct (IH Hin Hf) as [j ->]. eauto.
Qed.

Lemma last_such_all_false (f : nat -> bool) (l : list nat) :
  (forall i, In i l -> f i = false) -> last_such f l = None.
Proof.
  induction l as [|k l IH]; simpl; [reflexivity|].
  intros H. rewrite IH by auto. rewrite (H k) by auto. reflexivity.
Qed.

Lemma controller_for_iff (p : Platform) (hand : Eye) (i : nat) :
  controller_for p hand i = true <->
  GetTrackedDeviceClass p i = TrackedDeviceClass_Controller
  /\ handIndex (GetControllerRoleForTrackedDeviceIndex p i) = hand.
Proof.
  unfold controller_for. rewrite andb_true_iff, !bool_decide_eq_true. reflexivity.
Qed.

Section Controllers.

Context {qt : QtMath} {scene : Scene}.

Lemma InitializeControllers_run (p : Platform) (w w1 : Widget) (log : list Event) :
  isSome (VRCompositor p) = true ->
  for_each (seq 0 k_unMaxTrackedDeviceCount) (init_controller p)
           (set_trackedDevicePose (WaitGetPoses p) w) = Done tt w1 log ->
  InitializeControllers p w
  = Done true (set_camera (InitializeInputs (camera_of w1)) w1)
         (E_WaitGetPoses :: log ++ [E_InitializeInputs]).
Proof.
  intros Hcomp Hloop. apply isSome_true in Hcomp. destruct Hcomp as [comp Hcomp].
  unfold InitializeControllers, WaitGetPoses_call, call_scene.
  run. rewrite Hcomp. run.
  rewrite (bind_Done _ _ _ _ _ _ Hloop). run. rewrite app_nil_r. reflexivity.
Qed.

(** C7.  In [InitializeControllers] and in [UpdatePositions] alike, a
    device is filed under a hand exactly when its class is Controller
    (and, in [UpdatePositions], its pose is valid): under the left hand
    when its role is LeftHand and under the right hand for every other
    role.  The body of either loop changes that slot and no other, and
    changes no slot for a device of another class; after the whole loop a
    slot holds what the last device filed under it wrote. *)
Theorem controllers_follow_roles (p : Platform) (w : Widget) (i : nat) (hand : Eye) :
  vr_active w = true ->
  (controller_for p Left i = true <->
     GetTrackedDeviceClass p i = TrackedDeviceClass_Controller
     /\ GetControllerRoleForTrackedDeviceIndex p i = TrackedControllerRole_LeftHand)
  /\ (controller_for p Right i = true <->
        GetTrackedDeviceClass p i = TrackedDeviceClass_Controller
        /\ GetControllerRoleForTrackedDeviceIndex p i <> TrackedControllerRole_LeftHand)
  /\ (forall poses,
        tracked_controller_for p poses hand i
        = bPoseIsValid (poses i) && controller_for p hand i)
  /\ (exists w' log,
        init_controller p i w = Done tt w' log
        /\ m_controllers w' hand
           = if controller_for p hand i
             then mkSControllerInfos (m_rmat4Pose (m_controllers w hand))
                                     (loaded_model p (device_model_name p i)) true
             else m_controllers w hand)
  /\ (exists w',
        update_device p i w = Done tt w' []
        /\ m_controllers w' hand
           = if tracked_controller_for p (m_trackedDevicePose w) hand i
             then mkSControllerInfos
                    (vrMatrixToQt34 (mDeviceToAbsoluteTracking (m_trackedDevicePose w i)))
                    (m_pRenderModel (m_controllers w hand))
                    (m_bShowController (m_controllers w hand))
             else m_controllers w hand)
  /\ (isSome (VRCompositor p) = true ->
      exists w' log,
        InitializeControllers p w = Done true w' log
        /\ m_controllers w' hand
           = match last_such (controller_for p hand) (seq 0 k_unMaxTrackedDeviceCount) with
             | Some j => mkSControllerInfos (m_rmat4Pose (m_controllers w hand))
                                            (loaded_model p (device_model_name p j)) true
             | None => m_controllers w hand
             end)
  /\ (isSome (VRCompositor p) = true ->
      isSome (m_eyeInfos w Left) = true -> isSome (m_eyeInfos w Right) = true ->
      exists w',
        UpdatePositions p w = Done tt w' [E_WaitGetPoses]
        /\ m_pRenderModel (m_controllers w' hand) = m_pRenderModel (m_controllers w hand)
        /\ m_bShowController (m_controllers w' hand) = m_bShowController (m_controllers w hand)
        /\ m_rmat4Pose (m_controllers w' hand)
           = match last_such (tracked_controller_for p (WaitGetPoses p) hand)
                             (seq 0 k_unMaxTrackedDeviceCount) with
             | Some j => vrMatrixToQt34 (mDeviceToAbsoluteTracking (WaitGetPoses p j))
             | None => m_rmat4Pose (m_controllers w hand)
             end).
Proof.
  intros Hvr.
  split; [rewrite controller_for_iff, handIndex_Left; reflexivity|].
  split; [rewrite controller_for_iff, handIndex_Right; reflexivity|].
  split; [intros poses; unfold tracked_controller_for, controller_for;
          rewrite andb_assoc; reflexivity|].
  split; [|split; [|split]].
  - destruct (init_controller_run p i w Hvr) as [Hrun _].
    eexists _, _. split; [exact Hrun|]. apply init_controller_step_slot.
  - destruct (update_device_run p i w Hvr) as [Hrun _].
    eexists. split; [exact Hrun|]. apply update_device_step_slot.
  - intros Hcomp.
    assert (Hvr0 : vr_active (set_trackedDevicePose (WaitGetPoses p) w) = true) by exact Hvr.
    pose proof (init_loop_run p (seq 0 k_unMaxTrackedDeviceCount) _ Hvr0) as Hloop.
    pose proof (init_loop_slot p (seq 0 k_unMaxTrackedDeviceCount)
                  (set_trackedDevicePose (WaitGetPoses p) w) hand) as Hslot.
    revert Hloop Hslot.
    generalize (fold_left (fun w i => init_controller_step p i w)
                  (seq 0 k_unMaxTrackedDeviceCount)
                  (set_trackedDevicePose (WaitGetPoses p) w)).
    intros w1 Hloop Hslot.
    eexists _, _. split; [exact (InitializeControllers_run p w w1 _ Hcomp Hloop)|].
    exact Hslot.
  - intros Hcomp HL HR.
    apply isSome_true in HL. destruct HL as [eL HL].
    apply isSome_true in HR. destruct HR as [eR HR].
    exists (positions_updated p eL eR w).
    split; [exact (UpdatePositions_run p w eL eR Hvr Hcomp HL HR)|].
    exact (positions_updated_slot p w eL eR hand).
Qed.

End Controllers.

(** ** The pose pipeline *)

Section PosePipeline.

Context {qt : QtMath} {scene : Scene}.

Local Open Scope qmat_scope.

Lemma controller_draw_In (u : Widget) (matVP : QMatrix4x4) (hand : Eye) (model : CRenderModel) :
  m_bShowController (m_controllers u hand) = true ->
  m_pRenderModel (m_controllers u hand) = Some model ->
  controller_draw u matVP hand = [E_Draw model (matVP * m_rmat4Pose (m_controllers u hand))].
Proof.
  intros Hshow Hmodel. unfold controller_draw. rewrite Hshow, Hmodel. reflexivity.
Qed.

Lemma controller_draw_hidden (u : Widget) (matVP : QMatrix4x4) (hand : Eye) :
  m_bShowController (m_controllers u hand) = false ->
  controller_draw u matVP hand = [].
Proof.
  intros Hshow. unfold controller_draw. rewrite Hshow. reflexivity.
Qed.

(** C1.  In a frame with the VR system active, [UpdatePositions]
    stores for each eye the inverse of the SDK's eye-to-head transform as
    view matrix and the SDK's projection matrix for near clip 0.1 and far
    clip 10000.0.  When the headset (device 0) has a valid pose in that
    frame it sets [m_hmdPose] to the inverse of that pose; when no headset
    has a valid pose it leaves [m_hmdPose] as it was.  [renderEye] then
    works with the view matrix [eyeView * m_hmdPose]: it draws each shown
    controller with [(projection * (eyeView * m_hmdPose)) * controllerPose]
    and no hidden one, and renders the scene last. *)
Theorem UpdatePositions_pose_pipeline (p : Platform) (w : Widget) (eL eR : CEyeInfos) :
  vr_active w = true ->
  isSome (VRCompositor p) = true ->
  m_eyeInfos w Left = Some eL ->
  m_eyeInfos w Right = Some eR ->
  exists w' : Widget,
    UpdatePositions p w = Done tt w' [E_WaitGetPoses]
    /\ (forall eye : Eye, exists e : CEyeInfos,
          m_eyeInfos w' eye = Some e
          /\ GetViewMatrix e
             = QMatrix4x4_inverted (vrMatrixToQt34 (GetEyeToHeadTransform p eye))
          /\ GetProjectionMatrix_eye e
             = vrMatrixToQt44 (GetProjectionMatrix p eye (F32.lit 1 10) (F32.lit 10000 1)))
    /\ (bPoseIsValid (WaitGetPoses p k_unTrackedDeviceIndex_Hmd) = true ->
        GetTrackedDeviceClass p k_unTrackedDeviceIndex_Hmd = TrackedDeviceClass_HMD ->
        m_hmdPose w'
        = QMatrix4x4_inverted
            (vrMatrixToQt34
               (mDeviceToAbsoluteTracking (WaitGetPoses p k_unTrackedDeviceIndex_Hmd))))
    /\ ((forall n : nat, (n < k_unMaxTrackedDeviceCount)%nat ->
           tracked_hmd p (WaitGetPoses p) n = false) ->
        m_hmdPose w' = m_hmdPose w)
    /\ (forall (u : Widget) (eye : Eye) (e : CEyeInfos),
          m_eyeInfos u eye = Some e ->
          controllers_ready u = true ->
          renderEye eye u
          = Done tt (after_render eye e u)
              ([E_glClear; E_glEnable GL_DEPTH_TEST]
               ++ controller_draw u
                    (GetProjectionMatrix_eye e * (GetViewMatrix e * m_hmdPose u)) Left
               ++ controller_draw u
                    (GetProjectionMatrix_eye e * (GetViewMatrix e * m_hmdPose u)) Right
               ++ [E_Render eye ((GetViewMatrix e * m_hmdPose u) * GetCameraMatrix u)
                            (GetProjectionMatrix_eye e)])
          /\ forall (hand : Eye) (matVP : QMatrix4x4),
               (m_bShowController (m_controllers u hand) = false ->
                controller_draw u matVP hand = [])
               /\ (forall model : CRenderModel,
                     m_bShowController (m_controllers u hand) = true ->
                     m_pRenderModel (m_controllers u hand) = Some model ->
                     controller_draw u matVP hand
                     = [E_Draw model (matVP * m_rmat4Pose (m_controllers u hand))])).
Proof.
  intros Hvr Hcomp HL HR.
  pose proof (UpdatePositions_run p w eL eR Hvr Hcomp HL HR) as Hrun.
  destruct (positions_updated_fields p w eL eR) as (_ & HL' & HR' & _).
  pose proof (positions_updated_hmd p w eL eR) as Hhmd.
  revert Hrun HL' HR' Hhmd. generalize (positions_updated p eL eR w).
  intros w' Hrun HL' HR' Hhmd.
  exists w'. split; [exact Hrun|]. split; [|split; [|split]].
  - intros [|]; eexists; (split; [eassumption|]); split; reflexivity.
  - intros Hvalid Hclass. rewrite Hhmd, Hvalid.
    destruct (last_such_exists (tracked_hmd p (WaitGetPoses p))
                (seq 0 k_unMaxTrackedDeviceCount) k_unTrackedDeviceIndex_Hmd) as [j ->].
    + apply in_seq. unfold k_unTrackedDeviceIndex_Hmd, k_unMaxTrackedDeviceCount. lia.
    + unfold tracked_hmd. rewrite Hvalid. apply bool_decide_eq_true_2. exact Hclass.
    + reflexivity.
  - intros Hnone. rewrite Hhmd, last_such_all_false; [reflexivity|].
    intros n Hin. apply Hnone. apply in_seq in Hin. lia.
  - intros u eye e He Hready. split.
    + exact (renderEye_run eye e u He Hready).
    + intros hand matVP. split.
      * apply controller_draw_hidden.
      * intros model. apply controller_draw_In.
Qed.

End PosePipeline.

(** Without the validity condition C1 does not hold: on the example
    platform with the headset's pose not valid in the frame,
    [UpdatePositions] leaves [m_hmdPose] at the identity it had, which is
    not the inverse of the pose matrix the SDK reported for the headset. *)
Lemma UpdatePositions_keeps_hmdPose_when_untracked :
  vr_active Rig.started = true
  /\ GetTrackedDeviceClass (Rig.platform false) k_unTrackedDeviceIndex_Hmd
     = TrackedDeviceClass_HMD
  /\ bPoseIsValid (WaitGetPoses (Rig.platform false) k_unTrackedDeviceIndex_Hmd) = false
  /\ m_hmdPose Rig.started = QMatrix4x4_identity
  /\ option_map m_hmdPose
       (final_widget (UpdatePositions (qt := PlainQt.qt) (Rig.platform false) Rig.started))
     = Some QMatrix4x4_identity
  /\ QMatrix4x4_inverted (QtMath := PlainQt.qt)
       (vrMatrixToQt34
          (mDeviceToAbsoluteTracking
             (WaitGetPoses (Rig.platform false) k_unTrackedDeviceIndex_Hmd)))
     <> QMatrix4x4_identity.
Proof.
  split; [vm_compute; reflexivity|].
  split; [reflexivity|].
  split; [reflexivity|].
  split; [vm_compute; reflexivity|].
  split; [vm_compute; reflexivity|].
  vm_compute. discriminate.
Qed.

(** C1 on the example platform with the headset tracked. *)
Lemma UpdatePositions_pose_pipeline_witness :
  vr_active Rig.started = true
  /\ isSome (VRCompositor (Rig.platform true)) = true
  /\ isSome (m_eyeInfos Rig.started Left) = true
  /\ isSome (m_eyeInfos Rig.started Right) = true
  /\ exists w' : Widget,
       UpdatePositions (qt := PlainQt.qt) (Rig.platform true) Rig.started
       = Done tt w' [E_WaitGetPoses]
       /\ m_hmdPose w'
          = QMatrix4x4_inverted (QtMath := PlainQt.qt)
              (vrMatrixToQt34 (Rig.shift 0 2 0)).
Proof.
  assert (Hvr : vr_active Rig.started = true) by (vm_compute; reflexivity).
  assert (Hcomp : isSome (VRCompositor (Rig.platform true)) = true) by reflexivity.
  destruct (m_eyeInfos Rig.started Left) as [eL|] eqn:HL; [|vm_compute in HL; discriminate].
  destruct (m_eyeInfos Rig.started Right) as [eR|] eqn:HR; [|vm_compute in HR; discriminate].
  split; [exact Hvr|]. split; [exact Hcomp|]. split; [reflexivity|]. split; [reflexivity|].
  destruct (UpdatePositions_pose_pipeline (qt := PlainQt.qt) (scene := PlainQt.scene)
              (Rig.platform true) Rig.started eL eR Hvr Hcomp HL HR)
    as (w' & Hrun & _ & Hhmd & _).
  exists w'. split; [exact Hrun|].
  apply Hhmd; reflexivity.
Defined.

(** ** What stays in place during a frame *)

Section Keeping.

Variable R : Widget -> Widget -> Prop.
Hypothesis R_refl : forall w, R w w.
Hypothesis R_trans : forall w1 w2 w3, R w1 w2 -> R w2 w3 -> R w1 w3.

Lemma keeps_ret {A : Type} (a : A) : keeps R (ret a).
Proof. intros w a' w' log H. inversion H; subst. apply R_refl. Qed.

Lemma keeps_gets {A : Type} (f : Widget -> A) : keeps R (gets f).
Proof. intros w a' w' log H. inversion H; subst. apply R_refl. Qed.

Lemma keeps_emit (e : Event) : keeps R (emit e).
Proof. intros w a' w' log H. inversion H; subst. apply R_refl. Qed.

Lemma keeps_deref {A : Type} (f : Fault) (o : option A) : keeps R (deref f o).
Proof. destruct o; [apply keeps_ret | intros w a w' log H; discriminate]. Qed.

Lemma keeps_modify (g : Widget -> Widget) :
  (forall w, R w (g w)) -> keeps R (modify g).
Proof. intros Hg w a' w' log H. inversion H; subst. apply Hg. Qed.

Lemma keeps_bind {A B : Type} (m : M A) (k : A -> M B) :
  keeps R m -> (forall a, keeps R (k a)) -> keeps R (bind m k).
Proof.
  intros Hm Hk w b w' log H.
  apply bind_inv in H. destruct H as (a & w1 & l1 & l2 & H1 & H2 & _).
  eapply R_trans; [eapply Hm | eapply Hk]; eassumption.
Qed.

Lemma keeps_for_each {I : Type} (l : list I) (body : I -> M unit) :
  (forall i, keeps R (body i)) -> keeps R (for_each l body).
Proof.
  intros Hbody. induction l as [|i l IH]; simpl.
  - apply keeps_ret.
  - apply keeps_bind; [apply Hbody | intros _; exact IH].
Qed.

Lemma keeps_when (b : bool) (m : M unit) : keeps R m -> keeps R (when b m).
Proof. intros Hm. destruct b; [exact Hm | apply keeps_ret]. Qed.

End Keeping.

Lemma same_shape_refl (w : Widget) : same_shape w w.
Proof. intros eye. reflexivity. Qed.

Lemma same_shape_trans (w1 w2 w3 : Widget) :
  same_shape w1 w2 -> same_shape w2 w3 -> same_shape w1 w3.
Proof. intros H12 H23 eye. rewrite H23. apply H12. Qed.

Lemma steady_refl (w : Widget) : steady w w.
Proof. split; [apply same_shape_refl | split; reflexivity]. Qed.

Lemma steady_trans (w1 w2 w3 : Widget) : steady w1 w2 -> steady w2 w3 -> steady w1 w3.
Proof.
  intros (Hs12 & Hv12 & Hc12) (Hs23 & Hv23 & Hc23).
  split; [exact (same_shape_trans _ _ _ Hs12 Hs23)|].
  split; [rewrite Hv23; exact Hv12 | intros hand; rewrite Hc23; apply Hc12].
Qed.

Lemma steady_same_shape {A : Type} (m : M A) : keeps steady m -> keeps same_shape m.
Proof. intros Hm w a w' log H. apply (Hm w a w' log H). Qed.

Lemma same_shape_isSome (w w' : Widget) (eye : Eye) :
  same_shape w w' -> isSome (m_eyeInfos w' eye) = isSome (m_eyeInfos w eye).
Proof.
  intros H. specialize (H eye). unfold eye_shape in H.
  destruct (m_eyeInfos w' eye), (m_eyeInfos w eye); cbn [option_map] in H;
    try discriminate; reflexivity.
Qed.

Lemma same_shape_eye_ready (w w' : Widget) (eye : Eye) :
  same_shape w w' -> eye_ready w' eye = eye_ready w eye.
Proof.
  intros H. specialize (H eye). unfold eye_shape, eye_ready in *.
  destruct (m_eyeInfos w' eye), (m_eyeInfos w eye); cbn [option_map] in H;
    try discriminate; [|reflexivity].
  injection H as -> ->. reflexivity.
Qed.

Lemma steady_controllers_ready (w w' : Widget) :
  steady w w' -> controllers_ready w' = controllers_ready w.
Proof. intros (_ & _ & Hc). unfold controllers_ready. rewrite !Hc. reflexivity. Qed.

(** Steps that only log, read or fail. *)
Ltac keeps_shape :=
  repeat first
    [ apply (keeps_ret _ same_shape_refl) | apply (keeps_gets _ same_shape_refl)
    | apply (keeps_emit _ same_shape_refl) | apply (keeps_deref _ same_shape_refl)
    | apply (keeps_when _ same_shape_refl)
    | apply (keeps_for_each _ same_shape_refl same_shape_trans); intros ?
    | apply (keeps_bind _ same_shape_trans); [|intros ?]
    | apply keeps_modify; intros ? ?; reflexivity ].

Ltac keeps_steady :=
  repeat first
    [ apply (keeps_ret _ steady_refl) | apply (keeps_gets _ steady_refl)
    | apply (keeps_emit _ steady_refl) | apply (keeps_deref _ steady_refl)
    | apply (keeps_when _ steady_refl)
    | apply (keeps_for_each _ steady_refl steady_trans); intros ?
    | apply (keeps_bind _ steady_trans); [|intros ?]
    | apply keeps_modify; intros ?; split; [intros ?; reflexivity | split; reflexivity] ].

Lemma keeps_LoadModel (p : Platform) (name : string) : keeps same_shape (LoadModel p name).
Proof.
  intros w a w' log H. rewrite LoadModel_run in H. inversion H; subst.
  apply same_shape_refl.
Qed.

Lemma prepend_inv {A : Type} (l l' : list Event) (o : Outcome A) (a : A) (w : Widget) :
  prepend l o = Done a w l' -> exists l2, o = Done a w l2 /\ l' = l ++ l2.
Proof.
  destruct o as [a' w0 l2|f]; simpl; [|discriminate].
  intros H. inversion H; subst. eauto.
Qed.

Lemma is_done_false {A : Type} (o : Outcome A) :
  is_done o = false -> exists f, o = Crash f.
Proof. destruct o; [discriminate | eauto]. Qed.

Lemma is_done_true {A : Type} (o : Outcome A) :
  is_done o = true -> exists a w log, o = Done a w log.
Proof. destruct o; [eauto | discriminate]. Qed.

Section Steadiness.

Context {qt : QtMath} {scene : Scene}.

Lemma keeps_call_scene (e : Event) (f : Camera -> Camera) : keeps steady (call_scene e f).
Proof. unfold call_scene. keeps_steady. Qed.

Lemma keeps_update_eye (p : Platform) (eye : Eye) : keeps steady (update_eye p eye).
Proof.
  intros w a w' log. unfold update_eye. run.
  destruct (m_vrSystem w); run; [|discriminate].
  destruct (m_eyeInfos w eye) as [e|] eqn:He; run; [|discriminate].
  intros H. inversion H; subst; clear H.
  split; [|split; reflexivity].
  intros eye'. unfold eye_shape. fields.
  destruct (decide (eye = eye')) as [<-|Hne].
  - rewrite fn_lookup_insert, He. reflexivity.
  - rewrite fn_lookup_insert_ne by assumption. reflexivity.
Qed.

Lemma has_model_repose (c : SControllerInfos) (pose : QMatrix4x4) :
  has_model (mkSControllerInfos pose (m_pRenderModel c) (m_bShowController c)) = has_model c.
Proof. reflexivity. Qed.

Lemma keeps_update_device (p : Platform) (n : nat) : keeps steady (update_device p n).
Proof.
  unfold update_device. apply (keeps_bind _ steady_trans); [keeps_steady|]. intros pose.
  destruct (bPoseIsValid pose); [|keeps_steady].
  apply (keeps_bind _ steady_trans); [keeps_steady|]. intros _.
  apply (keeps_bind _ steady_trans); [keeps_steady|]. intros _.
  destruct (GetTrackedDeviceClass p n); try solve [keeps_steady].
  apply keeps_modify. intros w.
  split; [intros eye; reflexivity|]. split; [reflexivity|].
  intros hand. fields.
  destruct (decide (handIndex (GetControllerRoleForTrackedDeviceIndex p n) = hand))
    as [<-|Hne].
  - rewrite fn_lookup_insert. apply has_model_repose.
  - rewrite fn_lookup_insert_ne by assumption. reflexivity.
Qed.

Lemma keeps_WaitGetPoses_call (p : Platform) : keeps steady (WaitGetPoses_call p).
Proof. unfold WaitGetPoses_call. keeps_steady. Qed.

Lemma keeps_UpdatePositions (p : Platform) : keeps steady (UpdatePositions p).
Proof.
  unfold UpdatePositions.
  apply (keeps_bind _ steady_trans);
    [apply (keeps_for_each _ steady_refl steady_trans); intros eye; apply keeps_update_eye|].
  intros _.
  apply (keeps_bind _ steady_trans); [apply keeps_WaitGetPoses_call|]. intros _.
  apply (keeps_for_each _ steady_refl steady_trans). intros n. apply keeps_update_device.
Qed.

Lemma keeps_draw_controller (matVP : QMatrix4x4) (hand : Eye) :
  keeps steady (draw_controller matVP hand).
Proof.
  unfold draw_controller, Draw.
  apply (keeps_bind _ steady_trans); [keeps_steady|]. intros c.
  destruct (negb (m_bShowController c)); keeps_steady.
Qed.

Lemma keeps_renderEye (i_eye : Eye) : keeps steady (renderEye i_eye).
Proof.
  unfold renderEye.
  apply (keeps_bind _ steady_trans); [keeps_steady|]. intros _.
  apply (keeps_bind _ steady_trans); [keeps_steady|]. intros _.
  apply (keeps_bind _ steady_trans); [keeps_steady|]. intros e.
  apply (keeps_bind _ steady_trans); [keeps_steady|]. intros hmdPose.
  apply (keeps_bind _ steady_trans).
  - apply (keeps_for_each _ steady_refl steady_trans). intros hand.
    apply keeps_draw_controller.
  - intros _. apply (keeps_bind _ steady_trans); [keeps_steady|]. intros camera.
    apply keeps_call_scene.
Qed.

Lemma keeps_render_to_hmd (eye : Eye) : keeps steady (render_to_hmd eye).
Proof.
  unfold render_to_hmd, SetSurface, UnsetSurface.
  apply (keeps_bind _ steady_trans); [keeps_steady|]. intros e.
  apply (keeps_bind _ steady_trans); [keeps_steady|]. intros _.
  apply (keeps_bind _ steady_trans); [apply keeps_renderEye|]. intros _.
  keeps_steady.
Qed.

Lemma keeps_render_mirror (p : Platform) : keeps steady (render_mirror p).
Proof.
  unfold render_mirror.
  apply (keeps_bind _ steady_trans); [keeps_steady|]. intros _.
  apply (keeps_bind _ steady_trans); [keeps_steady|]. intros _.
  apply (keeps_bind _ steady_trans); [keeps_steady|]. intros _.
  apply keeps_renderEye.
Qed.

Lemma keeps_submit_eye (p : Platform) (eye : Eye) : keeps steady (submit_eye p eye).
Proof. unfold submit_eye, Texture. keeps_steady. Qed.

Lemma keeps_paintGL (p : Platform) : keeps steady (paintGL p).
Proof.
  unfold paintGL.
  apply (keeps_bind _ steady_trans); [keeps_steady|]. intros vrSystem.
  apply (keeps_bind _ steady_trans).
  { apply (keeps_when _ steady_refl).
    apply (keeps_bind _ steady_trans); [apply keeps_UpdatePositions|]. intros _.
    apply (keeps_bind _ steady_trans); [apply keeps_call_scene|]. intros _.
    apply (keeps_bind _ steady_trans); [keeps_steady|]. intros _.
    apply (keeps_bind _ steady_trans); [apply keeps_call_scene|]. intros _.
    apply (keeps_for_each _ steady_refl steady_trans). intros eye.
    apply keeps_render_to_hmd. }
  intros _. apply (keeps_bind _ steady_trans); [apply keeps_render_mirror|].
  intros _. apply (keeps_bind _ steady_trans); [keeps_steady|]. intros vrSystem'.
  apply (keeps_bind _ steady_trans); [|intros _; keeps_steady].
  apply (keeps_when _ steady_refl).
  apply (keeps_for_each _ steady_refl steady_trans). intros eye. apply keeps_submit_eye.
Qed.

Lemma keeps_InitializeVR (p : Platform) : keeps same_shape (InitializeVR p).
Proof.
  unfold InitializeVR.
  destruct (negb (VR_IsRuntimeInstalled p)); [keeps_shape|].
  destruct (negb (VR_IsHmdPresent p)); [keeps_shape|].
  apply (keeps_bind _ same_shape_trans); [keeps_shape|]. intros _.
  apply (keeps_bind _ same_shape_trans); [keeps_shape|]. intros _.
  destruct (decide (snd (VR_Init p) <> VRInitError_None)); [keeps_shape|].
  destruct (VRCompositor p); keeps_shape.
Qed.

Lemma keeps_InitializeControllers (p : Platform) : keeps same_shape (InitializeControllers p).
Proof.
  unfold InitializeControllers.
  apply (keeps_bind _ same_shape_trans);
    [apply steady_same_shape, keeps_WaitGetPoses_call|].
  intros _. apply (keeps_bind _ same_shape_trans).
  - apply (keeps_for_each _ same_shape_refl same_shape_trans). intros i.
    unfold init_controller.
    apply (keeps_bind _ same_shape_trans); [keeps_shape|]. intros _.
    destruct (decide (GetTrackedDeviceClass p i <> TrackedDeviceClass_Controller));
      [keeps_shape|].
    apply (keeps_bind _ same_shape_trans); [unfold getTrackedDeviceString; keeps_shape|].
    + destruct (RenderModelName_length p i =? 0); keeps_shape.
    + intros name. apply (keeps_bind _ same_shape_trans); [apply keeps_LoadModel|].
      intros model. keeps_shape.
  - intros _. apply (keeps_bind _ same_shape_trans);
      [apply steady_same_shape, keeps_call_scene | intros _; keeps_shape].
Qed.

End Steadiness.

(** ** What a frame needs *)

Lemma eye_ready_shape (w : Widget) (eye : Eye) :
  option_map fst (eye_shape w eye) = Some true ->
  option_map snd (eye_shape w eye) = Some true ->
  eye_ready w eye = true.
Proof.
  unfold eye_shape, eye_ready.
  destruct (m_eyeInfos w eye) as [e|]; cbn [option_map fst snd]; [|discriminate].
  intros H1 H2. injection H1 as ->. injection H2 as ->. reflexivity.
Qed.

Section Needs.

Context {qt : QtMath} {scene : Scene}.

Lemma draw_controller_unready (matVP : QMatrix4x4) (hand : Eye) (u : Widget) :
  has_model (m_controllers u hand) = false ->
  draw_controller matVP hand u = Crash (NullRenderModel hand).
Proof.
  unfold has_model, draw_controller. intros H. run.
  destruct (m_bShowController (m_controllers u hand)); cbn [negb orb] in *; [|discriminate].
  destruct (m_pRenderModel (m_controllers u hand)); [discriminate|].
  run. reflexivity.
Qed.

Lemma renderEye_unready (i_eye : Eye) (e : CEyeInfos) (u : Widget) :
  m_eyeInfos u i_eye = Some e ->
  controllers_ready u = false ->
  is_done (renderEye i_eye u) = false.
Proof.
  intros He Hready. unfold renderEye, both_eyes. cbn [for_each]. run. rewrite He. run.
  unfold controllers_ready in Hready.
  destruct (has_model (m_controllers u Left)) eqn:HL.
  - rewrite (bind_Done _ _ _ _ _ _ (draw_controller_run _ Left u HL)). run.
    cbn [andb] in Hready.
    rewrite (bind_Crash _ _ _ _ (draw_controller_unready _ Right u Hready)). reflexivity.
  - rewrite (bind_Crash _ _ _ _ (draw_controller_unready _ Left u HL)). reflexivity.
Qed.

Lemma renderEye_done (i_eye : Eye) (u u' : Widget) (log : list Event) :
  renderEye i_eye u = Done tt u' log ->
  isSome (m_eyeInfos u i_eye) = true /\ controllers_ready u = true.
Proof.
  intros H. destruct (m_eyeInfos u i_eye) as [e|] eqn:He.
  - split; [reflexivity|].
    destruct (controllers_ready u) eqn:Hready; [reflexivity|].
    pose proof (renderEye_unready i_eye e u He Hready) as Hcrash.
    rewrite H in Hcrash. discriminate.
  - rewrite (renderEye_null i_eye u He) in H. discriminate.
Qed.

Lemma render_to_hmd_done (eye : Eye) (u u' : Widget) (log : list Event) :
  render_to_hmd eye u = Done tt u' log ->
  option_map fst (eye_shape u eye) = Some true /\ controllers_ready u = true.
Proof.
  unfold render_to_hmd, SetSurface, eye_shape. run.
  destruct (m_eyeInfos u eye) as [e|]; run; [|discriminate].
  destruct (m_frameBuffer e) as [fb|] eqn:Hfb; run; [|discriminate].
  intros H. apply prepend_inv in H. destruct H as (l2 & H & _).
  apply bind_inv in H. destruct H as ([] & u1 & l1 & l3 & Hr & _ & _).
  apply renderEye_done in Hr.
  split; [cbn [option_map fst]; rewrite Hfb; reflexivity | apply Hr].
Qed.

Lemma submit_eye_done (p : Platform) (eye : Eye) (u u' : Widget) (log : list Event) :
  submit_eye p eye u = Done tt u' log ->
  option_map snd (eye_shape u eye) = Some true /\ isSome (VRCompositor p) = true.
Proof.
  unfold submit_eye, Texture, eye_shape. run.
  destruct (m_eyeInfos u eye) as [e|]; run; [|discriminate].
  destruct (m_resolveBuffer e) as [rb|] eqn:Hrb; run; [|discriminate].
  destruct (VRCompositor p); run; [|discriminate].
  intros _. split; [cbn [option_map snd]; rewrite Hrb; reflexivity | reflexivity].
Qed.

Lemma UpdatePositions_done (p : Platform) (w w1 : Widget) (log : list Event) :
  UpdatePositions p w = Done tt w1 log -> isSome (VRCompositor p) = true.
Proof.
  unfold UpdatePositions. intros H.
  apply bind_inv in H. destruct H as ([] & wa & la & lb & _ & H & _).
  apply bind_inv in H. destruct H as ([] & wb & lc & ld & H & _ & _).
  unfold WaitGetPoses_call in H. revert H.
  destruct (VRCompositor p); [reflexivity | run; discriminate].
Qed.

(** What the headset part of [paintGL] needed, when it ended well. *)
Lemma headset_block_done (p : Platform) (w wa : Widget) (log : list Event) :
  (UpdatePositions p ;;
   call_scene E_UpdateInputs UpdateInputs ;;
   emit (E_glClearColor (F32.lit 15 100) (F32.lit 15 100) (F32.lit 18 100) (F32.lit 1 1)) ;;
   call_scene E_UpdateRendering UpdateRendering ;;
   for_each both_eyes render_to_hmd) w = Done tt wa log ->
  isSome (VRCompositor p) = true
  /\ option_map fst (eye_shape w Left) = Some true
  /\ option_map fst (eye_shape w Right) = Some true
  /\ controllers_ready w = true.
Proof.
  intros H.
  apply bind_inv in H. destruct H as ([] & w1 & l1 & l1' & HU & H & _).
  apply bind_inv in H. destruct H as ([] & w2 & l2 & l2' & Hc1 & H & _).
  apply bind_inv in H. destruct H as ([] & w2' & l3 & l3' & He & H & _).
  apply bind_inv in H. destruct H as ([] & w3 & l4 & l4' & Hc2 & H & _).
  unfold both_eyes in H. cbn [for_each] in H.
  apply bind_inv in H. destruct H as ([] & w4 & l5 & l5' & HrL & H & _).
  apply bind_inv in H. destruct H as ([] & w5 & l6 & l6' & HrR & _ & _).
  pose proof (keeps_UpdatePositions p _ _ _ _ HU) as S1.
  pose proof (keeps_call_scene _ _ _ _ _ _ Hc1) as S2.
  pose proof (keeps_emit _ steady_refl _ _ _ _ _ He) as S3.
  pose proof (keeps_call_scene _ _ _ _ _ _ Hc2) as S4.
  pose proof (keeps_render_to_hmd _ _ _ _ _ HrL) as S5.
  pose proof (steady_trans _ _ _ (steady_trans _ _ _ (steady_trans _ _ _ S1 S2) S3) S4) as S03.
  pose proof (steady_trans _ _ _ S03 S5) as S04.
  apply render_to_hmd_done in HrL. destruct HrL as [HfL Hready].
  apply render_to_hmd_done in HrR. destruct HrR as [HfR _].
  destruct S03 as (Hshape3 & _ & Hctl3). destruct S04 as (Hshape4 & _).
  split; [exact (UpdatePositions_done p w w1 l1 HU)|].
  split; [rewrite <- (Hshape3 Left); exact HfL|].
  split; [rewrite <- (Hshape4 Right); exact HfR|].
  unfold controllers_ready in *. rewrite <- !Hctl3. exact Hready.
Qed.

(** What the submissions of [paintGL] needed, when they ended well. *)
Lemma submit_block_done (p : Platform) (w wa : Widget) (log : list Event) :
  for_each both_eyes (submit_eye p) w = Done tt wa log ->
  option_map snd (eye_shape w Left) = Some true
  /\ option_map snd (eye_shape w Right) = Some true.
Proof.
  unfold both_eyes. cbn [for_each]. intros H.
  apply bind_inv in H. destruct H as ([] & w1 & l1 & l1' & HsL & H & _).
  apply bind_inv in H. destruct H as ([] & w2 & l2 & l2' & HsR & _ & _).
  pose proof (keeps_submit_eye _ _ _ _ _ _ HsL) as (Hshape & _).
  apply submit_eye_done in HsL. apply submit_eye_done in HsR.
  split; [apply HsL|]. rewrite <- (Hshape Right). apply HsR.
Qed.

(** A frame that ends well had everything [paintGL] dereferences. *)
Lemma paintGL_done_ready (p : Platform) (w w' : Widget) (log : list Event) :
  paintGL p w = Done tt w' log ->
  (if vr_active w then frame_ready p w else mirror_ready w) = true.
Proof.
  intros H. unfold paintGL in H. rewrite bind_gets, vr_active_decide in H.
  destruct (vr_active w) eqn:Hvr; unfold when in H.
  - apply bind_inv in H. destruct H as ([] & wa & la & la' & Hhmd & H & _).
    apply bind_inv in H. destruct H as ([] & wb & lb & lb' & Hmirror & H & _).
    rewrite bind_gets, vr_active_decide in H.
    assert (Sa : steady w wa).
    { revert Hhmd.
      apply (keeps_bind _ steady_trans); [apply keeps_UpdatePositions|]. intros _.
      apply (keeps_bind _ steady_trans); [apply keeps_call_scene|]. intros _.
      apply (keeps_bind _ steady_trans); [apply (keeps_emit _ steady_refl)|]. intros _.
      apply (keeps_bind _ steady_trans); [apply keeps_call_scene|]. intros _.
      apply (keeps_for_each _ steady_refl steady_trans). intros eye.
      apply keeps_render_to_hmd. }
    pose proof (keeps_render_mirror p _ _ _ _ Hmirror) as Sb.
    pose proof (steady_trans _ _ _ Sa Sb) as Sab.
    destruct Sab as (Hshape & Hvrb & _).
    rewrite Hvrb, Hvr in H.
    apply bind_inv in H. destruct H as ([] & wc & lc & lc' & Hsubmit & _ & _).
    apply headset_block_done in Hhmd. destruct Hhmd as (Hcomp & HfL & HfR & Hready).
    apply submit_block_done in Hsubmit. destruct Hsubmit as [HrL HrR].
    rewrite (Hshape Left) in HrL. rewrite (Hshape Right) in HrR.
    unfold frame_ready.
    rewrite Hvr, Hcomp, Hready, (eye_ready_shape w Left HfL HrL),
      (eye_ready_shape w Right HfR HrR).
    reflexivity.
  - rewrite bind_ret in H.
    apply bind_inv in H. destruct H as ([] & wb & lb & lb' & Hmirror & _ & _).
    unfold render_mirror in Hmirror.
    rewrite !bind_emit in Hmirror.
    rewrite !prepend_prepend in Hmirror.
    apply prepend_inv in Hmirror. destruct Hmirror as (l2 & Hr & _).
    apply renderEye_done in Hr. destruct Hr as [HR Hready].
    unfold mirror_ready. rewrite HR, Hready. reflexivity.
Qed.

Lemma paintGL_ready_done (p : Platform) (w : Widget) :
  (if vr_active w then frame_ready p w else mirror_ready w) = true ->
  is_done (paintGL p w) = true.
Proof.
  destruct (vr_active w) eqn:Hvr; intros Hready.
  - destruct (paintGL_ready_frame p w Hready)
      as (eL0 & eR0 & fbL & rbL & fbR & rbR & w1 & _ & _ & _ & _ & _ & _ & _ & _ & _ & ->).
    reflexivity.
  - unfold mirror_ready in Hready. apply andb_true_iff in Hready.
    destruct Hready as [HR Hctl]. apply isSome_true in HR. destruct HR as [eR HR].
    rewrite (paintGL_inactive p w eR Hvr HR Hctl). reflexivity.
Qed.

(** [paintGL] ends well exactly on the states that have what it dereferences. *)
Lemma paintGL_done_iff_ready (p : Platform) (w : Widget) :
  is_done (paintGL p w) = (if vr_active w then frame_ready p w else mirror_ready w).
Proof.
  destruct (is_done (paintGL p w)) eqn:Hdone.
  - apply is_done_true in Hdone. destruct Hdone as ([] & w' & log & Hrun).
    symmetry. exact (paintGL_done_ready p w w' log Hrun).
  - destruct (if vr_active w then frame_ready p w else mirror_ready w) eqn:Hready;
      [|reflexivity].
    rewrite (paintGL_ready_done p w Hready) in Hdone. discriminate.
Qed.

End Needs.
(** ** The order of a frame *)

Lemma existsb_false_app {A : Type} (f : A -> bool) (l1 l2 : list A) :
  existsb f l1 = false -> existsb f l2 = false -> existsb f (l1 ++ l2) = false.
Proof. intros H1 H2. rewrite existsb_app, H1, H2. reflexivity. Qed.

Lemma submit_is_hmd_output (l : list Event) :
  existsb is_hmd_output l = false -> existsb is_submit l = false.
Proof.
  induction l as [|e l IH]; simpl; [reflexivity|].
  intros H. apply orb_false_iff in H. destruct H as [He Hl].
  rewrite (IH Hl). destruct e; try reflexivity; discriminate.
Qed.

(** The first submission of a log comes after any prefix that has none. *)
Lemma before_first_submit (pre post before after : list Event) (e : Event) :
  existsb is_submit pre = false ->
  is_submit e = true ->
  pre ++ post = before ++ e :: after ->
  exists rest, before = pre ++ rest.
Proof.
  revert before. induction pre as [|x pre IH]; intros before Hpre He Heq.
  - exists before. reflexivity.
  - simpl in Hpre. apply orb_false_iff in Hpre. destruct Hpre as [Hx Hpre].
    destruct before as [|y before]; simpl in Heq.
    + injection Heq as -> _. congruence.
    + injection Heq as -> Heq. destruct (IH before Hpre He Heq) as [rest ->].
      exists rest. reflexivity.
Qed.

Section FrameOrder.

Context {qt : QtMath} {scene : Scene}.

Local Open Scope qmat_scope.

Lemma controller_draw_quiet (u : Widget) (matVP : QMatrix4x4) (hand : Eye) :
  existsb is_hmd_output (controller_draw u matVP hand) = false.
Proof.
  unfold controller_draw.
  destruct (m_bShowController (m_controllers u hand)); [|reflexivity].
  destruct (m_pRenderModel (m_controllers u hand)); reflexivity.
Qed.

Lemma renderEye_log_quiet (eye : Eye) (e : CEyeInfos) (u : Widget) :
  existsb is_hmd_output (renderEye_log eye e u) = false.
Proof.
  unfold renderEye_log.
  repeat apply existsb_false_app; try reflexivity; apply controller_draw_quiet.
Qed.

Lemma mirror_pass_quiet (p : Platform) (e : CEyeInfos) (u : Widget) :
  existsb is_hmd_output (mirror_pass p e u) = false.
Proof.
  unfold mirror_pass. apply existsb_false_app; [reflexivity | apply renderEye_log_quiet].
Qed.

Lemma hmd_pass_no_submit (eye : Eye) (e : CEyeInfos) (fb : QOpenGLFramebufferObject)
    (u : Widget) :
  existsb is_submit (hmd_pass eye e fb u) = false.
Proof.
  unfold hmd_pass.
  apply existsb_false_app; [reflexivity|].
  apply existsb_false_app; [|reflexivity].
  apply submit_is_hmd_output, renderEye_log_quiet.
Qed.

Lemma bound_after_release (l : list Event) (fb : QOpenGLFramebufferObject)
    (target source : option QOpenGLFramebufferObject) (width height : Z) :
  bound_after (l ++ [E_release fb; E_blitFramebuffer target source width height]) = None.
Proof. unfold bound_after. rewrite fold_left_app. reflexivity. Qed.

Lemma bound_after_headset (eL eR : CEyeInfos) (fbL fbR : QOpenGLFramebufferObject)
    (uL uR : Widget) :
  bound_after (frame_prologue ++ hmd_pass Left eL fbL uL ++ hmd_pass Right eR fbR uR) = None.
Proof.
  unfold hmd_pass at 2. rewrite !app_assoc. apply bound_after_release.
Qed.

(** C3.  A frame with the VR system active ends well exactly when
    [paintGL] finds what it dereferences, and then it treats the left eye
    and then the right eye, each time binding the multisampled
    framebuffer ([SetSurface]), rendering the eye, then releasing that
    framebuffer and blitting it into the resolve framebuffer
    ([UnsetSurface]); after the mirror view it submits the left and then
    the right resolve texture.  Nothing is submitted earlier: whatever
    precedes a submission in the log contains both eye passes. *)
Theorem paintGL_submits_after_rendering (p : Platform) (w : Widget) :
  vr_active w = true ->
  is_done (paintGL p w) = frame_ready p w
  /\ forall (w' : Widget) (log : list Event),
       paintGL p w = Done tt w' log ->
       exists (eL eR : CEyeInfos) (fbL rbL fbR rbR : QOpenGLFramebufferObject)
              (uL uR uM : Widget),
         log = (frame_prologue
                ++ hmd_pass Left eL fbL uL ++ hmd_pass Right eR fbR uR
                ++ mirror_pass p eR uM)
               ++ [E_Submit Left (fbo_texture rbL); E_Submit Right (fbo_texture rbR);
                   E_update]
         /\ (m_eyeInfos w' Left = Some eL /\ m_eyeInfos w' Right = Some eR)
         /\ (m_frameBuffer eL = Some fbL /\ m_resolveBuffer eL = Some rbL
             /\ m_frameBuffer eR = Some fbR /\ m_resolveBuffer eR = Some rbR)
         /\ (exists eL0 eR0 : CEyeInfos,
               m_eyeInfos w Left = Some eL0 /\ m_eyeInfos w Right = Some eR0
               /\ m_frameBuffer eL0 = Some fbL /\ m_resolveBuffer eL0 = Some rbL
               /\ m_frameBuffer eR0 = Some fbR /\ m_resolveBuffer eR0 = Some rbR)
         /\ (forall (eye : Eye) (u : Widget) (e : CEyeInfos)
                    (fb : QOpenGLFramebufferObject),
               hmd_pass eye e fb u
               = [E_glViewport 0 0 (width (m_size e)) (height (m_size e));
                  E_glEnable GL_MULTISAMPLE; E_bind fb]
                 ++ renderEye_log eye e u
                 ++ [E_release fb;
                     E_blitFramebuffer (m_resolveBuffer e) (Some fb)
                                       (width (m_size e)) (height (m_size e))])
         /\ existsb is_submit
              (frame_prologue ++ hmd_pass Left eL fbL uL ++ hmd_pass Right eR fbR uR
               ++ mirror_pass p eR uM) = false
         /\ (forall (before after : list Event) (eye : Eye) (texture : Z),
               log = before ++ E_Submit eye texture :: after ->
               exists rest,
                 before = (frame_prologue
                           ++ hmd_pass Left eL fbL uL ++ hmd_pass Right eR fbR uR
                           ++ mirror_pass p eR uM) ++ rest).
Proof.
  intros Hvr. split; [rewrite paintGL_done_iff_ready, Hvr; reflexivity|].
  intros w' log Hdone.
  pose proof (paintGL_done_ready p w w' log Hdone) as Hready. rewrite Hvr in Hready.
  destruct (paintGL_ready_frame p w Hready)
    as (eL0 & eR0 & fbL & rbL & fbR & rbR & w1 & HL0 & HR0 & HfL & HrL & HfR & HrR & _
        & HL1 & HR1 & Hpaint).
  set (eL := refreshed p Left eL0) in *.
  set (eR := refreshed p Right eR0) in *.
  set (uL := scene_updated w1) in *.
  set (uR := after_render Left eL uL) in *.
  set (uM := after_render Right eR uR) in *.
  rewrite Hpaint in Hdone. destruct (Done_inj _ _ _ _ _ _ Hdone) as (_ & Hw' & Hlog).
  assert (Hquiet : existsb is_submit
                     (frame_prologue ++ hmd_pass Left eL fbL uL ++ hmd_pass Right eR fbR uR
                      ++ mirror_pass p eR uM) = false).
  { apply existsb_false_app; [reflexivity|].
    apply existsb_false_app; [apply hmd_pass_no_submit|].
    apply existsb_false_app; [apply hmd_pass_no_submit|].
    apply submit_is_hmd_output, mirror_pass_quiet. }
  exists eL, eR, fbL, rbL, fbR, rbR, uL, uR, uM.
  split; [rewrite <- Hlog, <- !app_assoc; reflexivity|].
  split; [rewrite <- Hw'; split; [exact HL1 | exact HR1]|].
  split; [repeat split; assumption|].
  split; [exists eL0, eR0; repeat split; assumption|].
  split; [reflexivity|].
  split; [exact Hquiet|].
  intros before after eye texture Heq.
  apply (before_first_submit _ [E_Submit Left (fbo_texture rbL);
                                E_Submit Right (fbo_texture rbR); E_update]
                             before after (E_Submit eye texture) Hquiet eq_refl).
  rewrite <- Heq, <- Hlog, <- !app_assoc. reflexivity.
Qed.

(** C5.  [paintGL] ends well exactly when it finds what it dereferences,
    and then it has rendered the mirror view into the widget's window
    with the right eye's view and projection matrices, whether or not there
    is a VR system: black clear colour, the window's viewport,
    multisampling off, then [renderEye] for the right eye, with no headset
    framebuffer bound.  Without a VR system that is the whole frame; with
    one, the two headset passes come before the mirror view and the two
    submissions after it, and the mirror view itself touches no headset
    buffer. *)
Theorem paintGL_mirror_every_frame (p : Platform) (w : Widget) :
  is_done (paintGL p w) = (if vr_active w then frame_ready p w else mirror_ready w)
  /\ forall (w' : Widget) (log : list Event),
       paintGL p w = Done tt w' log ->
       exists (eR : CEyeInfos) (uM : Widget) (hmd submits : list Event),
         log = hmd ++ mirror_pass p eR uM ++ submits ++ [E_update]
         /\ m_eyeInfos uM Right = Some eR
         /\ mirror_pass p eR uM
            = [E_glClearColor (F32.lit 0 1) (F32.lit 0 1) (F32.lit 0 1) (F32.lit 1 1);
               E_glViewport 0 0 (widget_width p) (widget_height p);
               E_glDisable GL_MULTISAMPLE;
               E_glClear; E_glEnable GL_DEPTH_TEST]
              ++ controller_draw uM
                   (GetProjectionMatrix_eye eR * (GetViewMatrix eR * m_hmdPose uM)) Left
              ++ controller_draw uM
                   (GetProjectionMatrix_eye eR * (GetViewMatrix eR * m_hmdPose uM)) Right
              ++ [E_Render Right ((GetViewMatrix eR * m_hmdPose uM) * GetCameraMatrix uM)
                           (GetProjectionMatrix_eye eR)]
         /\ existsb is_hmd_output (mirror_pass p eR uM) = false
         /\ bound_after hmd = None
         /\ (vr_active w = false -> hmd = [] /\ submits = [] /\ uM = w)
         /\ (vr_active w = true ->
             exists (eL : CEyeInfos) (fbL rbL fbR rbR : QOpenGLFramebufferObject)
                    (uL uR : Widget),
               hmd = frame_prologue ++ hmd_pass Left eL fbL uL ++ hmd_pass Right eR fbR uR
               /\ submits = [E_Submit Left (fbo_texture rbL); E_Submit Right (fbo_texture rbR)]
               /\ m_resolveBuffer eL = Some rbL /\ m_resolveBuffer eR = Some rbR
               /\ m_frameBuffer eL = Some fbL /\ m_frameBuffer eR = Some fbR
               /\ exists eL0 eR0 : CEyeInfos,
                    m_eyeInfos w Left = Some eL0 /\ m_eyeInfos w Right = Some eR0
                    /\ eL = refreshed p Left eL0 /\ eR = refreshed p Right eR0).
Proof.
  split; [apply paintGL_done_iff_ready|].
  intros w' log Hdone.
  pose proof (paintGL_done_ready p w w' log Hdone) as Hready.
  destruct (vr_active w) eqn:Hvr.
  - destruct (paintGL_ready_frame p w Hready)
      as (eL0 & eR0 & fbL & rbL & fbR & rbR & w1 & HL0 & HR0 & HfL & HrL & HfR & HrR & _
          & HL1 & HR1 & Hpaint).
    set (eL := refreshed p Left eL0) in *.
    set (eR := refreshed p Right eR0) in *.
    set (uL := scene_updated w1) in *.
    set (uR := after_render Left eL uL) in *.
    set (uM := after_render Right eR uR) in *.
    rewrite Hpaint in Hdone. destruct (Done_inj _ _ _ _ _ _ Hdone) as (_ & Hw' & Hlog).
    exists eR, uM,
      (frame_prologue ++ hmd_pass Left eL fbL uL ++ hmd_pass Right eR fbR uR),
      [E_Submit Left (fbo_texture rbL); E_Submit Right (fbo_texture rbR)].
    split; [rewrite <- Hlog, <- !app_assoc; reflexivity|].
    split; [exact HR1|].
    split; [reflexivity|].
    split; [apply mirror_pass_quiet|].
    split; [apply bound_after_headset|].
    split; [discriminate|].
    intros _. exists eL, fbL, rbL, fbR, rbR, uL, uR.
    repeat (split; [reflexivity || assumption|]).
    exists eL0, eR0. repeat split; assumption.
  - unfold mirror_ready in Hready. apply andb_true_iff in Hready.
    destruct Hready as [HR Hctl]. apply isSome_true in HR. destruct HR as [eR HR].
    rewrite (paintGL_inactive p w eR Hvr HR Hctl) in Hdone.
    destruct (Done_inj _ _ _ _ _ _ Hdone) as (_ & Hw' & Hlog).
    exists eR, w, [], [].
    split; [rewrite <- Hlog; reflexivity|].
    split; [exact HR|].
    split; [reflexivity|].
    split; [apply mirror_pass_quiet|].
    split; [reflexivity|].
    split; [auto | discriminate].
Qed.

End FrameOrder.

(** ** Null eye pointers *)

Section NullEyes.

Context {qt : QtMath} {scene : Scene}.

(** [InitializeEyesRendering] sets both eye pointers when it returns. *)
Lemma InitializeEyesRendering_sets_eyes (p : Platform) (w w' : Widget) (ok : bool)
    (log : list Event) :
  InitializeEyesRendering p w = Done ok w' log ->
  isSome (m_eyeInfos w' Left) = true /\ isSome (m_eyeInfos w' Right) = true.
Proof.
  unfold InitializeEyesRendering, create_eye. run.
  destruct (m_vrSystem w); run; [|discriminate].
  erewrite (bind_Done (CEyeInfos_new _ _)) by apply CEyeInfos_new_run. run.
  erewrite (bind_Done (CEyeInfos_new _ _)) by apply CEyeInfos_new_run. run.
  intros H. inversion H; subst; clear H. fields. slots. split; reflexivity.
Qed.

Lemma initializeGL_pairs_eyes (p : Platform) (w w' : Widget) (log : list Event) :
  eyes_paired w = true ->
  initializeGL p w = Done tt w' log ->
  eyes_paired w' = true.
Proof.
  intros Hpaired. unfold initializeGL. run.
  destruct (InitializeVR p w) as [ok w1 l1|f] eqn:Hvr;
    [rewrite (bind_Done _ _ _ _ _ _ Hvr) | rewrite (bind_Crash _ _ _ _ Hvr); discriminate].
  pose proof (keeps_InitializeVR p w ok w1 l1 Hvr) as Hsame1.
  destruct ok; cbn [negb]; run.
  2:{ intros H. inversion H; subst; clear H.
      unfold eyes_paired in *. rewrite !(same_shape_isSome _ _ _ Hsame1). exact Hpaired. }
  destruct (InitializeEyesRendering p w1) as [ok2 w2 l2|f] eqn:Heyes;
    [rewrite (bind_Done _ _ _ _ _ _ Heyes) | rewrite (bind_Crash _ _ _ _ Heyes); discriminate].
  destruct (InitializeEyesRendering_sets_eyes p w1 w2 ok2 l2 Heyes) as [HL HR].
  destruct ok2; cbn [negb]; run.
  2:{ intros H. inversion H; subst; clear H.
      unfold eyes_paired. rewrite HL, HR. reflexivity. }
  destruct (InitializeControllers p w2) as [ok3 w3 l3|f] eqn:Hctl;
    [rewrite (bind_Done _ _ _ _ _ _ Hctl) | rewrite (bind_Crash _ _ _ _ Hctl); discriminate].
  pose proof (keeps_InitializeControllers p w2 ok3 w3 l3 Hctl) as Hsame3.
  unfold call_scene. run.
  intros H. inversion H; subst; clear H. unfold eyes_paired. fields.
  rewrite !(same_shape_isSome _ _ _ Hsame3), HL, HR. reflexivity.
Qed.

(** On every state the widget reaches, the eye pointers are both null or
    both set. *)
Lemma reachable_eyes_paired (w : Widget) : reachable w -> eyes_paired w = true.
Proof.
  induction 1 as [|p w w' log _ IH Hrun|p w w' log _ IH Hrun|c w _ IH|w _ IH|w _ IH].
  - reflexivity.
  - exact (initializeGL_pairs_eyes p w w' log IH Hrun).
  - destruct (keeps_paintGL p w tt w' log Hrun) as (Hsame & _).
    unfold eyes_paired in *. rewrite !(same_shape_isSome _ _ _ Hsame). exact IH.
  - destruct c; exact IH.
  - exact IH.
  - exact IH.
Qed.

Lemma paintGL_inactive_null (p : Platform) (w : Widget) :
  vr_active w = false ->
  m_eyeInfos w Right = None ->
  paintGL p w = Crash (NullEyeInfos Right).
Proof.
  intros Hvr HR. unfold paintGL, render_mirror, when.
  run. rewrite vr_active_decide, Hvr. run.
  rewrite (bind_Crash _ _ _ _ (renderEye_null Right w HR)). reflexivity.
Qed.

Lemma ready_eyes (p : Platform) (w : Widget) :
  (if vr_active w then frame_ready p w else mirror_ready w) = true ->
  isSome (m_eyeInfos w Right) = true
  /\ (vr_active w = true -> isSome (m_eyeInfos w Left) = true).
Proof.
  destruct (vr_active w); intros Hready.
  - apply frame_ready_inv in Hready. destruct Hready as (_ & _ & HL & HR & _).
    apply eye_ready_inv in HL. destruct HL as (eL & _ & _ & -> & _).
    apply eye_ready_inv in HR. destruct HR as (eR & _ & _ & -> & _).
    split; reflexivity.
  - unfold mirror_ready in Hready. apply andb_true_iff in Hready.
    split; [apply Hready | discriminate].
Qed.

(** C8.  [paintGL] runs the mirror view [renderEye(Right)] whether or not
    there is a VR system, and [renderEye] dereferences the eye's
    [CEyeInfos] unchecked: with a null right eye pointer [paintGL] crashes,
    in particular on the widget as constructed, whose eye pointers are both
    null.  So a [paintGL] that ends well had the right eye's infos (and
    the left eye's when the VR system is active); on every state the widget
    can reach, it had both. *)
Theorem paintGL_needs_eye_infos (p : Platform) (w : Widget) :
  (m_vrSystem COpenVROpenGLWidget = None
   /\ m_eyeInfos COpenVROpenGLWidget Left = None
   /\ m_eyeInfos COpenVROpenGLWidget Right = None)
  /\ paintGL p COpenVROpenGLWidget = Crash (NullEyeInfos Right)
  /\ (forall (eye : Eye) (u : Widget),
        m_eyeInfos u eye = None -> renderEye eye u = Crash (NullEyeInfos eye))
  /\ (vr_active w = false -> m_eyeInfos w Right = None ->
      paintGL p w = Crash (NullEyeInfos Right))
  /\ (vr_active w = false -> mirror_ready w = true ->
      exists eR : CEyeInfos,
        m_eyeInfos w Right = Some eR
        /\ paintGL p w = Done tt (after_render Right eR w) (mirror_pass p eR w ++ [E_update]))
  /\ (m_eyeInfos w Right = None -> is_done (paintGL p w) = false)
  /\ (is_done (paintGL p w) = true ->
      isSome (m_eyeInfos w Right) = true
      /\ (vr_active w = true -> isSome (m_eyeInfos w Left) = true))
  /\ (reachable w -> is_done (paintGL p w) = true ->
      isSome (m_eyeInfos w Left) = true /\ isSome (m_eyeInfos w Right) = true).
Proof.
  assert (Hdone_eyes : is_done (paintGL p w) = true ->
                       isSome (m_eyeInfos w Right) = true
                       /\ (vr_active w = true -> isSome (m_eyeInfos w Left) = true)).
  { rewrite paintGL_done_iff_ready. apply ready_eyes. }
  split; [repeat split; reflexivity|].
  split; [apply paintGL_inactive_null; reflexivity|].
  split; [intros eye u; apply renderEye_null|].
  split; [apply paintGL_inactive_null|].
  split.
  { intros Hvr Hready. unfold mirror_ready in Hready. apply andb_true_iff in Hready.
    destruct Hready as [HR Hctl]. apply isSome_true in HR. destruct HR as [eR HR].
    exists eR. split; [exact HR | exact (paintGL_inactive p w eR Hvr HR Hctl)]. }
  split.
  { intros HR. destruct (is_done (paintGL p w)) eqn:Hdone; [|reflexivity].
    destruct (Hdone_eyes eq_refl) as [HR' _]. rewrite HR in HR'. discriminate. }
  split; [exact Hdone_eyes|].
  intros Hreach Hdone.
  destruct (Hdone_eyes Hdone) as [HR _].
  pose proof (reachable_eyes_paired w Hreach) as Hpaired.
  unfold eyes_paired in Hpaired. rewrite HR in Hpaired.
  split; [|exact HR].
  destruct (isSome (m_eyeInfos w Left)); [reflexivity | discriminate].
Qed.

End NullEyes.

Section MoreInit.
Context {qt : QtMath} {scene : Scene}.

Lemma InitializeEyesRendering_run (p : Platform) (w : Widget) :
  vr_active w = true ->
  exists w' : Widget,
    InitializeEyesRendering p w
    = Done (IsValid (new_eye p (gl_framebuffers w))
            && IsValid (new_eye p (2 + gl_framebuffers w)))
           w' (new_eye_log p (gl_framebuffers w) ++ new_eye_log p (2 + gl_framebuffers w))
    /\ m_vrSystem w' = m_vrSystem w
    /\ m_eyeInfos w' Left = Some (new_eye p (gl_framebuffers w))
    /\ m_eyeInfos w' Right = Some (new_eye p (2 + gl_framebuffers w))
    /\ m_controllers w' = m_controllers w
    /\ gl_framebuffers w' = (4 + gl_framebuffers w)%nat
    /\ m_hmdPose w' = m_hmdPose w
    /\ m_matrixDevicePose w' = m_matrixDevicePose w
    /\ camera_of w' = camera_of w.
Proof.
  intros Hvr. apply isSome_true in Hvr. destruct Hvr as [sys Hsys].
  unfold InitializeEyesRendering, create_eye. run. rewrite Hsys. run.
  rewrite (bind_Done _ _ _ _ _ _ (CEyeInfos_new_run p _ w)). run.
  erewrite (bind_Done (CEyeInfos_new _ _)) by apply CEyeInfos_new_run.
  run.
  eexists. split; [reflexivity|]. fields. slots.
  repeat split; try reflexivity. exact Hsys.
Qed.

End MoreInit.

Section MoreInit2.
Context {qt : QtMath} {scene : Scene}.

Lemma vr_available_inv (p : Platform) :
  vr_available p = true ->
  VR_IsRuntimeInstalled p = true /\ VR_IsHmdPresent p = true
  /\ snd (VR_Init p) = VRInitError_None /\ isSome (VRCompositor p) = true.
Proof.
  unfold vr_available. rewrite !andb_true_iff, bool_decide_eq_true. tauto.
Qed.

Lemma InitializeVR_available (p : Platform) (w : Widget) :
  vr_available p = true ->
  InitializeVR p w = Done true (set_vrSystem (fst (VR_Init p)) w) [E_VR_Init].
Proof.
  intros H. apply vr_available_inv in H. destruct H as (Hinst & Hhmd & Herr & Hcomp).
  apply isSome_true in Hcomp. destruct Hcomp as [comp Hcomp].
  unfold InitializeVR. rewrite Hinst, Hhmd, Hcomp. cbn [negb]. run.
  destruct (decide (snd (VR_Init p) <> VRInitError_None)); [contradiction|].
  run. reflexivity.
Qed.

Lemma InitializeVR_unavailable (p : Platform) (w : Widget) :
  vr_available p = false ->
  exists (w' : Widget) (log : list Event),
    InitializeVR p w = Done false w' log
    /\ m_vrSystem w'
       = (if VR_IsRuntimeInstalled p && VR_IsHmdPresent p then None else m_vrSystem w)
    /\ m_eyeInfos w' = m_eyeInfos w
    /\ m_controllers w' = m_controllers w
    /\ gl_framebuffers w' = gl_framebuffers w
    /\ camera_of w' = camera_of w
    /\ length (List.filter is_dialog log) = 1%nat
    /\ existsb is_setup log = false
    /\ hooks log = [].
Proof.
  unfold vr_available, InitializeVR. intros H.
  destruct (VR_IsRuntimeInstalled p); cbn [negb andb] in *.
  2:{ run. eexists _, _. split; [reflexivity|]. repeat split; reflexivity. }
  destruct (VR_IsHmdPresent p); cbn [negb andb] in *.
  2:{ run. eexists _, _. split; [reflexivity|]. repeat split; reflexivity. }
  destruct (decide (snd (VR_Init p) <> VRInitError_None)) as [Herr|Herr].
  { run. eexists _, _. split; [reflexivity|]. repeat split; reflexivity. }
  rewrite bool_decide_eq_true_2 in H
    by (destruct (decide (snd (VR_Init p) = VRInitError_None)); [assumption|contradiction]).
  cbn [andb] in H.
  destruct (VRCompositor p); [discriminate|].
  run. eexists _, _. split; [reflexivity|]. repeat split; reflexivity.
Qed.

Lemma camera_of_set_camera (c : Camera) (w : Widget) : camera_of (set_camera c w) = c.
Proof. destruct c; reflexivity. Qed.

(** The fields the loop of [InitializeControllers] leaves alone. *)
Lemma init_loop_frame (p : Platform) (l : list nat) (w : Widget) :
  let w' := fold_left (fun w i => init_controller_step p i w) l w in
  m_vrSystem w' = m_vrSystem w
  /\ m_eyeInfos w' = m_eyeInfos w
  /\ m_hmdPose w' = m_hmdPose w
  /\ camera_of w' = camera_of w
  /\ gl_framebuffers w' = gl_framebuffers w.
Proof.
  cbv zeta. repeat split.
  - apply (fold_untouched m_vrSystem (fun i u => init_controller_step p i u)).
    intros; apply init_controller_step_frame.
  - apply (fold_untouched m_eyeInfos (fun i u => init_controller_step p i u)).
    intros; apply init_controller_step_frame.
  - apply (fold_untouched m_hmdPose (fun i u => init_controller_step p i u)).
    intros; apply init_controller_step_frame.
  - apply (fold_untouched camera_of (fun i u => init_controller_step p i u)).
    intros; apply init_controller_step_frame.
  - apply (fold_untouched gl_framebuffers (fun i u => init_controller_step p i u)).
    intros; apply init_controller_step_frame.
Qed.

Lemma InitializeControllers_result (p : Platform) (w : Widget) :
  vr_active w = true ->
  isSome (VRCompositor p) = true ->
  exists w' : Widget,
    InitializeControllers p w = Done true w' (InitializeControllers_log p)
    /\ m_vrSystem w' = m_vrSystem w
    /\ m_eyeInfos w' = m_eyeInfos w
    /\ gl_framebuffers w' = gl_framebuffers w
    /\ m_hmdPose w' = m_hmdPose w
    /\ camera_of w' = InitializeInputs (camera_of w)
    /\ forall hand : Eye,
         m_controllers w' hand = slot_initialized p hand (m_controllers w hand).
Proof.
  intros Hvr Hcomp.
  assert (Hvr0 : vr_active (set_trackedDevicePose (WaitGetPoses p) w) = true) by exact Hvr.
  pose proof (init_loop_run p (seq 0 k_unMaxTrackedDeviceCount) _ Hvr0) as Hloop.
  pose proof (init_loop_frame p (seq 0 k_unMaxTrackedDeviceCount)
                (set_trackedDevicePose (WaitGetPoses p) w)) as Hframe.
  pose proof (fun hand => init_loop_slot p (seq 0 k_unMaxTrackedDeviceCount)
                (set_trackedDevicePose (WaitGetPoses p) w) hand) as Hslot.
  cbv zeta in Hframe.
  revert Hloop Hframe Hslot.
  generalize (fold_left (fun w i => init_controller_step p i w)
                (seq 0 k_unMaxTrackedDeviceCount)
                (set_trackedDevicePose (WaitGetPoses p) w)).
  intros w1 Hloop (Hsys & Heyes & Hhmd & Hcam & Hfb) Hslot.
  exists (set_camera (InitializeInputs (camera_of w1)) w1).
  split; [exact (InitializeControllers_run p w w1 _ Hcomp Hloop)|].
  split; [exact Hsys|]. split; [exact Heyes|]. split; [exact Hfb|]. split; [exact Hhmd|].
  split.
  - rewrite camera_of_set_camera, Hcam. reflexivity.
  - intros hand. exact (Hslot hand).
Qed.

End MoreInit2.

Section MoreInit3.
Context {qt : QtMath} {scene : Scene}.

Lemma initializeGL_available (p : Platform) (w : Widget) :
  vr_available p = true ->
  isSome (fst (VR_Init p)) = true ->
  exists w' : Widget,
    initializeGL p w = Done tt w' (initializeGL_log p (gl_framebuffers w))
    /\ m_vrSystem w' = fst (VR_Init p)
    /\ m_eyeInfos w' Left = Some (new_eye p (gl_framebuffers w))
    /\ m_eyeInfos w' Right = Some (new_eye p (2 + gl_framebuffers w))
    /\ gl_framebuffers w' = (4 + gl_framebuffers w)%nat
    /\ m_hmdPose w' = m_hmdPose w
    /\ forall hand : Eye,
         m_controllers w' hand
         = if eyes_valid p (gl_framebuffers w)
           then slot_initialized p hand (m_controllers w hand)
           else m_controllers w hand.
Proof.
  intros Havail Hsys.
  pose proof (vr_available_inv p Havail) as (_ & _ & _ & Hcomp).
  unfold initializeGL, initializeGL_log. run.
  rewrite (bind_Done _ _ _ _ _ _ (InitializeVR_available p w Havail)). cbn [negb]. run.
  assert (Hvr1 : vr_active (set_vrSystem (fst (VR_Init p)) w) = true) by exact Hsys.
  destruct (InitializeEyesRendering_run p _ Hvr1)
    as (w2 & Hrun2 & Hsys2 & HL2 & HR2 & Hctl2 & Hfb2 & Hhmd2 & _ & Hcam2).
  change (gl_framebuffers (set_vrSystem (fst (VR_Init p)) w)) with (gl_framebuffers w)
    in Hrun2, HL2, HR2, Hfb2.
  change (m_controllers (set_vrSystem (fst (VR_Init p)) w)) with (m_controllers w) in Hctl2.
  change (m_vrSystem (set_vrSystem (fst (VR_Init p)) w)) with (fst (VR_Init p)) in Hsys2.
  change (m_hmdPose (set_vrSystem (fst (VR_Init p)) w)) with (m_hmdPose w) in Hhmd2.
  rewrite (bind_Done _ _ _ _ _ _ Hrun2). fold (eyes_valid p (gl_framebuffers w)).
  destruct (eyes_valid p (gl_framebuffers w)); cbn [negb]; run.
  - assert (Hvr2 : vr_active w2 = true) by (unfold vr_active; rewrite Hsys2; exact Hsys).
    destruct (InitializeControllers_result p w2 Hvr2 Hcomp)
      as (w3 & Hrun3 & Hsys3 & Heyes3 & Hfb3 & Hhmd3 & _ & Hslot3).
    rewrite (bind_Done _ _ _ _ _ _ Hrun3). unfold call_scene. run.
    eexists. split; [rewrite <- ?app_assoc; reflexivity|]. fields.
    rewrite Hsys3, Heyes3, Hfb3, Hhmd3, Hsys2, HL2, HR2, Hfb2, Hhmd2.
    repeat split. intros hand. rewrite Hslot3, Hctl2. reflexivity.
  - exists w2. split; [rewrite ?app_nil_r, <- ?app_assoc; reflexivity|].
    rewrite Hctl2. repeat split; assumption.
Qed.

Lemma initializeGL_unavailable (p : Platform) (w : Widget) :
  vr_available p = false ->
  exists (w' : Widget) (log : list Event),
    initializeGL p w
    = Done tt w' ([E_initializeOpenGLFunctions; E_glEnable GL_DEPTH_TEST] ++ log)
    /\ InitializeVR p w = Done false w' log
    /\ m_vrSystem w'
       = (if VR_IsRuntimeInstalled p && VR_IsHmdPresent p then None else m_vrSystem w)
    /\ m_eyeInfos w' = m_eyeInfos w
    /\ m_controllers w' = m_controllers w
    /\ gl_framebuffers w' = gl_framebuffers w
    /\ length (List.filter is_dialog log) = 1%nat
    /\ existsb is_setup log = false
    /\ hooks log = [].
Proof.
  intros Havail.
  destruct (InitializeVR_unavailable p w Havail)
    as (w' & log & Hrun & Hsys & Heyes & Hctl & Hfb & _ & Hdialog & Hsetup & Hhooks).
  exists w', log. unfold initializeGL. run.
  rewrite (bind_Done _ _ _ _ _ _ Hrun). cbn [negb]. run. rewrite app_nil_r.
  repeat split; assumption.
Qed.

Lemma initializeGL_null_system (p : Platform) (w : Widget) :
  vr_available p = true ->
  fst (VR_Init p) = None ->
  initializeGL p w = Crash NullVRSystem.
Proof.
  intros Havail Hnull. unfold initializeGL. run.
  rewrite (bind_Done _ _ _ _ _ _ (InitializeVR_available p w Havail)). cbn [negb]. run.
  unfold InitializeEyesRendering. run. rewrite Hnull. run. reflexivity.
Qed.

End MoreInit3.

Lemma same_objects_refl (w : Widget) : same_objects w w.
Proof. repeat split; reflexivity. Qed.

Lemma same_objects_trans (w1 w2 w3 : Widget) :
  same_objects w1 w2 -> same_objects w2 w3 -> same_objects w1 w3.
Proof.
  intros (Hv12 & Hn12 & He12 & Hc12) (Hv23 & Hn23 & He23 & Hc23).
  split; [congruence|]. split; [congruence|]. split.
  - intros eye. rewrite He23. apply He12.
  - intros hand. destruct (Hc12 hand) as [<- <-]. apply Hc23.
Qed.

Lemma same_objects_steady (w w' : Widget) : same_objects w w' -> steady w w'.
Proof.
  intros (Hv & _ & He & Hc). split; [|split].
  - intros eye. specialize (He eye). unfold eye_objects, eye_shape in *.
    destruct (m_eyeInfos w' eye), (m_eyeInfos w eye); cbn [option_map] in *;
      try discriminate; [|reflexivity].
    injection He as -> -> _. reflexivity.
  - unfold vr_active. rewrite Hv. reflexivity.
  - intros hand. unfold has_model. destruct (Hc hand) as [-> ->]. reflexivity.
Qed.

Ltac keeps_objects :=
  repeat first
    [ apply (keeps_ret _ same_objects_refl) | apply (keeps_gets _ same_objects_refl)
    | apply (keeps_emit _ same_objects_refl) | apply (keeps_deref _ same_objects_refl)
    | apply (keeps_when _ same_objects_refl)
    | apply (keeps_for_each _ same_objects_refl same_objects_trans); intros ?
    | apply (keeps_bind _ same_objects_trans); [|intros ?]
    | apply keeps_modify; intros ?; repeat split; reflexivity ].

Section Objects.
Context {qt : QtMath} {scene : Scene}.

Lemma objects_call_scene (e : Event) (f : Camera -> Camera) :
  keeps same_objects (call_scene e f).
Proof. unfold call_scene. keeps_objects. Qed.

Lemma objects_update_eye (p : Platform) (eye : Eye) : keeps same_objects (update_eye p eye).
Proof.
  intros w a w' log. unfold update_eye. run.
  destruct (m_vrSystem w) eqn:Hsys; run; [|discriminate].
  destruct (m_eyeInfos w eye) as [e|] eqn:He; run; [|discriminate].
  intros H. inversion H; subst; clear H.
  split; [reflexivity|]. split; [reflexivity|]. split; [|intros hand; split; reflexivity].
  intros eye'. unfold eye_objects. fields.
  destruct (decide (eye = eye')) as [<-|Hne].
  - rewrite fn_lookup_insert, He. reflexivity.
  - rewrite fn_lookup_insert_ne by assumption. reflexivity.
Qed.

Lemma objects_update_device (p : Platform) (n : nat) :
  keeps same_objects (update_device p n).
Proof.
  unfold update_device. apply (keeps_bind _ same_objects_trans); [keeps_objects|].
  intros pose. destruct (bPoseIsValid pose); [|keeps_objects].
  apply (keeps_bind _ same_objects_trans); [keeps_objects|]. intros _.
  apply (keeps_bind _ same_objects_trans); [keeps_objects|]. intros _.
  destruct (GetTrackedDeviceClass p n); try solve [keeps_objects].
  apply keeps_modify. intros w.
  split; [reflexivity|]. split; [reflexivity|]. split; [intros eye; reflexivity|].
  intros hand. fields.
  destruct (decide (handIndex (GetControllerRoleForTrackedDeviceIndex p n) = hand))
    as [<-|Hne].
  - rewrite fn_lookup_insert. split; reflexivity.
  - rewrite fn_lookup_insert_ne by assumption. split; reflexivity.
Qed.

Lemma objects_UpdatePositions (p : Platform) : keeps same_objects (UpdatePositions p).
Proof.
  unfold UpdatePositions, WaitGetPoses_call.
  apply (keeps_bind _ same_objects_trans);
    [apply (keeps_for_each _ same_objects_refl same_objects_trans); intros eye;
     apply objects_update_eye|].
  intros _.
  apply (keeps_bind _ same_objects_trans); [keeps_objects|]. intros _.
  apply (keeps_for_each _ same_objects_refl same_objects_trans). intros n.
  apply objects_update_device.
Qed.

Lemma objects_renderEye (i_eye : Eye) : keeps same_objects (renderEye i_eye).
Proof.
  unfold renderEye.
  apply (keeps_bind _ same_objects_trans); [keeps_objects|]. intros _.
  apply (keeps_bind _ same_objects_trans); [keeps_objects|]. intros _.
  apply (keeps_bind _ same_objects_trans); [keeps_objects|]. intros e.
  apply (keeps_bind _ same_objects_trans); [keeps_objects|]. intros hmdPose.
  apply (keeps_bind _ same_objects_trans).
  - apply (keeps_for_each _ same_objects_refl same_objects_trans). intros hand.
    unfold draw_controller, Draw.
    apply (keeps_bind _ same_objects_trans); [keeps_objects|]. intros c.
    destruct (negb (m_bShowController c)); keeps_objects.
  - intros _. apply (keeps_bind _ same_objects_trans); [keeps_objects|]. intros camera.
    apply objects_call_scene.
Qed.

Lemma objects_render_to_hmd (eye : Eye) : keeps same_objects (render_to_hmd eye).
Proof.
  unfold render_to_hmd, SetSurface, UnsetSurface.
  apply (keeps_bind _ same_objects_trans); [keeps_objects|]. intros e.
  apply (keeps_bind _ same_objects_trans); [keeps_objects|]. intros _.
  apply (keeps_bind _ same_objects_trans); [apply objects_renderEye|]. intros _.
  keeps_objects.
Qed.

Lemma objects_paintGL (p : Platform) : keeps same_objects (paintGL p).
Proof.
  unfold paintGL, render_mirror.
  apply (keeps_bind _ same_objects_trans); [keeps_objects|]. intros vrSystem.
  apply (keeps_bind _ same_objects_trans).
  { apply (keeps_when _ same_objects_refl).
    apply (keeps_bind _ same_objects_trans); [apply objects_UpdatePositions|]. intros _.
    apply (keeps_bind _ same_objects_trans); [apply objects_call_scene|]. intros _.
    apply (keeps_bind _ same_objects_trans); [keeps_objects|]. intros _.
    apply (keeps_bind _ same_objects_trans); [apply objects_call_scene|]. intros _.
    apply (keeps_for_each _ same_objects_refl same_objects_trans). intros eye.
    apply objects_render_to_hmd. }
  intros _.
  apply (keeps_bind _ same_objects_trans).
  { apply (keeps_bind _ same_objects_trans); [keeps_objects|]. intros _.
    apply (keeps_bind _ same_objects_trans); [keeps_objects|]. intros _.
    apply (keeps_bind _ same_objects_trans); [keeps_objects|]. intros _.
    apply objects_renderEye. }
  intros _. apply (keeps_bind _ same_objects_trans); [keeps_objects|]. intros vrSystem'.
  apply (keeps_bind _ same_objects_trans); [|intros _; keeps_objects].
  apply (keeps_when _ same_objects_refl).
  apply (keeps_for_each _ same_objects_refl same_objects_trans). intros eye.
  unfold submit_eye, Texture. keeps_objects.
Qed.

End Objects.

Lemma hooks_app (l1 l2 : list Event) : hooks (l1 ++ l2) = hooks l1 ++ hooks l2.
Proof. apply flat_map_app. Qed.

Lemma existsb_lifecycle_app (l1 l2 : list Event) :
  existsb is_lifecycle (l1 ++ l2) = existsb is_lifecycle l1 || existsb is_lifecycle l2.
Proof. apply existsb_app. Qed.

Section FrameLogs.
Context {qt : QtMath} {scene : Scene}.

Lemma controller_draw_plain (u : Widget) (matVP : QMatrix4x4) (hand : Eye) :
  hooks (controller_draw u matVP hand) = []
  /\ existsb is_lifecycle (controller_draw u matVP hand) = false.
Proof.
  unfold controller_draw.
  destruct (m_bShowController (m_controllers u hand)); [|split; reflexivity].
  destruct (m_pRenderModel (m_controllers u hand)); split; reflexivity.
Qed.

Lemma renderEye_log_plain (eye : Eye) (e : CEyeInfos) (u : Widget) :
  hooks (renderEye_log eye e u) = [Hook_Render eye]
  /\ existsb is_lifecycle (renderEye_log eye e u) = false.
Proof.
  unfold renderEye_log.
  set (matVP := QMatrix4x4_mul (m_projection e) (QMatrix4x4_mul (m_view e) (m_hmdPose u))).
  destruct (controller_draw_plain u matVP Left) as [HhL HlL].
  destruct (controller_draw_plain u matVP Right) as [HhR HlR].
  rewrite !hooks_app, !existsb_lifecycle_app, HhL, HhR, HlL, HlR. split; reflexivity.
Qed.

Lemma hmd_pass_plain (eye : Eye) (e : CEyeInfos) (fb : QOpenGLFramebufferObject)
    (u : Widget) :
  hooks (hmd_pass eye e fb u) = [Hook_Render eye]
  /\ existsb is_lifecycle (hmd_pass eye e fb u) = false.
Proof.
  unfold hmd_pass. destruct (renderEye_log_plain eye e u) as [Hh Hl].
  rewrite !hooks_app, !existsb_lifecycle_app, Hh, Hl. split; reflexivity.
Qed.

Lemma mirror_pass_plain (p : Platform) (e : CEyeInfos) (u : Widget) :
  hooks (mirror_pass p e u) = [Hook_Render Right]
  /\ existsb is_lifecycle (mirror_pass p e u) = false.
Proof.
  unfold mirror_pass. destruct (renderEye_log_plain Right e u) as [Hh Hl].
  rewrite !hooks_app, !existsb_lifecycle_app, Hh, Hl. split; reflexivity.
Qed.

(** The log of a frame that ended well. *)
Lemma paintGL_log_plain (p : Platform) (w w' : Widget) (log : list Event) :
  paintGL p w = Done tt w' log ->
  hooks log
  = (if vr_active w
     then [Hook_UpdateInputs; Hook_UpdateRendering;
           Hook_Render Left; Hook_Render Right; Hook_Render Right]
     else [Hook_Render Right])
  /\ existsb is_lifecycle log = false.
Proof.
  intros Hrun. pose proof (paintGL_done_ready p w w' log Hrun) as Hready.
  destruct (vr_active w) eqn:Hvr.
  - destruct (paintGL_ready_frame p w Hready)
      as (eL0 & eR0 & fbL & rbL & fbR & rbR & w1 & _ & _ & _ & _ & _ & _ & _ & _ & _ & Hshape).
    rewrite Hshape in Hrun.
    destruct (Done_inj _ _ _ _ _ _ Hrun) as (_ & _ & <-).
    rewrite !hooks_app, !existsb_lifecycle_app.
    repeat match goal with
           | |- context [hooks (hmd_pass ?eye ?e ?fb ?u)] =>
               destruct (hmd_pass_plain eye e fb u) as [-> ->]
           | |- context [hooks (mirror_pass ?q ?e ?u)] =>
               destruct (mirror_pass_plain q e u) as [-> ->]
           end.
    split; reflexivity.
  - unfold mirror_ready in Hready. apply andb_true_iff in Hready.
    destruct Hready as [HR Hctl]. apply isSome_true in HR. destruct HR as [eR HR].
    rewrite (paintGL_inactive p w eR Hvr HR Hctl) in Hrun.
    destruct (Done_inj _ _ _ _ _ _ Hrun) as (_ & _ & <-).
    rewrite !hooks_app, !existsb_lifecycle_app.
    destruct (mirror_pass_plain p eR w) as [-> ->]. split; reflexivity.
Qed.

End FrameLogs.

Lemma steady_ready (p : Platform) (w w' : Widget) :
  steady w w' ->
  (if vr_active w' then frame_ready p w' else mirror_ready w')
  = (if vr_active w then frame_ready p w else mirror_ready w).
Proof.
  intros Hs. pose proof Hs as (Hshape & Hvr & _).
  unfold frame_ready, mirror_ready.
  rewrite Hvr, !(same_shape_eye_ready _ _ _ Hshape), (same_shape_isSome _ _ _ Hshape),
    (steady_controllers_ready _ _ Hs).
  reflexivity.
Qed.

Section SessionProofs.
Context {qt : QtMath} {scene : Scene}.

Lemma objects_act (p : Platform) (a : Action) : keeps same_objects (act p a).
Proof.
  destruct a; cbn [act]; [apply objects_paintGL | keeps_objects ..].
Qed.

Lemma act_log_plain (p : Platform) (a : Action) (w w' : Widget) (log : list Event) :
  act p a w = Done tt w' log -> existsb is_lifecycle log = false.
Proof.
  destruct a; cbn [act]; [apply paintGL_log_plain|..];
    intros H; inversion H; reflexivity.
Qed.

Lemma session_runs (p : Platform) (l : list Action) (w : Widget) :
  is_done (paintGL p w) = true ->
  exists (w' : Widget) (log : list Event),
    session p l w = Done tt w' log
    /\ same_objects w w'
    /\ existsb is_lifecycle log = false
    /\ is_done (paintGL p w') = true.
Proof.
  unfold session. revert w. induction l as [|a l IH]; intros w Hdone; cbn [for_each].
  - exists w, []. repeat split; [reflexivity..|exact Hdone].
  - assert (Hact : exists w1 l1, act p a w = Done tt w1 l1).
    { destruct a; cbn [act];
        [apply is_done_true in Hdone; destruct Hdone as ([] & w1 & l1 & ->); eauto
        | eexists _, _; reflexivity ..]. }
    destruct Hact as (w1 & l1 & Hact).
    pose proof (objects_act p a _ _ _ _ Hact) as Hobj1.
    assert (Hdone1 : is_done (paintGL p w1) = true).
    { rewrite paintGL_done_iff_ready in *.
      rewrite (steady_ready p w w1 (same_objects_steady _ _ Hobj1)). exact Hdone. }
    destruct (IH w1 Hdone1) as (w' & log & Hrun & Hobj & Hplain & Hdone').
    exists w', (l1 ++ log).
    split; [rewrite (bind_Done _ _ _ _ _ _ Hact), Hrun; reflexivity|].
    split; [exact (same_objects_trans _ _ _ Hobj1 Hobj)|].
    split; [|exact Hdone'].
    rewrite existsb_lifecycle_app, (act_log_plain p a _ _ _ Hact), Hplain. reflexivity.
Qed.

End SessionProofs.

Lemma existsb_seq (k a n : nat) :
  existsb (Nat.eqb k) (seq a n) = ((a <=? k)%nat && (k <? a + n)%nat).
Proof.
  apply eq_true_iff_eq. rewrite existsb_exists, andb_true_iff, Nat.leb_le, Nat.ltb_lt.
  split.
  - intros (x & Hin & Heq). apply Nat.eqb_eq in Heq. subst x. apply in_seq in Hin. lia.
  - intros H. exists k. split; [apply in_seq; lia | apply Nat.eqb_refl].
Qed.

Lemma last_such_existsb (f : nat -> bool) (l : list nat) :
  isSome (last_such f l) = existsb f l.
Proof.
  induction l as [|i l IH]; [reflexivity|]. cbn [last_such existsb].
  rewrite <- IH. destruct (last_such f l); cbn [isSome].
  - apply eq_sym, orb_true_r.
  - rewrite orb_false_r. destruct (f i); reflexivity.
Qed.

Section DeviceTable.
Context {qt : QtMath} {scene : Scene}.

(** The table of device matrices after the devices of [l] have been treated. *)
Lemma update_loop_matrix (p : Platform) (l : list nat) (w : Widget) (k : nat) :
  m_matrixDevicePose (fold_left (fun w i => update_device_step p i w) l w) k
  = if existsb (Nat.eqb k) l && bPoseIsValid (m_trackedDevicePose w k)
    then vrMatrixToQt34 (mDeviceToAbsoluteTracking (m_trackedDevicePose w k))
    else m_matrixDevicePose w k.
Proof.
  revert w. induction l as [|i l IH]; intros w; cbn [fold_left existsb]; [reflexivity|].
  rewrite IH.
  assert (HP : m_trackedDevicePose (update_device_step p i w) = m_trackedDevicePose w)
    by apply update_device_step_frame.
  rewrite HP, update_device_step_matrix.
  destruct (Nat.eqb_spec k i) as [->|Hne].
  - rewrite bool_decide_eq_true_2 by reflexivity. rewrite andb_true_r. cbn [orb andb].
    destruct (existsb (Nat.eqb i) l), (bPoseIsValid (m_trackedDevicePose w i)); reflexivity.
  - rewrite (bool_decide_eq_false_2 (i = k)) by congruence. rewrite andb_false_r.
    reflexivity.
Qed.

Lemma positions_updated_matrix (p : Platform) (w : Widget) (eL eR : CEyeInfos) (k : nat) :
  m_matrixDevicePose (positions_updated p eL eR w) k
  = if (k <? k_unMaxTrackedDeviceCount)%nat && bPoseIsValid (WaitGetPoses p k)
    then vrMatrixToQt34 (mDeviceToAbsoluteTracking (WaitGetPoses p k))
    else m_matrixDevicePose w k.
Proof.
  unfold positions_updated. rewrite update_loop_matrix, existsb_seq. reflexivity.
Qed.

(** What [UpdatePositions] does on every state. *)
Lemma UpdatePositions_outcome (p : Platform) (w : Widget) :
  UpdatePositions p w
  = match m_vrSystem w, m_eyeInfos w Left, m_eyeInfos w Right, VRCompositor p with
    | None, _, _, _ => Crash NullVRSystem
    | Some _, None, _, _ => Crash (NullEyeInfos Left)
    | Some _, Some _, None, _ => Crash (NullEyeInfos Right)
    | Some _, Some _, Some _, None => Crash NullCompositor
    | Some _, Some eL, Some eR, Some _ =>
        Done tt (positions_updated p eL eR w) [E_WaitGetPoses]
    end.
Proof.
  destruct (m_vrSystem w) as [sys|] eqn:Hsys.
  2:{ unfold UpdatePositions, both_eyes, update_eye. cbn [for_each]. run.
      rewrite Hsys. run. reflexivity. }
  destruct (m_eyeInfos w Left) as [eL|] eqn:HL.
  2:{ unfold UpdatePositions, both_eyes, update_eye. cbn [for_each]. run.
      rewrite Hsys. run. rewrite HL. run. reflexivity. }
  destruct (m_eyeInfos w Right) as [eR|] eqn:HR.
  2:{ unfold UpdatePositions, both_eyes, update_eye. cbn [for_each]. run.
      rewrite Hsys. run. rewrite HL. run. rewrite Hsys. run. rewrite HR. run.
      reflexivity. }
  destruct (VRCompositor p) as [comp|] eqn:Hcomp.
  - apply UpdatePositions_run; [unfold vr_active; rewrite Hsys| rewrite Hcomp | |];
      try reflexivity; assumption.
  - unfold UpdatePositions, both_eyes, update_eye, WaitGetPoses_call. cbn [for_each]. run.
    rewrite Hsys. run. rewrite HL. run. rewrite Hsys. run. rewrite HR. run.
    rewrite Hcomp. run. reflexivity.
Qed.

End DeviceTable.

Lemma hooks_flat_map {I : Type} (f : I -> list Event) (l : list I) :
  (forall i, hooks (f i) = []) -> hooks (flat_map f l) = [].
Proof.
  intros Hf. induction l as [|i l IH]; [reflexivity|].
  cbn [flat_map]. rewrite hooks_app, Hf, IH. reflexivity.
Qed.

Lemma hooks_loading_log (p : Platform) (name : string) : hooks (loading_log p name) = [].
Proof.
  unfold loading_log. destruct (LoadRenderModel_Async p name) as [error pModel].
  destruct (decide (error <> VRRenderModelError_None)); [reflexivity|].
  destruct (decide (LoadTexture_Async p (diffuseTextureId pModel) <> VRRenderModelError_None));
    reflexivity.
Qed.

Lemma hooks_InitializeControllers_log (p : Platform) :
  hooks (InitializeControllers_log p) = [Hook_InitializeInputs].
Proof.
  unfold InitializeControllers_log.
  change (E_WaitGetPoses :: ?l) with ([E_WaitGetPoses] ++ l).
  rewrite !hooks_app, hooks_flat_map; [reflexivity|].
  intros i. unfold init_controller_log.
  destruct (decide (GetTrackedDeviceClass p i <> TrackedDeviceClass_Controller));
    [reflexivity | apply hooks_loading_log].
Qed.


Section Lifecycle.
Context {qt : QtMath} {scene : Scene}.


(** X2.  On a platform that does not let [InitializeVR] through,
    [initializeGL] on the new widget shows one critical dialog, calls no
    method of the subclass and returns; the first [paintGL] after it then
    stops at the null right eye pointer, in the mirror view. *)
Theorem paintGL_without_headset (p : Platform) :
  vr_available p = false ->
  exists (w' : Widget) (log : list Event),
    initializeGL p COpenVROpenGLWidget = Done tt w' log
    /\ length (List.filter is_dialog log) = 1%nat
    /\ hooks log = []
    /\ vr_active w' = false
    /\ paintGL p w' = Crash (NullEyeInfos Right).
Proof.
  intros Havail.
  destruct (initializeGL_unavailable p COpenVROpenGLWidget Havail)
    as (w' & log & Hrun & _ & Hsys & Heyes & _ & _ & Hdialog & _ & Hhooks).
  assert (Hvr : vr_active w' = false).
  { unfold vr_active. rewrite Hsys.
    destruct (VR_IsRuntimeInstalled p && VR_IsHmdPresent p); reflexivity. }
  eexists _, _. split; [exact Hrun|].
  split; [exact Hdialog|].
  split; [rewrite hooks_app, Hhooks; reflexivity|].
  split; [exact Hvr|].
  apply paintGL_inactive_null; [exact Hvr | rewrite Heyes; reflexivity].
Qed.

End Lifecycle.

Lemma filter_none {A : Type} (f : A -> bool) (l : list A) :
  existsb f l = false -> List.filter f l = [].
Proof.
  induction l as [|x l IH]; [reflexivity|]. cbn [existsb List.filter]. intros H.
  apply orb_false_iff in H. destruct H as [-> Hl]. exact (IH Hl).
Qed.

Section LifecycleEdges.
Context {qt : QtMath} {scene : Scene}.

Lemma submit_filter_hmd_pass (eye : Eye) (e : CEyeInfos) (fb : QOpenGLFramebufferObject)
    (u : Widget) :
  List.filter is_submit (hmd_pass eye e fb u) = [].
Proof. apply filter_none, hmd_pass_no_submit. Qed.

Lemma submit_filter_mirror_pass (p : Platform) (e : CEyeInfos) (u : Widget) :
  List.filter is_submit (mirror_pass p e u) = [].
Proof. apply filter_none, submit_is_hmd_output, mirror_pass_quiet. Qed.

Lemma unready_never_paints (p : Platform) (w : Widget) :
  controllers_ready w = false -> is_done (paintGL p w) = false.
Proof.
  intros Hctl. rewrite paintGL_done_iff_ready. unfold frame_ready, mirror_ready.
  rewrite Hctl, !andb_false_r. destruct (vr_active w); reflexivity.
Qed.

(** X3.  [InitializeControllers] marks a hand as shown whether or not
    its render model loaded: when every load settles and the one of the
    last controller filed under a hand ends with an error, the hand is
    left shown with a null model pointer, the function still returns
    [true], and from then on [renderEye] stops at that null pointer, so
    no [paintGL] ends well, whatever the platform then answers. *)
Theorem InitializeControllers_shows_unloaded (p : Platform) (w : Widget) (hand : Eye)
    (j : nat) :
  vr_active w = true ->
  isSome (VRCompositor p) = true ->
  loads_settle p = true ->
  last_such (controller_for p hand) (seq 0 k_unMaxTrackedDeviceCount) = Some j ->
  loaded_model p (device_model_name p j) = None ->
  exists (w' : Widget) (log : list Event),
    InitializeControllers p w = Done true w' log
    /\ hooks log = [Hook_InitializeInputs]
    /\ m_bShowController (m_controllers w' hand) = true
    /\ m_pRenderModel (m_controllers w' hand) = None
    /\ (forall matVP : QMatrix4x4,
          draw_controller matVP hand w' = Crash (NullRenderModel hand))
    /\ (forall p' : Platform, is_done (paintGL p' w') = false).
Proof.
  intros Hvr Hcomp _ Hlast Hload.
  destruct (InitializeControllers_result p w Hvr Hcomp)
    as (w' & Hrun & _ & _ & _ & _ & _ & Hslot).
  specialize (Hslot hand). unfold slot_initialized in Hslot.
  rewrite Hlast, Hload in Hslot.
  assert (Hmodel : has_model (m_controllers w' hand) = false)
    by (rewrite Hslot; reflexivity).
  exists w', (InitializeControllers_log p). split; [exact Hrun|].
  split; [apply hooks_InitializeControllers_log|].
  split; [rewrite Hslot; reflexivity|]. split; [rewrite Hslot; reflexivity|].
  split; [intros matVP; exact (draw_controller_unready matVP hand w' Hmodel)|].
  intros p'. apply unready_never_paints. unfold controllers_ready.
  destruct hand; rewrite Hmodel; [reflexivity | apply andb_false_r].
Qed.

(** X4.  When one of the four eye framebuffers is not valid,
    [initializeGL] on the new widget returns right after
    [InitializeEyesRendering]: no dialog, no controller, and no call of
    the subclass's [InitializeInputs] or [InitializeRendering].  The VR
    system stays active and both eyes keep their buffers, so the next
    [paintGL] runs a whole frame: it updates and renders the scene that
    was never initialised and submits both eye textures. *)
Theorem initializeGL_invalid_eyes (p : Platform) :
  vr_available p = true ->
  isSome (fst (VR_Init p)) = true ->
  eyes_valid p 0 = false ->
  exists w' : Widget,
    initializeGL p COpenVROpenGLWidget
    = Done tt w' ([E_initializeOpenGLFunctions; E_glEnable GL_DEPTH_TEST; E_VR_Init]
                  ++ new_eye_log p 0 ++ new_eye_log p 2)
    /\ vr_active w' = true
    /\ m_eyeInfos w' Left = Some (new_eye p 0)
    /\ m_eyeInfos w' Right = Some (new_eye p 2)
    /\ (forall hand : Eye, m_controllers w' hand = SControllerInfos_default)
    /\ exists (w'' : Widget) (log' : list Event),
         paintGL p w' = Done tt w'' log'
         /\ hooks log'
            = [Hook_UpdateInputs; Hook_UpdateRendering;
               Hook_Render Left; Hook_Render Right; Hook_Render Right]
         /\ List.filter is_submit log'
            = [E_Submit Left (gl_framebuffer_texture p 1);
               E_Submit Right (gl_framebuffer_texture p 3)].
Proof.
  intros Havail Hsys Hvalid.
  destruct (initializeGL_available p COpenVROpenGLWidget Havail Hsys)
    as (w' & Hrun & Hsys' & HL & HR & _ & _ & Hctl).
  change (gl_framebuffers COpenVROpenGLWidget) with 0%nat in *.
  unfold initializeGL_log in Hrun. rewrite Hvalid in *. rewrite app_nil_r in Hrun.
  assert (Hvr : vr_active w' = true) by (unfold vr_active; rewrite Hsys'; exact Hsys).
  exists w'. split; [exact Hrun|]. split; [exact Hvr|].
  split; [exact HL|]. split; [exact HR|]. split; [exact Hctl|].
  assert (Hready : frame_ready p w' = true).
  { pose proof (vr_available_inv p Havail) as (_ & _ & _ & Hcomp).
    unfold frame_ready, eye_ready, controllers_ready.
    rewrite Hvr, Hcomp, HL, HR, !Hctl. reflexivity. }
  destruct (paintGL_ready_frame p w' Hready)
    as (eL0 & eR0 & fbL & rbL & fbR & rbR & w1 & HL0 & HR0 & _ & HrL & _ & HrR & _ & _ & _
        & Hframe).
  rewrite HL in HL0. injection HL0 as <-. rewrite HR in HR0. injection HR0 as <-.
  cbn in HrL, HrR. injection HrL as <-. injection HrR as <-.
  eexists _, _. split; [exact Hframe|].
  split; [rewrite (proj1 (paintGL_log_plain p w' _ _ Hframe)), Hvr; reflexivity|].
  rewrite !filter_app.
  repeat match goal with
         | |- context [List.filter is_submit (hmd_pass ?eye ?e ?fb ?u)] =>
             rewrite (submit_filter_hmd_pass eye e fb u)
         | |- context [List.filter is_submit (mirror_pass ?q ?e ?u)] =>
             rewrite (submit_filter_mirror_pass q e u)
         end.
  reflexivity.
Qed.

End LifecycleEdges.

Section FrameDiscipline.
Context {qt : QtMath} {scene : Scene}.

(** X5.  A [paintGL] that ends well has called the subclass in a fixed
    order: with the VR system active [UpdateInputs], [UpdateRendering],
    then [Render] for the left eye, the right eye and the right eye again
    for the mirror view; without it only [Render] for the right eye, so the
    scene is then never updated.  The frame creates and frees nothing and
    tells the user nothing, and it leaves the VR system, the
    framebuffers and the render models as they were. *)
Theorem paintGL_frame_discipline (p : Platform) (w w' : Widget) (log : list Event) :
  paintGL p w = Done tt w' log ->
  hooks log
  = (if vr_active w
     then [Hook_UpdateInputs; Hook_UpdateRendering;
           Hook_Render Left; Hook_Render Right; Hook_Render Right]
     else [Hook_Render Right])
  /\ existsb is_lifecycle log = false
  /\ same_objects w w'.
Proof.
  intros Hrun. destruct (paintGL_log_plain p w w' log Hrun) as [Hhooks Hplain].
  split; [exact Hhooks|]. split; [exact Hplain|].
  exact (objects_paintGL p w tt w' log Hrun).
Qed.

(** Of the platform, a frame that ends well needs the compositor only. *)
Lemma paintGL_other_platform (p p' : Platform) (w : Widget) :
  is_done (paintGL p w) = true ->
  (vr_active w = true -> isSome (VRCompositor p') = true) ->
  is_done (paintGL p' w) = true.
Proof.
  rewrite !paintGL_done_iff_ready. unfold frame_ready.
  destruct (vr_active w); [|intros H _; exact H].
  intros H Hcomp. rewrite (Hcomp eq_refl).
  destruct (isSome (VRCompositor p)); [exact H | discriminate H].
Qed.

Lemma paintGL_lost_compositor (p p' : Platform) (w : Widget) :
  is_done (paintGL p w) = true ->
  vr_active w = true ->
  VRCompositor p' = None ->
  paintGL p' w = Crash NullCompositor.
Proof.
  intros Hdone Hvr Hcomp. rewrite paintGL_done_iff_ready, Hvr in Hdone.
  destruct (frame_ready_inv p w Hdone) as (_ & _ & HL & HR & _).
  destruct (eye_ready_inv w Left HL) as (eL & fbL & rbL & HeL & _).
  destruct (eye_ready_inv w Right HR) as (eR & fbR & rbR & HeR & _).
  pose proof Hvr as Hsys. apply isSome_true in Hsys. destruct Hsys as [sys Hsys].
  unfold paintGL. rewrite bind_gets, vr_active_decide, Hvr. cbn [when].
  apply bind_Crash, bind_Crash.
  rewrite UpdatePositions_outcome, Hsys, HeL, HeR, Hcomp. reflexivity.
Qed.

Lemma session_on_runs (p : Platform) (l : list (Platform * Action)) (w : Widget) :
  is_done (paintGL p w) = true ->
  (vr_active w = true ->
   forall step : Platform * Action,
     In step l -> snd step = Act_paintGL -> isSome (VRCompositor (fst step)) = true) ->
  exists (w' : Widget) (log : list Event),
    session_on l w = Done tt w' log
    /\ same_objects w w'
    /\ existsb is_lifecycle log = false
    /\ is_done (paintGL p w') = true.
Proof.
  unfold session_on. revert w.
  induction l as [|[p1 a] l IH]; intros w Hdone Hcomp; cbn [for_each].
  - exists w, []. repeat split; [reflexivity..|exact Hdone].
  - assert (Hact : exists w1 l1, act p1 a w = Done tt w1 l1).
    { destruct a; cbn [act]; [|eexists _, _; reflexivity ..].
      assert (Hdone1 : is_done (paintGL p1 w) = true).
      { apply (paintGL_other_platform p p1 w Hdone). intros Hvr.
        apply (Hcomp Hvr (p1, Act_paintGL)); [left|]; reflexivity. }
      apply is_done_true in Hdone1. destruct Hdone1 as ([] & w1 & l1 & ->). eauto. }
    destruct Hact as (w1 & l1 & Hact). cbn [fst snd].
    pose proof (objects_act p1 a _ _ _ _ Hact) as Hobj1.
    assert (Hvr1 : vr_active w1 = vr_active w).
    { destruct Hobj1 as (Hsys & _). unfold vr_active. rewrite Hsys. reflexivity. }
    assert (Hdone1 : is_done (paintGL p w1) = true).
    { rewrite paintGL_done_iff_ready in *.
      rewrite (steady_ready p w w1 (same_objects_steady _ _ Hobj1)). exact Hdone. }
    destruct (IH w1 Hdone1) as (w' & log & Hrun & Hobj & Hplain & Hdone').
    { rewrite Hvr1. intros Hvr step Hin. apply (Hcomp Hvr). right. exact Hin. }
    exists w', (l1 ++ log).
    split; [rewrite (bind_Done _ _ _ _ _ _ Hact), Hrun; reflexivity|].
    split; [exact (same_objects_trans _ _ _ Hobj1 Hobj)|].
    split; [|exact Hdone'].
    rewrite existsb_lifecycle_app, (act_log_plain p1 a _ _ _ Hact), Hplain. reflexivity.
Qed.

(** X6.  Once one [paintGL] has ended well, every later one does for as
    long as [VRCompositor()] answers with a compositor in each frame:
    after any sequence of frames and of calls of [TranslateEyes],
    [RotateEyes], [ResetEyesPositions] and [ResetEyesRotations], whatever
    else the SDK answers from one frame to the next, the widget still
    holds the same objects and the next [paintGL] ends well again.  The
    compositor is asked for in every frame: with the VR system active, a
    frame in which [VRCompositor()] answers null stops at that null
    pointer.  Without a VR system the compositor is not asked for. *)
Theorem session_keeps_painting (p : Platform) (l : list (Platform * Action)) (w : Widget) :
  is_done (paintGL p w) = true ->
  (vr_active w = true ->
   forall step : Platform * Action,
     In step l -> snd step = Act_paintGL -> isSome (VRCompositor (fst step)) = true) ->
  exists (w' : Widget) (log : list Event),
    session_on l w = Done tt w' log
    /\ same_objects w w'
    /\ existsb is_lifecycle log = false
    /\ (forall p' : Platform,
          (vr_active w = true -> isSome (VRCompositor p') = true) ->
          is_done (paintGL p' w') = true)
    /\ (forall p' : Platform,
          vr_active w = true -> VRCompositor p' = None ->
          paintGL p' w' = Crash NullCompositor).
Proof.
  intros Hdone Hcomp.
  destruct (session_on_runs p l w Hdone Hcomp) as (w' & log & Hrun & Hobj & Hplain & Hdone').
  assert (Hvr : vr_active w' = vr_active w).
  { destruct Hobj as (Hsys & _). unfold vr_active. rewrite Hsys. reflexivity. }
  exists w', log. split; [exact Hrun|]. split; [exact Hobj|]. split; [exact Hplain|].
  split.
  - intros p' Hcomp'. apply (paintGL_other_platform p p' w' Hdone').
    rewrite Hvr. exact Hcomp'.
  - intros p' Hactive Hnone. apply (paintGL_lost_compositor p p' w' Hdone'); [|exact Hnone].
    rewrite Hvr. exact Hactive.
Qed.

(** X7.  [UpdatePositions] ends well exactly when the VR system, both
    eyes' [CEyeInfos] and the compositor exist; otherwise it stops at the
    first of them that is null, in this order.  When it ends well it has
    called [WaitGetPoses] and nothing else, holds the poses the
    compositor gave, and has converted the matrix of each of the 64
    devices whose pose is valid, keeping the old matrix of every other
    one; [m_hmdPose] is the inverse of the matrix at index 0 if some
    device of class HMD has a valid pose, whichever index that device
    has, and is unchanged otherwise. *)
Theorem UpdatePositions_device_table (p : Platform) (w : Widget) :
  is_done (UpdatePositions p w)
  = vr_active w && isSome (m_eyeInfos w Left) && isSome (m_eyeInfos w Right)
    && isSome (VRCompositor p)
  /\ (m_vrSystem w = None -> UpdatePositions p w = Crash NullVRSystem)
  /\ (vr_active w = true -> m_eyeInfos w Left = None ->
      UpdatePositions p w = Crash (NullEyeInfos Left))
  /\ (vr_active w = true -> isSome (m_eyeInfos w Left) = true -> m_eyeInfos w Right = None ->
      UpdatePositions p w = Crash (NullEyeInfos Right))
  /\ (vr_active w = true -> isSome (m_eyeInfos w Left) = true ->
      isSome (m_eyeInfos w Right) = true -> VRCompositor p = None ->
      UpdatePositions p w = Crash NullCompositor)
  /\ (forall (w' : Widget) (log : list Event),
        UpdatePositions p w = Done tt w' log ->
        log = [E_WaitGetPoses]
        /\ m_trackedDevicePose w' = WaitGetPoses p
        /\ (forall k : nat,
              m_matrixDevicePose w' k
              = if (k <? k_unMaxTrackedDeviceCount)%nat && bPoseIsValid (WaitGetPoses p k)
                then vrMatrixToQt34 (mDeviceToAbsoluteTracking (WaitGetPoses p k))
                else m_matrixDevicePose w k)
        /\ m_hmdPose w'
           = if existsb (tracked_hmd p (WaitGetPoses p)) (seq 0 k_unMaxTrackedDeviceCount)
             then QMatrix4x4_inverted (m_matrixDevicePose w' k_unTrackedDeviceIndex_Hmd)
             else m_hmdPose w).
Proof.
  pose proof (UpdatePositions_outcome p w) as Hout. unfold vr_active.
  destruct (m_vrSystem w) as [sys|]; [|rewrite Hout; repeat split; discriminate].
  destruct (m_eyeInfos w Left) as [eL|]; [|rewrite Hout; repeat split; discriminate].
  destruct (m_eyeInfos w Right) as [eR|]; [|rewrite Hout; repeat split; discriminate].
  destruct (VRCompositor p) as [comp|]; [|rewrite Hout; repeat split; discriminate].
  pose proof (fun k => positions_updated_matrix p w eL eR k) as Htable.
  pose proof (positions_updated_hmd p w eL eR) as Hhmd.
  destruct (positions_updated_fields p w eL eR) as (_ & _ & _ & _ & _ & Hposes).
  revert Hout Htable Hhmd Hposes. generalize (positions_updated p eL eR w).
  intros w1 Hout Htable Hhmd Hposes. rewrite Hout.
  split; [reflexivity|]. do 4 (split; [discriminate|]).
  intros w' log H. destruct (Done_inj _ _ _ _ _ _ H) as (_ & <- & <-).
  split; [reflexivity|]. split; [exact Hposes|]. split; [exact Htable|].
  rewrite Hhmd, <- last_such_existsb, (Htable k_unTrackedDeviceIndex_Hmd).
  destruct (last_such (tracked_hmd p (WaitGetPoses p)) (seq 0 k_unMaxTrackedDeviceCount));
    reflexivity.
Qed.

End FrameDiscipline.

(** X8.  Neither overload of [vrMatrixToQt] loses anything: two SDK
    matrices with the same conversion are the same matrix. *)
Theorem vrMatrixToQt_injective (a b : HmdMatrix34_t) (c d : HmdMatrix44_t) :
  (vrMatrixToQt34 a = vrMatrixToQt34 b -> a = b)
  /\ (vrMatrixToQt44 c = vrMatrixToQt44 d -> c = d).
Proof.
  split.
  - destruct a as [[] [] []], b as [[] [] []]. unfold vrMatrixToQt34, QMatrix4x4_of. cbn.
    intros H. injection H as -> -> -> -> -> -> -> -> -> -> -> ->. reflexivity.
  - destruct c as [[] [] [] []], d as [[] [] [] []]. unfold vrMatrixToQt44, QMatrix4x4_of. cbn.
    intros H. injection H as -> -> -> -> -> -> -> -> -> -> -> -> -> -> -> ->. reflexivity.
Qed.

Lemma int_of_uint32_large (u : Z) :
  2 ^ 31 <= u < 2 ^ 32 -> int_of_uint32 u = u - 2 ^ 32.
Proof.
  intros H. unfold int_of_uint32. rewrite Z.mod_small by lia.
  destruct (u <? 2 ^ 31) eqn:E; [|reflexivity].
  apply Z.ltb_lt in E. lia.
Qed.

Section EyeSize.
Context {qt : QtMath} {scene : Scene}.

(** X9.  Whatever size the VR system recommends, [InitializeEyesRendering]
    makes four framebuffer objects, all of the recommended width and
    height cast to [int], and gives both eyes that size.  The cast keeps
    a dimension below 2^31 and turns one from 2^31 on into the negative
    number 2^32 less, which is then what the framebuffers are asked for. *)
Theorem InitializeEyesRendering_eye_size (p : Platform) (w : Widget) :
  vr_active w = true ->
  exists (ok : bool) (w' : Widget) (log : list Event),
    InitializeEyesRendering p w = Done ok w' log
    /\ length (created log) = 4%nat
    /\ (forall fbo : QOpenGLFramebufferObject,
          In fbo (created log) ->
          fbo_width fbo = int_of_uint32 (fst (GetRecommendedRenderTargetSize p))
          /\ fbo_height fbo = int_of_uint32 (snd (GetRecommendedRenderTargetSize p)))
    /\ (forall eye : Eye, exists e : CEyeInfos,
          m_eyeInfos w' eye = Some e
          /\ m_size e = mkQSize (int_of_uint32 (fst (GetRecommendedRenderTargetSize p)))
                                (int_of_uint32 (snd (GetRecommendedRenderTargetSize p))))
    /\ (forall u : Z, 0 <= u < 2 ^ 31 -> int_of_uint32 u = u)
    /\ (forall u : Z, 2 ^ 31 <= u < 2 ^ 32 ->
          int_of_uint32 u = u - 2 ^ 32 /\ int_of_uint32 u < 0).
Proof.
  intros Hvr.
  destruct (InitializeEyesRendering_run p w Hvr) as (w' & Hrun & _ & HL & HR & _).
  eexists _, w', _. split; [exact Hrun|].
  split; [reflexivity|]. split; [|split; [|split]].
  - cbn. intros fbo [<-|[<-|[<-|[<-|[]]]]]; split; reflexivity.
  - intros [|]; eexists; (split; [eassumption | reflexivity]).
  - apply int_of_uint32_small.
  - intros u Hu. rewrite (int_of_uint32_large u Hu). lia.
Qed.

End EyeSize.


(** ** From construction to destruction *)

Lemma created_app (l1 l2 : list Event) : created (l1 ++ l2) = created l1 ++ created l2.
Proof. apply flat_map_app. Qed.

Lemma plain_log (log : list Event) :
  existsb is_lifecycle log = false ->
  created log = [] /\ List.filter is_shutdown log = []
  /\ List.filter is_new_program log = [].
Proof.
  induction log as [|e log IH]; [repeat split|]. cbn [existsb]. intros H.
  apply orb_false_iff in H. destruct H as [He Hlog].
  destruct (IH Hlog) as (Hc & Hs & Hn).
  change (e :: log) with ([e] ++ log). rewrite created_app, !filter_app, Hc, Hs, Hn.
  destruct e; try discriminate; repeat split; reflexivity.
Qed.

Lemma Destroy_same_objects (w w' : Widget) : same_objects w w' -> Destroy w' = Destroy w.
Proof.
  intros (_ & _ & Heyes & Hctl). unfold Destroy, both_eyes. cbn [flat_map].
  destruct (Hctl Left) as [-> _]. destruct (Hctl Right) as [-> _].
  assert (He : forall eye, delete_CEyeInfos (m_eyeInfos w' eye)
                           = delete_CEyeInfos (m_eyeInfos w eye)).
  { intros eye. specialize (Heyes eye). unfold eye_objects in Heyes.
    destruct (m_eyeInfos w' eye) as [e'|], (m_eyeInfos w eye) as [e|];
      cbn [option_map] in Heyes; try discriminate; [|reflexivity].
    injection Heyes as Hf Hr _. unfold delete_CEyeInfos, CEyeInfos_delete.
    rewrite Hf, Hr. reflexivity. }
  rewrite !He. reflexivity.
Qed.

Lemma created_new_eye_log (p : Platform) (n : nat) :
  created (new_eye_log p n)
  = [driver_fbo p n (width (eyeSize p)) (height (eyeSize p)) (mkFormat Depth GL_RGBA8 4);
     driver_fbo p (S n) (width (eyeSize p)) (height (eyeSize p))
                (mkFormat NoAttachment GL_RGBA8 0)].
Proof. reflexivity. Qed.

Lemma filter_flat_map_nil {I A : Type} (P : A -> bool) (f : I -> list A) (l : list I) :
  (forall i, List.filter P (f i) = []) -> List.filter P (flat_map f l) = [].
Proof.
  intros Hf. induction l as [|i l IH]; [reflexivity|].
  cbn [flat_map]. rewrite filter_app, Hf, IH. reflexivity.
Qed.

Lemma created_flat_map_nil {I : Type} (f : I -> list Event) (l : list I) :
  (forall i, created (f i) = []) -> created (flat_map f l) = [].
Proof.
  intros Hf. induction l as [|i l IH]; [reflexivity|].
  cbn [flat_map]. rewrite created_app, Hf, IH. reflexivity.
Qed.

Lemma loading_log_plain (p : Platform) (name : string) :
  created (loading_log p name) = [] /\ List.filter is_shutdown (loading_log p name) = [].
Proof.
  unfold loading_log. destruct (LoadRenderModel_Async p name) as [error pModel].
  destruct (decide (error <> VRRenderModelError_None)); [split; reflexivity|].
  destruct (decide (LoadTexture_Async p (diffuseTextureId pModel) <> VRRenderModelError_None));
    split; reflexivity.
Qed.

Lemma init_controller_log_plain (p : Platform) (i : nat) :
  created (init_controller_log p i) = []
  /\ List.filter is_shutdown (init_controller_log p i) = [].
Proof.
  unfold init_controller_log.
  destruct (decide (GetTrackedDeviceClass p i <> TrackedDeviceClass_Controller));
    [split; reflexivity | apply loading_log_plain].
Qed.

Lemma InitializeControllers_log_plain (p : Platform) :
  created (InitializeControllers_log p) = []
  /\ List.filter is_shutdown (InitializeControllers_log p) = [].
Proof.
  unfold InitializeControllers_log.
  change (E_WaitGetPoses :: ?l) with ([E_WaitGetPoses] ++ l).
  rewrite !created_app, !filter_app.
  rewrite created_flat_map_nil by (intros i; apply init_controller_log_plain).
  rewrite filter_flat_map_nil by (intros i; apply init_controller_log_plain).
  split; reflexivity.
Qed.

Lemma initializeGL_log_created (p : Platform) (n : nat) :
  created (initializeGL_log p n)
  = created (new_eye_log p n) ++ created (new_eye_log p (2 + n))
  /\ List.filter is_shutdown (initializeGL_log p n) = [].
Proof.
  unfold initializeGL_log. rewrite !created_app, !filter_app.
  assert (H : created (if eyes_valid p n
                       then InitializeControllers_log p ++ [E_InitializeRendering] else [])
              = []
              /\ List.filter is_shutdown
                   (if eyes_valid p n
                    then InitializeControllers_log p ++ [E_InitializeRendering] else [])
                 = []).
  { destruct (eyes_valid p n); [|split; reflexivity].
    rewrite created_app, filter_app.
    destruct (InitializeControllers_log_plain p) as [-> ->]. split; reflexivity. }
  destruct H as [-> ->]. rewrite app_nil_r. split; reflexivity.
Qed.

Section Teardown.
Context {qt : QtMath} {scene : Scene}.

Lemma initializeGL_unavailable_counts (p : Platform) (w : Widget) :
  vr_available p = false ->
  exists (w' : Widget) (log : list Event),
    initializeGL p w = Done tt w' log
    /\ m_vrSystem w'
       = (if VR_IsRuntimeInstalled p && VR_IsHmdPresent p then None else m_vrSystem w)
    /\ m_eyeInfos w' = m_eyeInfos w
    /\ m_controllers w' = m_controllers w
    /\ created log = []
    /\ length (List.filter is_shutdown log) = (if vr_initialized p then 1 else 0)%nat
    /\ List.filter is_new_program log = [].
Proof.
  unfold vr_available, vr_initialized, initializeGL, InitializeVR. intros H.
  destruct (VR_IsRuntimeInstalled p); cbn [negb andb] in *.
  2:{ run. eexists _, _. split; [reflexivity|]. repeat split; reflexivity. }
  destruct (VR_IsHmdPresent p); cbn [negb andb] in *.
  2:{ run. eexists _, _. split; [reflexivity|]. repeat split; reflexivity. }
  destruct (decide (snd (VR_Init p) <> VRInitError_None)) as [Herr|Herr].
  { run. eexists _, _. split; [reflexivity|].
    rewrite bool_decide_eq_false_2 by assumption. repeat split; reflexivity. }
  rewrite bool_decide_eq_true_2 in *
    by (destruct (decide (snd (VR_Init p) = VRInitError_None)); [assumption|contradiction]).
  cbn [andb] in H.
  destruct (VRCompositor p); [discriminate|].
  run. eexists _, _. split; [reflexivity|]. repeat split; reflexivity.
Qed.

(** A sequence of frames and eye movements that ends well. *)
Lemma session_done (p : Platform) (l : list Action) (w w' : Widget) (log : list Event) :
  session p l w = Done tt w' log ->
  same_objects w w' /\ existsb is_lifecycle log = false.
Proof.
  unfold session. revert w log. induction l as [|a l IH]; intros w log; cbn [for_each].
  - intros H. inversion H; subst. split; [apply same_objects_refl | reflexivity].
  - intros H. apply bind_inv in H.
    destruct H as ([] & w1 & l1 & l2 & Hact & Hrest & ->).
    destruct (IH _ _ Hrest) as [Hobj Hplain].
    split; [exact (same_objects_trans _ _ _ (objects_act p a _ _ _ _ Hact) Hobj)|].
    rewrite existsb_lifecycle_app, (act_log_plain p a _ _ _ Hact), Hplain. reflexivity.
Qed.

(** The new widget after an [initializeGL] that returned: its objects,
    and what the log says was created and shut down. *)
Lemma initializeGL_new_widget (p : Platform) (w1 : Widget) (log1 : list Event) :
  initializeGL p COpenVROpenGLWidget = Done tt w1 log1 ->
  (vr_available p = false
   /\ m_vrSystem w1 = None
   /\ m_eyeInfos w1 = (fun _ => None)
   /\ m_controllers w1 = (fun _ => SControllerInfos_default)
   /\ created log1 = []
   /\ length (List.filter is_shutdown log1) = (if vr_initialized p then 1 else 0)%nat
   /\ List.filter is_new_program log1 = [])
  \/ (vr_available p = true
      /\ isSome (m_vrSystem w1) = true
      /\ m_eyeInfos w1 Left = Some (new_eye p 0)
      /\ m_eyeInfos w1 Right = Some (new_eye p 2)
      /\ (forall hand : Eye,
            m_controllers w1 hand
            = if eyes_valid p 0
              then slot_initialized p hand SControllerInfos_default
              else SControllerInfos_default)
      /\ log1 = initializeGL_log p 0).
Proof.
  intros Hrun. destruct (vr_available p) eqn:Havail.
  - right. split; [reflexivity|].
    destruct (fst (VR_Init p)) as [sys|] eqn:Hsys.
    + destruct (initializeGL_available p COpenVROpenGLWidget Havail)
        as (w' & Hrun' & Hsys' & HL & HR & _ & _ & Hctl); [rewrite Hsys; reflexivity|].
      rewrite Hrun in Hrun'. destruct (Done_inj _ _ _ _ _ _ Hrun') as (_ & -> & ->).
      split; [rewrite Hsys', Hsys; reflexivity|].
      split; [exact HL|]. split; [exact HR|]. split; [exact Hctl | reflexivity].
    + rewrite (initializeGL_null_system p _ Havail Hsys) in Hrun. discriminate.
  - left. split; [reflexivity|].
    destruct (initializeGL_unavailable_counts p COpenVROpenGLWidget Havail)
      as (w' & log & Hrun' & Hsys & Heyes & Hctl & Hcreated & Hshut & Hnew).
    rewrite Hrun in Hrun'. destruct (Done_inj _ _ _ _ _ _ Hrun') as (_ & -> & ->).
    split; [rewrite Hsys; destruct (VR_IsRuntimeInstalled p && VR_IsHmdPresent p);
            reflexivity|].
    split; [exact Heyes|]. split; [exact Hctl|]. split; [exact Hcreated|].
    split; [exact Hshut | exact Hnew].
Qed.

End Teardown.

Lemma deleted_framebuffers_app (l1 l2 : list Release) :
  deleted_framebuffers (l1 ++ l2) = deleted_framebuffers l1 ++ deleted_framebuffers l2.
Proof. apply flat_map_app. Qed.

Lemma deleted_models_app (l1 l2 : list Release) :
  deleted_models (l1 ++ l2) = deleted_models l1 ++ deleted_models l2.
Proof. apply flat_map_app. Qed.

Lemma shutdowns_app (l1 l2 : list Release) :
  shutdowns (l1 ++ l2) = (shutdowns l1 + shutdowns l2)%nat.
Proof. unfold shutdowns. rewrite filter_app. apply length_app. Qed.

Lemma Destroy_no_shutdown (w : Widget) : shutdowns (Destroy w) = 0%nat.
Proof.
  unfold Destroy, both_eyes, delete_CEyeInfos, CEyeInfos_delete, delete_framebuffer,
    delete_CRenderModel.
  cbn [flat_map]. rewrite !app_nil_r, !shutdowns_app.
  repeat match goal with
         | |- context [match ?o with Some _ => _ | None => _ end] => destruct o
         end; reflexivity.
Qed.

(** What [ShutDownVR] releases. *)
Lemma ShutDownVR_releases (w : Widget) :
  deleted_framebuffers (snd (ShutDownVR w)) = deleted_framebuffers (Destroy w)
  /\ deleted_models (snd (ShutDownVR w)) = deleted_models (Destroy w)
  /\ shutdowns (snd (ShutDownVR w)) = (if vr_active w then 1 else 0)%nat
  /\ m_vrSystem (fst (ShutDownVR w)) = None.
Proof.
  unfold ShutDownVR, vr_active.
  destruct (m_vrSystem w) eqn:Hsys; cbn [fst snd isSome];
    rewrite !deleted_framebuffers_app, !deleted_models_app, !shutdowns_app,
      Destroy_no_shutdown;
    cbn; rewrite ?app_nil_r; repeat split; try reflexivity; assumption.
Qed.

Lemma deleted_framebuffers_eye (e : CEyeInfos) (fb rb : QOpenGLFramebufferObject) :
  m_frameBuffer e = Some fb -> m_resolveBuffer e = Some rb ->
  deleted_framebuffers (delete_CEyeInfos (Some e)) = [rb; fb].
Proof.
  intros Hf Hr. unfold delete_CEyeInfos, CEyeInfos_delete. rewrite Hf, Hr. reflexivity.
Qed.

Lemma deleted_framebuffers_models (o : option CRenderModel) :
  deleted_framebuffers (delete_CRenderModel o) = [].
Proof. destruct o; reflexivity. Qed.

Lemma deleted_models_eye (o : option CEyeInfos) : deleted_models (delete_CEyeInfos o) = [].
Proof.
  destruct o as [e|]; [|reflexivity]. unfold delete_CEyeInfos, CEyeInfos_delete.
  destruct (m_resolveBuffer e), (m_frameBuffer e); reflexivity.
Qed.

Section TeardownTheorems.
Context {qt : QtMath} {scene : Scene}.

(** X10.  Over the life of a widget, from its construction through
    [initializeGL], any frames and eye movements, to its destructor, every
    framebuffer object that was created is deleted exactly once and
    nothing else is: the four of the two eyes when the VR system came up,
    none otherwise. *)
Theorem destructor_deletes_framebuffers (p : Platform) (l : list Action)
    (w1 w2 : Widget) (log1 log2 : list Event) :
  initializeGL p COpenVROpenGLWidget = Done tt w1 log1 ->
  session p l w1 = Done tt w2 log2 ->
  Permutation (deleted_framebuffers (snd (ShutDownVR w2))) (created (log1 ++ log2))
  /\ List.NoDup (created (log1 ++ log2))
  /\ length (created (log1 ++ log2)) = (if vr_available p then 4 else 0)%nat.
Proof.
  intros Hinit Hsession.
  destruct (session_done p l w1 w2 log2 Hsession) as [Hobj Hplain].
  destruct (plain_log log2 Hplain) as (Hcreated2 & _).
  destruct (ShutDownVR_releases w2) as (-> & _).
  rewrite (Destroy_same_objects w1 w2 Hobj), created_app, Hcreated2, app_nil_r.
  unfold Destroy, both_eyes. cbn [flat_map].
  rewrite !deleted_framebuffers_app, !deleted_framebuffers_models, !app_nil_r.
  destruct (initializeGL_new_widget p w1 log1 Hinit)
    as [(-> & _ & Heyes & _ & -> & _ & _)|(-> & _ & HL & HR & _ & ->)].
  - rewrite Heyes. repeat split; constructor.
  - rewrite HL, HR.
    rewrite (deleted_framebuffers_eye (new_eye p 0) _ _ eq_refl eq_refl),
      (deleted_framebuffers_eye (new_eye p 2) _ _ eq_refl eq_refl).
    destruct (initializeGL_log_created p 0) as [-> _].
    rewrite !created_new_eye_log. cbn [app].
    split; [|split; [|reflexivity]].
    + eapply perm_trans; [apply perm_swap|].
      do 2 apply perm_skip. apply perm_swap.
    + repeat (apply NoDup_cons;
                [cbn [In]; intros H;
                 repeat (destruct H as [H|H];
                         [apply (f_equal fbo_name) in H; cbn in H; lia|]);
                 exact H|]).
      apply NoDup_nil.
Qed.

(** X11.  Over the same life, [VR_Shutdown] is called exactly once if
    [VR_Init] was called and reported no error, and never otherwise: by
    [InitializeVR] itself when there is no compositor, by the destructor
    when the VR system came up, and never by both.  The destructor leaves
    the VR system pointer null. *)
Theorem VR_Shutdown_balance (p : Platform) (l : list Action)
    (w1 w2 : Widget) (log1 log2 : list Event) :
  initializeGL p COpenVROpenGLWidget = Done tt w1 log1 ->
  session p l w1 = Done tt w2 log2 ->
  (length (List.filter is_shutdown (log1 ++ log2)) + shutdowns (snd (ShutDownVR w2)))%nat
  = (if vr_initialized p then 1 else 0)%nat
  /\ shutdowns (snd (ShutDownVR w2)) = (if vr_available p then 1 else 0)%nat
  /\ m_vrSystem (fst (ShutDownVR w2)) = None.
Proof.
  intros Hinit Hsession.
  destruct (session_done p l w1 w2 log2 Hsession) as [Hobj Hplain].
  destruct (plain_log log2 Hplain) as (_ & Hshut2 & _).
  destruct (ShutDownVR_releases w2) as (_ & _ & -> & Hnull).
  destruct Hobj as (Hsys & _). unfold vr_active. rewrite Hsys.
  rewrite filter_app, Hshut2, app_nil_r.
  destruct (initializeGL_new_widget p w1 log1 Hinit)
    as [(-> & -> & _ & _ & _ & -> & _)|(Havail & Hactive & _ & _ & _ & ->)].
  - cbn [isSome]. rewrite Nat.add_0_r. repeat split. exact Hnull.
  - rewrite Havail, Hactive. destruct (initializeGL_log_created p 0) as [_ ->].
    unfold vr_available in Havail. apply andb_true_iff in Havail.
    destruct Havail as [Hinitd _]. unfold vr_initialized. rewrite Hinitd.
    repeat split. exact Hnull.
Qed.

End TeardownTheorems.

(** *** Render models made and deleted *)

Lemma last_such_append (f : nat -> bool) (l1 l2 : list nat) :
  last_such f (l1 ++ l2)
  = match last_such f l2 with Some j => Some j | None => last_such f l1 end.
Proof.
  induction l1 as [|i l1 IH]; cbn [app last_such].
  - destruct (last_such f l2); reflexivity.
  - rewrite IH. destruct (last_such f l2); reflexivity.
Qed.

(** Whether the last element of [l] that satisfies [f] satisfies [g]. *)
Definition last_has (f g : nat -> bool) (l : list nat) : bool :=
  match last_such f l with Some j => g j | None => false end.

Lemma count_last (f g : nat -> bool) (l : list nat) :
  ((if last_has f g l then 1 else 0) <= length (List.filter (fun k => f k && g k) l))%nat.
Proof.
  unfold last_has. induction l as [|i l IH]; cbn [last_such List.filter]; [lia|].
  destruct (last_such f l) as [j|].
  - destruct (f i && g i); cbn [length]; lia.
  - destruct (f i); cbn [andb]; [|lia]. destruct (g i); cbn [length]; lia.
Qed.

Lemma count_last_strict (f g : nat -> bool) (l1 l2 : list nat) (i : nat) :
  f i && g i = true ->
  existsb f l2 = true ->
  (S (if last_has f g (l1 ++ i :: l2) then 1 else 0)
   <= length (List.filter (fun k => f k && g k) (l1 ++ i :: l2)))%nat.
Proof.
  intros Hi Hlater. unfold last_has.
  rewrite last_such_append. cbn [last_such].
  rewrite <- last_such_existsb in Hlater.
  destruct (last_such f l2) as [j|] eqn:Hlast; [|discriminate].
  rewrite filter_app, length_app. cbn [List.filter]. rewrite Hi. cbn [length].
  pose proof (count_last f g l2) as Hle. unfold last_has in Hle. rewrite Hlast in Hle.
  lia.
Qed.

Lemma count_flat_map {I A : Type} (P : A -> bool) (f : I -> list A) (g : I -> bool)
    (l : list I) :
  (forall i, length (List.filter P (f i)) = if g i then 1%nat else 0%nat) ->
  length (List.filter P (flat_map f l)) = length (List.filter g l).
Proof.
  intros Hf. induction l as [|i l IH]; [reflexivity|].
  cbn [flat_map List.filter]. rewrite filter_app, length_app, Hf, IH.
  destruct (g i); reflexivity.
Qed.

Lemma count_either (f1 f2 f : nat -> bool) (l : list nat) :
  (forall k, f k = f1 k || f2 k) ->
  (forall k, f1 k && f2 k = false) ->
  length (List.filter f l)
  = (length (List.filter f1 l) + length (List.filter f2 l))%nat.
Proof.
  intros Hor Hex. induction l as [|k l IH]; [reflexivity|].
  cbn [List.filter]. rewrite Hor. specialize (Hex k).
  destruct (f1 k), (f2 k); cbn [orb length]; try discriminate; lia.
Qed.

Lemma seq_cut (i n : nat) :
  (i < n)%nat -> seq 0 n = seq 0 i ++ i :: seq (S i) (n - S i).
Proof.
  intros H. replace n with (i + S (n - S i))%nat at 1 by lia.
  rewrite seq_app. reflexivity.
Qed.

Lemma new_programs_loading (p : Platform) (name : string) :
  length (List.filter is_new_program (loading_log p name))
  = if isSome (loaded_model p name) then 1%nat else 0%nat.
Proof.
  unfold loading_log, loaded_model.
  destruct (LoadRenderModel_Async p name) as [error pModel].
  destruct (decide (error <> VRRenderModelError_None)); [reflexivity|].
  destruct (decide (LoadTexture_Async p (diffuseTextureId pModel) <> VRRenderModelError_None));
    reflexivity.
Qed.

Lemma new_programs_InitializeControllers (p : Platform) :
  length (List.filter is_new_program (InitializeControllers_log p))
  = length (List.filter (loads_model p) (seq 0 k_unMaxTrackedDeviceCount)).
Proof.
  unfold InitializeControllers_log.
  change (E_WaitGetPoses :: ?l) with ([E_WaitGetPoses] ++ l).
  rewrite !filter_app, !length_app.
  change (length (List.filter is_new_program [E_WaitGetPoses])) with 0%nat.
  change (length (List.filter is_new_program [E_InitializeInputs])) with 0%nat.
  rewrite Nat.add_0_r, Nat.add_0_l. apply count_flat_map.
  intros i. unfold init_controller_log, loads_model.
  destruct (decide (GetTrackedDeviceClass p i <> TrackedDeviceClass_Controller)) as [Hc|Hc].
  - rewrite bool_decide_eq_false_2 by assumption. reflexivity.
  - rewrite bool_decide_eq_true_2
      by (destruct (decide (GetTrackedDeviceClass p i = TrackedDeviceClass_Controller));
          tauto).
    apply new_programs_loading.
Qed.

Lemma new_programs_initializeGL (p : Platform) (n : nat) :
  length (List.filter is_new_program (initializeGL_log p n))
  = if eyes_valid p n
    then length (List.filter (loads_model p) (seq 0 k_unMaxTrackedDeviceCount))
    else 0%nat.
Proof.
  unfold initializeGL_log. rewrite !filter_app, !length_app.
  change (length (List.filter is_new_program
                    [E_initializeOpenGLFunctions; E_glEnable GL_DEPTH_TEST; E_VR_Init]))
    with 0%nat.
  change (length (List.filter is_new_program (new_eye_log p n))) with 0%nat.
  change (length (List.filter is_new_program (new_eye_log p (2 + n)))) with 0%nat.
  rewrite !Nat.add_0_l.
  destruct (eyes_valid p n); [|reflexivity].
  rewrite filter_app, length_app, new_programs_InitializeControllers.
  change (length (List.filter is_new_program [E_InitializeRendering])) with 0%nat.
  apply Nat.add_0_r.
Qed.

Lemma loads_model_by_hand (p : Platform) (k : nat) :
  loads_model p k
  = (controller_for p Left k && isSome (loaded_model p (device_model_name p k)))
    || (controller_for p Right k && isSome (loaded_model p (device_model_name p k))).
Proof.
  unfold loads_model, controller_for.
  destruct (bool_decide (GetTrackedDeviceClass p k = TrackedDeviceClass_Controller));
    [|reflexivity].
  cbn [andb].
  destruct (handIndex (GetControllerRoleForTrackedDeviceIndex p k));
    rewrite ?(bool_decide_eq_false_2 _ Left_ne_Right),
      ?(bool_decide_eq_false_2 _ Right_ne_Left),
      ?(bool_decide_eq_true_2 (Left = Left) eq_refl),
      ?(bool_decide_eq_true_2 (Right = Right) eq_refl);
    destruct (isSome (loaded_model p (device_model_name p k))); reflexivity.
Qed.

Lemma one_hand (p : Platform) (k : nat) (g : bool) :
  (controller_for p Left k && g) && (controller_for p Right k && g) = false.
Proof.
  unfold controller_for.
  destruct (handIndex (GetControllerRoleForTrackedDeviceIndex p k));
    rewrite ?(bool_decide_eq_false_2 _ Left_ne_Right),
      ?(bool_decide_eq_false_2 _ Right_ne_Left);
    destruct (bool_decide (GetTrackedDeviceClass p k = TrackedDeviceClass_Controller)), g;
    reflexivity.
Qed.

Lemma deleted_slot_model (p : Platform) (hand : Eye) :
  length (deleted_models (delete_CRenderModel (slot_model p hand)))
  = if last_has (controller_for p hand)
                (fun k => isSome (loaded_model p (device_model_name p k)))
                (seq 0 k_unMaxTrackedDeviceCount)
    then 1%nat else 0%nat.
Proof.
  unfold slot_model, last_has.
  destruct (last_such (controller_for p hand) (seq 0 k_unMaxTrackedDeviceCount)) as [j|];
    [|reflexivity].
  destruct (loaded_model p (device_model_name p j)); reflexivity.
Qed.

Lemma slot_initialized_model (p : Platform) (hand : Eye) :
  m_pRenderModel (slot_initialized p hand SControllerInfos_default) = slot_model p hand.
Proof.
  unfold slot_initialized, slot_model.
  destruct (last_such (controller_for p hand) (seq 0 k_unMaxTrackedDeviceCount));
    reflexivity.
Qed.

Section ModelBalance.
Context {qt : QtMath} {scene : Scene}.

Lemma deleted_models_Destroy (w : Widget) :
  deleted_models (Destroy w)
  = deleted_models (delete_CRenderModel (m_pRenderModel (m_controllers w Left)))
    ++ deleted_models (delete_CRenderModel (m_pRenderModel (m_controllers w Right))).
Proof.
  unfold Destroy, both_eyes. cbn [flat_map].
  rewrite !deleted_models_app, !deleted_models_eye, !app_nil_r. reflexivity.
Qed.

(** X12.  [InitializeControllers] stores each loaded render model in the
    slot of its hand without deleting what the slot held, and the
    destructor deletes what the two slots hold at the end.  So over the
    life of a widget a render model is made for every controller device
    whose model loads, at most one per hand is ever deleted, and when two
    controllers are filed under the same hand and the model of the
    earlier one loads, at least one render model is never deleted. *)
Theorem destructor_deletes_slot_models (p : Platform) (l : list Action)
    (w1 w2 : Widget) (log1 log2 : list Event) :
  initializeGL p COpenVROpenGLWidget = Done tt w1 log1 ->
  session p l w1 = Done tt w2 log2 ->
  length (List.filter is_new_program (log1 ++ log2))
  = (if vr_available p && eyes_valid p 0
     then length (List.filter (loads_model p) (seq 0 k_unMaxTrackedDeviceCount))
     else 0%nat)
  /\ deleted_models (snd (ShutDownVR w2))
     = (if vr_available p && eyes_valid p 0
        then deleted_models (delete_CRenderModel (slot_model p Left))
             ++ deleted_models (delete_CRenderModel (slot_model p Right))
        else [])
  /\ (length (deleted_models (snd (ShutDownVR w2)))
      <= length (List.filter is_new_program (log1 ++ log2)))%nat
  /\ (vr_available p && eyes_valid p 0 = true ->
      forall (i j : nat) (hand : Eye),
        (i < j < k_unMaxTrackedDeviceCount)%nat ->
        controller_for p hand i = true ->
        controller_for p hand j = true ->
        loads_model p i = true ->
        (length (deleted_models (snd (ShutDownVR w2)))
         < length (List.filter is_new_program (log1 ++ log2)))%nat).
Proof.
  intros Hinit Hsession.
  destruct (session_done p l w1 w2 log2 Hsession) as [Hobj Hplain].
  destruct (plain_log log2 Hplain) as (_ & _ & Hnew2).
  destruct (ShutDownVR_releases w2) as (_ & -> & _).
  rewrite (Destroy_same_objects w1 w2 Hobj), deleted_models_Destroy.
  rewrite filter_app, Hnew2, app_nil_r.
  destruct (initializeGL_new_widget p w1 log1 Hinit)
    as [(-> & _ & _ & Hctl & _ & _ & ->)|(-> & _ & _ & _ & Hctl & ->)].
  { cbn [andb]. rewrite Hctl. repeat split; [reflexivity | discriminate]. }
  cbn [andb]. rewrite new_programs_initializeGL, !Hctl.
  destruct (eyes_valid p 0); [|repeat split; [reflexivity | discriminate]].
  rewrite !slot_initialized_model.
  set (g := fun k => isSome (loaded_model p (device_model_name p k))).
  assert (Hmade : length (List.filter (loads_model p) (seq 0 k_unMaxTrackedDeviceCount))
                  = (length (List.filter (fun k => controller_for p Left k && g k)
                                         (seq 0 k_unMaxTrackedDeviceCount))
                     + length (List.filter (fun k => controller_for p Right k && g k)
                                           (seq 0 k_unMaxTrackedDeviceCount)))%nat).
  { apply count_either; intros k; [apply loads_model_by_hand | apply one_hand]. }
  rewrite length_app, !deleted_slot_model. fold g. rewrite Hmade.
  pose proof (count_last (controller_for p Left) g (seq 0 k_unMaxTrackedDeviceCount)) as HleL.
  pose proof (count_last (controller_for p Right) g (seq 0 k_unMaxTrackedDeviceCount)) as HleR.
  split; [reflexivity|]. split; [reflexivity|]. split; [lia|].
  intros _ i j hand Hij Hi Hj Hloads.
  assert (Hgi : g i = true).
  { unfold loads_model in Hloads. apply andb_true_iff in Hloads. apply Hloads. }
  assert (Hlater : existsb (controller_for p hand)
                           (seq (S i) (k_unMaxTrackedDeviceCount - S i)) = true).
  { apply existsb_exists. exists j. split; [apply in_seq; lia | exact Hj]. }
  pose proof (count_last_strict (controller_for p hand) g (seq 0 i)
                (seq (S i) (k_unMaxTrackedDeviceCount - S i)) i
                ltac:(rewrite Hi, Hgi; reflexivity) Hlater) as Hstrict.
  rewrite <- (seq_cut i k_unMaxTrackedDeviceCount) in Hstrict by lia.
  destruct hand; lia.
Qed.

End ModelBalance.

Section Poses.
Context {qt : QtMath} {scene : Scene}.

(** X13.  What [GetControllerPose] returns after a [paintGL] that ended
    well: with the VR system active, the converted pose of the last
    device that is a controller of that hand with a valid pose in this
    frame, and what it returned before the frame when there is no such
    device; without a VR system, what it returned before. *)
Theorem paintGL_controller_poses (p : Platform) (w w' : Widget) (log : list Event)
    (hand : Eye) :
  paintGL p w = Done tt w' log ->
  GetControllerPose hand w'
  = if vr_active w
    then match last_such (tracked_controller_for p (WaitGetPoses p) hand)
                         (seq 0 k_unMaxTrackedDeviceCount) with
         | Some j => vrMatrixToQt34 (mDeviceToAbsoluteTracking (WaitGetPoses p j))
         | None => GetControllerPose hand w
         end
    else GetControllerPose hand w.
Proof.
  intros Hrun. pose proof (paintGL_done_ready p w w' log Hrun) as Hready.
  unfold GetControllerPose.
  destruct (vr_active w) eqn:Hvr.
  - destruct (paintGL_ready_frame p w Hready)
      as (eL0 & eR0 & fbL & rbL & fbR & rbR & w1 & HL & HR & _ & _ & _ & _ & Hupdate & _ & _
          & Hframe).
    apply frame_ready_inv in Hready. destruct Hready as (_ & Hcomp & _).
    rewrite (UpdatePositions_run p w eL0 eR0 Hvr Hcomp HL HR) in Hupdate.
    destruct (Done_inj _ _ _ _ _ _ Hupdate) as (_ & Hw1 & _).
    destruct (positions_updated_slot p w eL0 eR0 hand) as (_ & _ & Hpose).
    rewrite Hw1 in Hpose. rewrite <- Hpose.
    rewrite Hframe in Hrun. destruct (Done_inj _ _ _ _ _ _ Hrun) as (_ & <- & _).
    reflexivity.
  - unfold mirror_ready in Hready. apply andb_true_iff in Hready.
    destruct Hready as [HR Hctl]. apply isSome_true in HR. destruct HR as [eR HR].
    rewrite (paintGL_inactive p w eR Hvr HR Hctl) in Hrun.
    destruct (Done_inj _ _ _ _ _ _ Hrun) as (_ & <- & _). reflexivity.
Qed.

End Poses.

(** ** [CRenderModel] in detail *)

Lemma poll_from {A : Type} (call : Detail.Call)
    (answer : nat -> EVRRenderModelError * A) (k : nat) :
  forall (fuel n : nat),
    (k < fuel)%nat ->
    fst (answer (n + k)%nat) <> VRRenderModelError_Loading ->
    (forall i : nat, (i < k)%nat -> fst (answer (n + i)%nat) = VRRenderModelError_Loading) ->
    Detail.poll fuel call answer n
    = Some (fst (answer (n + k)%nat), snd (answer (n + k)%nat), waits k call ++ [call]).
Proof.
  induction k as [|k IH]; intros fuel n Hfuel Hend Hloading.
  - destruct fuel as [|fuel]; [lia|]. cbn [Detail.poll waits app].
    rewrite Nat.add_0_r in Hend |- *.
    destruct (answer n) as [error a]. cbn [fst snd] in *.
    destruct (decide (error <> VRRenderModelError_Loading)); [reflexivity | contradiction].
  - destruct fuel as [|fuel]; [lia|]. cbn [Detail.poll waits app].
    pose proof (Hloading 0%nat ltac:(lia)) as H0. rewrite Nat.add_0_r in H0.
    destruct (answer n) as [error a] eqn:Hn. cbn [fst] in H0. subst error.
    destruct (decide (VRRenderModelError_Loading <> VRRenderModelError_Loading));
      [contradiction|].
    rewrite (IH fuel (S n)).
    + replace (S n + k)%nat with (n + S k)%nat by lia. reflexivity.
    + lia.
    + replace (S n + k)%nat with (n + S k)%nat by lia. exact Hend.
    + intros i Hi. replace (S n + i)%nat with (n + S i)%nat by lia. apply Hloading. lia.
Qed.

Lemma poll_settles {A : Type} (call : Detail.Call)
    (answer : nat -> EVRRenderModelError * A) (k fuel : nat) :
  settles answer k ->
  (k < fuel)%nat ->
  Detail.poll fuel call answer 0
  = Some (fst (answer k), snd (answer k), polled k call).
Proof.
  intros [Hend Hloading] Hfuel.
  exact (poll_from call answer k fuel 0%nat Hfuel Hend Hloading).
Qed.

Lemma poll_never {A : Type} (call : Detail.Call)
    (answer : nat -> EVRRenderModelError * A) :
  (forall i : nat, fst (answer i) = VRRenderModelError_Loading) ->
  forall fuel n : nat, Detail.poll fuel call answer n = None.
Proof.
  intros Hloading. induction fuel as [|fuel IH]; intros n; [reflexivity|].
  cbn [Detail.poll]. specialize (Hloading n).
  destruct (answer n) as [error a]. cbn [fst] in Hloading. subst error.
  destruct (decide (VRRenderModelError_Loading <> VRRenderModelError_Loading));
    [contradiction|].
  rewrite IH. reflexivity.
Qed.

Lemma sleeps_waits (k : nat) (call : Detail.Call) :
  is_sleep call = false ->
  List.filter is_sleep (waits k call) = repeat (Detail.sleep_for_ms 10) k.
Proof.
  intros Hcall. induction k as [|k IH]; [reflexivity|].
  cbn [waits List.filter repeat]. rewrite Hcall. cbn [is_sleep]. rewrite IH. reflexivity.
Qed.

Lemma InitModel_true (s : Detail.Services) (vrModel : RenderModel_t)
    (texture : Detail.RenderModel_TextureMap_t) (this : Detail.CRenderModel) :
  fst (fst (Detail.InitModel s vrModel texture this)) = true.
Proof. reflexivity. Qed.

Lemma sleeps_CRenderModel_new (s : Detail.Services) (name : string) :
  List.filter is_sleep (snd (Detail.CRenderModel_new s name)) = []
  /\ Detail.m_sModelName (fst (Detail.CRenderModel_new s name)) = name
  /\ Detail.m_program (fst (Detail.CRenderModel_new s name))
     = (Detail.programId s,
        Detail.compiles s Detail.Vertex && Detail.compiles s Detail.Fragment
        && Detail.links s).
Proof.
  unfold Detail.CRenderModel_new.
  destruct (Detail.compiles s Detail.Vertex); cbn [andb negb]; [|repeat split].
  destruct (Detail.compiles s Detail.Fragment); cbn [andb negb]; [|repeat split].
  destruct (Detail.links s); repeat split.
Qed.

Section LoadModelRuns.

Variable s : Detail.Services.
Variable name : string.
Variable o_errorMessage : option string.
Variables (fuel km : nat).
Hypothesis model_settles : settles (Detail.render_model_answer s name) km.
Hypothesis model_fuel : (km < fuel)%nat.

Let error : EVRRenderModelError := fst (Detail.render_model_answer s name km).
Let pModel : RenderModel_t := snd (Detail.render_model_answer s name km).
Let log1 : list Detail.Call := polled km (Detail.LoadRenderModel_Async name).

Lemma LoadModel_model_error :
  error <> VRRenderModelError_None ->
  Detail.LoadModel s fuel name o_errorMessage
  = Some (None,
          Detail.write_message o_errorMessage (model_error_message s name error),
          log1 ++ [Detail.qDebug (model_error_message s name error)]).
Proof.
  intros Herr. unfold Detail.LoadModel.
  rewrite (poll_settles _ _ km fuel model_settles model_fuel). fold error pModel.
  destruct (decide (error <> VRRenderModelError_None)); [reflexivity | contradiction].
Qed.

Variable kt : nat.
Hypothesis texture_settles :
  settles (Detail.texture_answer s (diffuseTextureId pModel)) kt.
Hypothesis texture_fuel : (kt < fuel)%nat.

Let error2 : EVRRenderModelError :=
  fst (Detail.texture_answer s (diffuseTextureId pModel) kt).
Let pTexture : Detail.RenderModel_TextureMap_t :=
  snd (Detail.texture_answer s (diffuseTextureId pModel) kt).
Let log2 : list Detail.Call := polled kt (Detail.LoadTexture_Async (diffuseTextureId pModel)).

Lemma LoadModel_texture_error :
  error = VRRenderModelError_None ->
  error2 <> VRRenderModelError_None ->
  Detail.LoadModel s fuel name o_errorMessage
  = Some (None,
          Detail.write_message o_errorMessage
            (texture_error_message s name (diffuseTextureId pModel)),
          log1 ++ log2
          ++ [Detail.qDebug (texture_error_message s name (diffuseTextureId pModel));
              Detail.FreeRenderModel]).
Proof.
  intros Hok Herr. unfold Detail.LoadModel.
  rewrite (poll_settles _ _ km fuel model_settles model_fuel). fold error pModel.
  destruct (decide (error <> VRRenderModelError_None)); [contradiction|].
  rewrite (poll_settles _ _ kt fuel texture_settles texture_fuel). fold error2 pTexture.
  destruct (decide (error2 <> VRRenderModelError_None)); [reflexivity | contradiction].
Qed.

Lemma LoadModel_loaded :
  error = VRRenderModelError_None ->
  error2 = VRRenderModelError_None ->
  Detail.LoadModel s fuel name o_errorMessage
  = Some (Some (built_model s name pModel),
          Detail.write_message o_errorMessage "Success",
          log1 ++ log2 ++ building_calls s name pModel pTexture
          ++ [Detail.FreeRenderModel; Detail.FreeTexture]).
Proof.
  intros Hok Hok2. unfold Detail.LoadModel.
  rewrite (poll_settles _ _ km fuel model_settles model_fuel). fold error pModel.
  destruct (decide (error <> VRRenderModelError_None)); [contradiction|].
  rewrite (poll_settles _ _ kt fuel texture_settles texture_fuel). fold error2 pTexture.
  destruct (decide (error2 <> VRRenderModelError_None)); [contradiction|].
  unfold building_calls, built_model.
  destruct (sleeps_CRenderModel_new s name) as (_ & Hname & Hprogram).
  destruct (Detail.CRenderModel_new s name) as [this log3]. cbn [fst snd] in *.
  unfold Detail.InitModel. cbn [negb fst snd]. rewrite Hname, Hprogram.
  rewrite <- (app_assoc log3).
  destruct o_errorMessage; reflexivity.
Qed.

End LoadModelRuns.

Lemma poll_inv {A : Type} (call : Detail.Call)
    (answer : nat -> EVRRenderModelError * A) (fuel : nat) :
  forall (n : nat) (error : EVRRenderModelError) (a : A) (log : list Detail.Call),
    Detail.poll fuel call answer n = Some (error, a, log) ->
    exists k : nat,
      (k < fuel)%nat
      /\ fst (answer (n + k)%nat) <> VRRenderModelError_Loading
      /\ (forall i : nat, (i < k)%nat ->
            fst (answer (n + i)%nat) = VRRenderModelError_Loading)
      /\ error = fst (answer (n + k)%nat) /\ a = snd (answer (n + k)%nat)
      /\ log = polled k call.
Proof.
  induction fuel as [|fuel IH]; intros n error a log; [discriminate|].
  cbn [Detail.poll]. destruct (answer n) as [error0 a0] eqn:Hn.
  destruct (decide (error0 <> VRRenderModelError_Loading)) as [Hne|Hloading].
  - intros H. injection H as <- <- <-. exists 0%nat. rewrite Nat.add_0_r, Hn.
    repeat split; [lia | exact Hne | intros i Hi; lia].
  - assert (Heq : error0 = VRRenderModelError_Loading)
      by (destruct (decide (error0 = VRRenderModelError_Loading)); tauto).
    destruct (Detail.poll fuel call answer (S n)) as [[[error' a'] log']|] eqn:Hrest;
      [|discriminate].
    intros H. injection H as <- <- <-.
    destruct (IH _ _ _ _ Hrest) as (k & Hk & Hend & Hbefore & -> & -> & ->).
    exists (S k). replace (n + S k)%nat with (S n + k)%nat by lia.
    repeat split; [lia | exact Hend|].
    intros [|i] Hi.
    + rewrite Nat.add_0_r, Hn. exact Heq.
    + replace (n + S i)%nat with (S n + i)%nat by lia. apply Hbefore. lia.
Qed.

Lemma poll_settled {A : Type} (call : Detail.Call)
    (answer : nat -> EVRRenderModelError * A) (fuel : nat) (error : EVRRenderModelError)
    (a : A) (log : list Detail.Call) :
  Detail.poll fuel call answer 0 = Some (error, a, log) ->
  exists k : nat,
    (k < fuel)%nat /\ settles answer k
    /\ error = fst (answer k) /\ a = snd (answer k) /\ log = polled k call.
Proof.
  intros H. destruct (poll_inv call answer fuel 0%nat error a log H)
    as (k & Hk & Hend & Hbefore & He & Ha & Hlog).
  exists k. cbn [Nat.add] in *. repeat split; assumption.
Qed.

Lemma settles_unique {A : Type} (answer : nat -> EVRRenderModelError * A) (k k' : nat) :
  settles answer k -> settles answer k' -> k = k'.
Proof.
  intros [Hk Hbefore] [Hk' Hbefore'].
  destruct (Nat.lt_trichotomy k k') as [Hlt|[Heq|Hgt]]; [|exact Heq|].
  - destruct (Hk (Hbefore' k Hlt)).
  - destruct (Hk' (Hbefore k' Hgt)).
Qed.

Lemma sleeps_polled (k : nat) (call : Detail.Call) :
  is_sleep call = false ->
  List.filter is_sleep (polled k call) = repeat (Detail.sleep_for_ms 10) k.
Proof.
  intros Hcall. unfold polled. rewrite filter_app, (sleeps_waits k call Hcall).
  cbn [List.filter]. rewrite Hcall. apply app_nil_r.
Qed.

Lemma sleeps_building_calls (s : Detail.Services) (name : string) (pModel : RenderModel_t)
    (pTexture : Detail.RenderModel_TextureMap_t) :
  List.filter is_sleep (building_calls s name pModel pTexture) = [].
Proof.
  unfold building_calls. rewrite filter_app.
  destruct (sleeps_CRenderModel_new s name) as (-> & _). reflexivity.
Qed.

(** What a [LoadModel] that returned went through. *)
Lemma LoadModel_returned (s : Detail.Services) (fuel : nat) (name : string)
    (o_errorMessage : option string) (result : option Detail.CRenderModel)
    (message : option string) (log : list Detail.Call) :
  Detail.LoadModel s fuel name o_errorMessage = Some (result, message, log) ->
  exists km : nat,
    (km < fuel)%nat /\ settles (Detail.render_model_answer s name) km
    /\ (fst (Detail.render_model_answer s name km) = VRRenderModelError_None ->
        exists kt : nat,
          (kt < fuel)%nat
          /\ settles (Detail.texture_answer s
                        (diffuseTextureId (snd (Detail.render_model_answer s name km)))) kt).
Proof.
  unfold Detail.LoadModel.
  destruct (Detail.poll fuel (Detail.LoadRenderModel_Async name)
              (Detail.render_model_answer s name) 0)
    as [[[error pModel] log1]|] eqn:Hpoll; [|discriminate].
  destruct (poll_settled _ _ _ _ _ _ Hpoll) as (km & Hkm & Hsettles & -> & -> & ->).
  intros H. exists km. split; [exact Hkm|]. split; [exact Hsettles|].
  intros Hok.
  destruct (decide (fst (Detail.render_model_answer s name km) <> VRRenderModelError_None));
    [contradiction|].
  destruct (Detail.poll fuel _ (Detail.texture_answer s _) 0)
    as [[[error2 pTexture] log2]|] eqn:Hpoll2; [|discriminate].
  destruct (poll_settled _ _ _ _ _ _ Hpoll2) as (kt & Hkt & Hsettles2 & _).
  exists kt. split; assumption.
Qed.

(** X14.  How [LoadModel] ends once the SDK has stopped answering
    [Loading] (at call [km] for the render model, at call [kt] for its
    texture).  An error for the render model: a null pointer, one
    message, nothing to free.  An error for the texture: a null pointer,
    one message, and the render model is freed but no texture.  No error:
    the render model object, built by the constructor and [InitModel],
    and then the SDK's render model and texture are freed, once each.
    What [o_errorMessage] points to receives the message, or "Success",
    and a null [o_errorMessage] is left alone. *)
Theorem LoadModel_error_handling (s : Detail.Services) (name : string)
    (o_errorMessage : option string) (fuel km : nat) :
  settles (Detail.render_model_answer s name) km ->
  (km < fuel)%nat ->
  (fst (Detail.render_model_answer s name km) <> VRRenderModelError_None ->
   Detail.LoadModel s fuel name o_errorMessage
   = Some (None,
           Detail.write_message o_errorMessage
             (model_error_message s name (fst (Detail.render_model_answer s name km))),
           polled km (Detail.LoadRenderModel_Async name)
           ++ [Detail.qDebug
                 (model_error_message s name (fst (Detail.render_model_answer s name km)))]))
  /\ (fst (Detail.render_model_answer s name km) = VRRenderModelError_None ->
      forall (pModel : RenderModel_t) (kt : nat),
        pModel = snd (Detail.render_model_answer s name km) ->
        settles (Detail.texture_answer s (diffuseTextureId pModel)) kt ->
        (kt < fuel)%nat ->
        (fst (Detail.texture_answer s (diffuseTextureId pModel) kt) <> VRRenderModelError_None ->
         Detail.LoadModel s fuel name o_errorMessage
         = Some (None,
                 Detail.write_message o_errorMessage
                   (texture_error_message s name (diffuseTextureId pModel)),
                 polled km (Detail.LoadRenderModel_Async name)
                 ++ polled kt (Detail.LoadTexture_Async (diffuseTextureId pModel))
                 ++ [Detail.qDebug (texture_error_message s name (diffuseTextureId pModel));
                     Detail.FreeRenderModel]))
        /\ (fst (Detail.texture_answer s (diffuseTextureId pModel) kt) = VRRenderModelError_None ->
            Detail.LoadModel s fuel name o_errorMessage
            = Some (Some (built_model s name pModel),
                    Detail.write_message o_errorMessage "Success",
                    polled km (Detail.LoadRenderModel_Async name)
                    ++ polled kt (Detail.LoadTexture_Async (diffuseTextureId pModel))
                    ++ building_calls s name pModel
                         (snd (Detail.texture_answer s (diffuseTextureId pModel) kt))
                    ++ [Detail.FreeRenderModel; Detail.FreeTexture])))
  /\ (forall msg : string,
        Detail.write_message None msg = None
        /\ forall old : string, Detail.write_message (Some old) msg = Some msg).
Proof.
  intros Hsettles Hfuel. split; [|split].
  - apply LoadModel_model_error; assumption.
  - intros Hok pModel kt -> Hsettles2 Hfuel2. split.
    + apply LoadModel_texture_error; assumption.
    + apply LoadModel_loaded; assumption.
  - intros msg. split; reflexivity.
Qed.

(** X15.  The two polling loops of [LoadModel]: it returns exactly when
    the SDK stops answering [Loading] to both (for the texture only if
    the render model loaded), it has then slept 10 ms once for every
    [Loading] answer it got, and more calls allowed change nothing.  If
    the SDK answers [Loading] for ever, [LoadModel] never returns. *)
Theorem LoadModel_polling (s : Detail.Services) (name : string)
    (o_errorMessage : option string) :
  ((forall i : nat, fst (Detail.render_model_answer s name i) = VRRenderModelError_Loading) ->
   forall fuel : nat, Detail.LoadModel s fuel name o_errorMessage = None)
  /\ (forall km : nat,
        settles (Detail.render_model_answer s name) km ->
        fst (Detail.render_model_answer s name km) = VRRenderModelError_None ->
        (forall i : nat,
           fst (Detail.texture_answer s
                  (diffuseTextureId (snd (Detail.render_model_answer s name km))) i)
           = VRRenderModelError_Loading) ->
        forall fuel : nat, Detail.LoadModel s fuel name o_errorMessage = None)
  /\ (forall (fuel : nat) (result : option Detail.CRenderModel) (message : option string)
             (log : list Detail.Call),
        Detail.LoadModel s fuel name o_errorMessage = Some (result, message, log) ->
        exists km : nat,
          settles (Detail.render_model_answer s name) km
          /\ (fst (Detail.render_model_answer s name km) <> VRRenderModelError_None ->
              List.filter is_sleep log = repeat (Detail.sleep_for_ms 10) km)
          /\ (fst (Detail.render_model_answer s name km) = VRRenderModelError_None ->
              exists kt : nat,
                settles (Detail.texture_answer s
                           (diffuseTextureId (snd (Detail.render_model_answer s name km))))
                        kt
                /\ List.filter is_sleep log = repeat (Detail.sleep_for_ms 10) (km + kt))
          /\ (forall fuel' : nat,
                (fuel <= fuel')%nat ->
                Detail.LoadModel s fuel' name o_errorMessage = Some (result, message, log))).
Proof.
  split; [|split].
  - intros Hloading fuel. unfold Detail.LoadModel.
    rewrite (poll_never _ _ Hloading). reflexivity.
  - intros km Hsettles Hok Hloading fuel. unfold Detail.LoadModel.
    destruct (Detail.poll fuel (Detail.LoadRenderModel_Async name)
                (Detail.render_model_answer s name) 0)
      as [[[error pModel] log1]|] eqn:Hpoll; [|reflexivity].
    destruct (poll_settled _ _ _ _ _ _ Hpoll) as (km' & _ & Hsettles' & -> & -> & _).
    rewrite <- (settles_unique _ _ _ Hsettles Hsettles').
    destruct (decide (fst (Detail.render_model_answer s name km) <> VRRenderModelError_None));
      [contradiction|].
    rewrite (poll_never _ _ Hloading). reflexivity.
  - intros fuel result message log Hrun.
    destruct (LoadModel_returned s fuel name o_errorMessage result message log Hrun)
      as (km & Hkm & Hsettles & Htexture).
    exists km. split; [exact Hsettles|].
    destruct (decide (fst (Detail.render_model_answer s name km) = VRRenderModelError_None))
      as [Hok|Herr].
    + destruct (Htexture Hok) as (kt & Hkt & Hsettles2).
      split; [intros Hne; contradiction|].
      assert (Hshape : forall fuel', (fuel <= fuel')%nat ->
                exists result' message' log',
                  Detail.LoadModel s fuel' name o_errorMessage
                  = Some (result', message', log')
                  /\ Detail.LoadModel s fuel name o_errorMessage
                     = Some (result', message', log')
                  /\ List.filter is_sleep log'
                     = repeat (Detail.sleep_for_ms 10) (km + kt)).
      { intros fuel' Hle.
        destruct (decide (fst (Detail.texture_answer s
                                 (diffuseTextureId
                                    (snd (Detail.render_model_answer s name km))) kt)
                          = VRRenderModelError_None)) as [Hok2|Herr2].
        - eexists _, _, _.
          split; [apply (LoadModel_loaded s name o_errorMessage fuel' km Hsettles
                           ltac:(lia) kt Hsettles2 ltac:(lia) Hok Hok2)|].
          split; [apply (LoadModel_loaded s name o_errorMessage fuel km Hsettles
                           Hkm kt Hsettles2 Hkt Hok Hok2)|].
          rewrite !filter_app, !sleeps_polled, sleeps_building_calls by reflexivity.
          cbn [List.filter is_sleep]. rewrite !app_nil_r. symmetry. apply repeat_app.
        - eexists _, _, _.
          split; [apply (LoadModel_texture_error s name o_errorMessage fuel' km Hsettles
                           ltac:(lia) kt Hsettles2 ltac:(lia) Hok Herr2)|].
          split; [apply (LoadModel_texture_error s name o_errorMessage fuel km Hsettles
                           Hkm kt Hsettles2 Hkt Hok Herr2)|].
          rewrite !filter_app, !sleeps_polled by reflexivity.
          cbn [List.filter is_sleep]. rewrite !app_nil_r. symmetry. apply repeat_app. }
      split.
      * intros _. exists kt. split; [exact Hsettles2|].
        destruct (Hshape fuel (Nat.le_refl _)) as (r & m & l & _ & Hsame & Hsleeps).
        rewrite Hrun in Hsame. injection Hsame as <- <- <-. exact Hsleeps.
      * intros fuel' Hle.
        destruct (Hshape fuel' Hle) as (r & m & l & Hmore & Hsame & _).
        rewrite Hrun in Hsame. injection Hsame as <- <- <-. exact Hmore.
    + pose proof (LoadModel_model_error s name o_errorMessage fuel km Hsettles Hkm Herr)
        as Hsame.
      rewrite Hrun in Hsame. injection Hsame as -> -> ->.
      split; [|split; [intros Hok; contradiction|]].
      * intros _. rewrite filter_app, sleeps_polled by reflexivity.
        cbn [List.filter is_sleep]. apply app_nil_r.
      * intros fuel' Hle.
        apply (LoadModel_model_error s name o_errorMessage fuel' km Hsettles
                 ltac:(lia) Herr).
Qed.


Lemma resources_app (l1 l2 : list Event) : resources (l1 ++ l2) = resources l1 ++ resources l2.
Proof. unfold resources. rewrite map_app. apply filter_app. Qed.

Lemma seen_app (l1 l2 : list Detail.Call) :
  flat_map seen (l1 ++ l2) = flat_map seen l1 ++ flat_map seen l2.
Proof. apply flat_map_app. Qed.

Lemma seen_polled (k : nat) (call : Detail.Call) :
  seen call = [] -> flat_map seen (polled k call) = [].
Proof.
  intros Hcall. unfold polled. rewrite seen_app. cbn [flat_map]. rewrite Hcall.
  induction k as [|k IH]; [reflexivity|]. cbn [waits flat_map]. rewrite Hcall. exact IH.
Qed.

Lemma seen_building_calls (s : Detail.Services) (name : string) (pModel : RenderModel_t)
    (pTexture : Detail.RenderModel_TextureMap_t) :
  resources (flat_map seen (building_calls s name pModel pTexture))
  = [E_newShaderProgram EmptyString].
Proof.
  unfold building_calls, Detail.CRenderModel_new.
  destruct (Detail.compiles s Detail.Vertex); cbn [andb negb]; [|reflexivity].
  destruct (Detail.compiles s Detail.Fragment); cbn [andb negb]; [|reflexivity].
  destruct (Detail.links s); reflexivity.
Qed.

(** X16.  [LoadModel] as the widget's model of it has it is [LoadModel]
    in detail with the polling, the shaders and the OpenGL calls left
    out: when the detailed one returns, and the platform's answers are
    the ones the SDK settled on, the widget's [LoadModel] returns the
    same render model (its name and its number of indices), or null
    alike, and creates and frees the same things in the same order. *)
Theorem LoadModel_as_the_widget_sees_it (s : Detail.Services) (p : Platform)
    (name : string) (o_errorMessage : option string) (fuel : nat)
    (result : option Detail.CRenderModel) (message : option string)
    (log : list Detail.Call) (w : Widget) :
  Detail.LoadModel s fuel name o_errorMessage = Some (result, message, log) ->
  (forall km : nat,
     settles (Detail.render_model_answer s name) km ->
     LoadRenderModel_Async p name = Detail.render_model_answer s name km) ->
  (forall km kt : nat,
     settles (Detail.render_model_answer s name) km ->
     settles (Detail.texture_answer s
                (diffuseTextureId (snd (Detail.render_model_answer s name km)))) kt ->
     LoadTexture_Async p (diffuseTextureId (snd (Detail.render_model_answer s name km)))
     = fst (Detail.texture_answer s
              (diffuseTextureId (snd (Detail.render_model_answer s name km))) kt)) ->
  exists log' : list Event,
    LoadModel p name w
    = Done (match result with Some model => seen_model model | None => None end) w log'
    /\ resources log' = resources (flat_map seen log).
Proof.
  intros Hrun Hmodel Htexture.
  destruct (LoadModel_returned s fuel name o_errorMessage result message log Hrun)
    as (km & Hkm & Hsettles & Hnext).
  specialize (Hmodel km Hsettles).
  exists (loading_log p name). rewrite LoadModel_run. unfold loaded_model, loading_log.
  rewrite Hmodel.
  destruct (Detail.render_model_answer s name km) as [error pModel] eqn:Hanswer.
  cbn [fst snd] in *.
  destruct (decide (error <> VRRenderModelError_None)) as [Herr|Hok].
  - pose proof (LoadModel_model_error s name o_errorMessage fuel km Hsettles Hkm) as Hsame.
    rewrite Hanswer in Hsame. specialize (Hsame Herr).
    rewrite Hrun in Hsame. injection Hsame as -> -> ->.
    split; [reflexivity|].
    rewrite seen_app, seen_polled by reflexivity. reflexivity.
  - assert (Hnone : error = VRRenderModelError_None)
      by (destruct (decide (error = VRRenderModelError_None)); tauto).
    destruct (Hnext Hnone) as (kt & Hkt & Hsettles2).
    specialize (Htexture km kt Hsettles). rewrite Hanswer in Htexture.
    specialize (Htexture Hsettles2). cbn [snd] in Htexture. rewrite Htexture.
    destruct (decide (fst (Detail.texture_answer s (diffuseTextureId pModel) kt)
                      <> VRRenderModelError_None)) as [Herr2|Hok2].
    + pose proof (LoadModel_texture_error s name o_errorMessage fuel km Hsettles Hkm kt)
        as Hsame.
      rewrite Hanswer in Hsame. specialize (Hsame Hsettles2 Hkt Hnone Herr2).
      rewrite Hrun in Hsame. injection Hsame as -> -> ->.
      split; [reflexivity|].
      rewrite !seen_app, !seen_polled by reflexivity. reflexivity.
    + assert (Hnone2 : fst (Detail.texture_answer s (diffuseTextureId pModel) kt)
                       = VRRenderModelError_None)
        by (destruct (decide (fst (Detail.texture_answer s (diffuseTextureId pModel) kt)
                              = VRRenderModelError_None)); tauto).
      pose proof (LoadModel_loaded s name o_errorMessage fuel km Hsettles Hkm kt) as Hsame.
      rewrite Hanswer in Hsame. specialize (Hsame Hsettles2 Hkt Hnone Hnone2).
      rewrite Hrun in Hsame. injection Hsame as -> -> ->.
      split; [reflexivity|].
      rewrite !seen_app, !seen_polled by reflexivity.
      cbn [app]. rewrite !resources_app, seen_building_calls. reflexivity.
Qed.

(** X17.  The constructor of [CRenderModel] stops at the first shader
    step that fails: it adds the fragment shader only if the vertex
    shader compiled, and links only if both did.  It writes the log of the
    step that failed to [qDebug], once, and tells nobody else: the object
    is built either way, with a program that is linked only if all
    three steps succeeded.  The new object has no OpenGL names yet, so
    [Cleanup] would delete its program only, and the constructor gives
    [m_unVertexCount] no value, so [Draw] has none to read before
    [InitModel]. *)
Theorem CRenderModel_new_shaders (s : Detail.Services) (name : string)
    (i_mvpMatrix : QMatrix4x4) :
  Detail.m_program (fst (Detail.CRenderModel_new s name))
  = (Detail.programId s,
     Detail.compiles s Detail.Vertex && Detail.compiles s Detail.Fragment && Detail.links s)
  /\ List.filter is_shader_step (snd (Detail.CRenderModel_new s name))
     = Detail.addShaderFromSourceCode Detail.Vertex
       :: (if Detail.compiles s Detail.Vertex
           then Detail.addShaderFromSourceCode Detail.Fragment
                :: (if Detail.compiles s Detail.Fragment then [Detail.link] else [])
           else [])
  /\ List.filter is_message (snd (Detail.CRenderModel_new s name))
     = (if negb (Detail.compiles s Detail.Vertex)
        then [Detail.qDebug (Detail.compile_log s Detail.Vertex)]
        else if negb (Detail.compiles s Detail.Fragment)
             then [Detail.qDebug (Detail.compile_log s Detail.Fragment)]
             else if negb (Detail.links s) then [Detail.qDebug (Detail.link_log s)]
                  else [])
  /\ Detail.GetName (fst (Detail.CRenderModel_new s name)) = name
  /\ Detail.Cleanup (fst (Detail.CRenderModel_new s name))
     = (fst (Detail.CRenderModel_new s name), [Detail.delete_QOpenGLShaderProgram])
  /\ Detail.Draw (fst (Detail.CRenderModel_new s name)) i_mvpMatrix = None.
Proof.
  unfold Detail.CRenderModel_new.
  destruct (Detail.compiles s Detail.Vertex); cbn [andb negb]; [|repeat split].
  destruct (Detail.compiles s Detail.Fragment); cbn [andb negb]; [|repeat split].
  destruct (Detail.links s); repeat split.
Qed.

Lemma remove_name_fresh (n : Z) (l : list Z) : ~ In n l -> Detail.remove_name n l = l.
Proof.
  unfold Detail.remove_name. induction l as [|m l IH]; [reflexivity|].
  cbn [List.filter In]. intros Hfresh.
  destruct (Z.eqb_spec m n) as [->|Hne]; [tauto|].
  cbn [negb]. rewrite IH by tauto. reflexivity.
Qed.

Lemma remove_name_head (n : Z) (l : list Z) :
  ~ In n l -> Detail.remove_name n (n :: l) = l.
Proof.
  intros Hfresh. unfold Detail.remove_name. cbn [List.filter]. rewrite Z.eqb_refl.
  cbn [negb]. apply remove_name_fresh, Hfresh.
Qed.

Lemma remove_name_other (n m : Z) (l : list Z) :
  m <> n -> Detail.remove_name n (m :: l) = m :: Detail.remove_name n l.
Proof.
  intros Hne. unfold Detail.remove_name. cbn [List.filter].
  destruct (Z.eqb_spec m n); [contradiction | reflexivity].
Qed.

(** X18.  What [Draw] leaves in the OpenGL context, whatever it found
    there: no vertex array bound, no program in use, face culling
    disabled even if it was enabled before the call, texture unit 0
    active with the model's texture still bound on it.  The array buffer
    binding, the texture bindings of the other units and the objects
    alive are as they were.  It issues one [glDrawElements], for
    [m_unVertexCount] indices, with the model's program in use and its
    vertex array bound.  The value it gives the sampler uniform is the
    enumerator [GL_TEXTURE0], which is not the index, counted from
    [GL_TEXTURE0], of the unit the texture is bound on. *)
Theorem Draw_leaves (this : Detail.CRenderModel) (i_mvpMatrix : QMatrix4x4) (count : Z)
    (c : Detail.Context) :
  Detail.m_unVertexCount this = Some count ->
  exists calls before_draw after_draw : list Detail.Call,
    Detail.Draw this i_mvpMatrix = Some calls
    /\ calls = before_draw ++ Detail.glDrawElements count :: after_draw
    /\ List.filter is_draw before_draw = []
    /\ List.filter is_draw after_draw = []
    /\ Detail.current_program (Detail.gl_run c before_draw) = fst (Detail.m_program this)
    /\ Detail.vertex_array_binding (Detail.gl_run c before_draw) = Detail.m_glVertArray this
    /\ Detail.texture_binding_2D (Detail.gl_run c before_draw) Detail.GL_TEXTURE0
       = Detail.m_glTexture this
    /\ Detail.vertex_array_binding (Detail.gl_run c calls) = 0
    /\ Detail.current_program (Detail.gl_run c calls) = 0
    /\ Detail.cull_face (Detail.gl_run c calls) = false
    /\ Detail.active_texture (Detail.gl_run c calls) = Detail.GL_TEXTURE0
    /\ Detail.texture_binding_2D (Detail.gl_run c calls) Detail.GL_TEXTURE0
       = Detail.m_glTexture this
    /\ (forall unit : Z,
          unit <> Detail.GL_TEXTURE0 ->
          Detail.texture_binding_2D (Detail.gl_run c calls) unit
          = Detail.texture_binding_2D c unit)
    /\ Detail.array_buffer_binding (Detail.gl_run c calls) = Detail.array_buffer_binding c
    /\ Detail.vertex_arrays (Detail.gl_run c calls) = Detail.vertex_arrays c
    /\ Detail.buffers (Detail.gl_run c calls) = Detail.buffers c
    /\ Detail.textures (Detail.gl_run c calls) = Detail.textures c
    /\ In (Detail.setUniformValue_diffuse Detail.GL_TEXTURE0) calls
    /\ (forall value : Z,
          In (Detail.setUniformValue_diffuse value) calls ->
          value = Detail.GL_TEXTURE0
          /\ value <> Detail.active_texture (Detail.gl_run c calls) - Detail.GL_TEXTURE0).
Proof.
  intros Hcount. unfold Detail.Draw. rewrite Hcount.
  eexists _, [_; _; _; _; _; _; _], [_; _; _]. split; [reflexivity|].
  split; [reflexivity|].
  cbn [Detail.gl_run fold_left Detail.gl Detail.vertex_array_binding Detail.cull_face
       Detail.active_texture Detail.texture_binding_2D Detail.array_buffer_binding
       Detail.vertex_arrays Detail.buffers Detail.textures Detail.current_program
       List.filter is_draw app].
  split; [reflexivity|]. split; [reflexivity|]. split; [reflexivity|].
  split; [reflexivity|]. split; [apply fn_lookup_insert|].
  split; [reflexivity|]. split; [reflexivity|]. split; [reflexivity|].
  split; [reflexivity|]. split; [apply fn_lookup_insert|].
  split; [intros unit Hunit; apply fn_lookup_insert_ne; congruence|].
  split; [reflexivity|]. split; [reflexivity|]. split; [reflexivity|].
  split; [reflexivity|]. split; [cbn [In]; tauto|].
  intros value Hin. cbn [In] in Hin.
  assert (Hvalue : value = Detail.GL_TEXTURE0).
  { repeat (destruct Hin as [Hin|Hin]; [try discriminate Hin|]); [|contradiction].
    injection Hin as <-. reflexivity. }
  subst value. split; [reflexivity|]. rewrite Z.sub_diag. discriminate.
Qed.

(** X19.  [InitModel] always returns [true], so the third error branch
    of [LoadModel] is never taken.  It leaves no vertex array and no
    texture bound, and the vertex buffer bound.  When three times the
    triangle count fits an [int] and a [size_t] has at least 34 bits, the
    index buffer holds exactly the [m_unVertexCount] 16-bit indices that
    [Draw] then draws.  [Cleanup] after it deletes the index buffer, the
    vertex array and the vertex buffer, provided the vertex buffer's name
    is not 0, and never the texture: of the four names [InitModel]
    generated, the texture's stays alive, and the object still holds
    it. *)
Theorem InitModel_then_Cleanup (s : Detail.Services) (i_vrModel : RenderModel_t)
    (i_vrDiffuseTexture : Detail.RenderModel_TextureMap_t) (this : Detail.CRenderModel)
    (c : Detail.Context) (i_mvpMatrix : QMatrix4x4) :
  let ok := fst (fst (Detail.InitModel s i_vrModel i_vrDiffuseTexture this)) in
  let this1 := snd (fst (Detail.InitModel s i_vrModel i_vrDiffuseTexture this)) in
  let log1 := snd (Detail.InitModel s i_vrModel i_vrDiffuseTexture this) in
  ok = true
  /\ Detail.vertex_array_binding (Detail.gl_run c log1) = 0
  /\ Detail.texture_binding_2D (Detail.gl_run c log1) (Detail.active_texture c) = 0
  /\ Detail.array_buffer_binding (Detail.gl_run c log1) = Detail.m_glVertBuffer this1
  /\ (0 <= 3 * unTriangleCount i_vrModel < 2 ^ 31 ->
      34 <= Detail.size_t_bits s ->
      exists count : Z,
        Detail.m_unVertexCount this1 = Some count
        /\ index_buffer_size log1 = Some (2 * count)
        /\ option_map (List.filter is_draw) (Detail.Draw this1 i_mvpMatrix)
           = Some [Detail.glDrawElements count])
  /\ (Detail.new_vertex_buffer s <> 0 ->
      Detail.new_index_buffer s <> Detail.new_vertex_buffer s ->
      ~ In (Detail.new_vertex_array s) (Detail.vertex_arrays c) ->
      ~ In (Detail.new_vertex_buffer s) (Detail.buffers c) ->
      ~ In (Detail.new_index_buffer s) (Detail.buffers c) ->
      Detail.vertex_arrays (Detail.gl_run c (log1 ++ snd (Detail.Cleanup this1)))
      = Detail.vertex_arrays c
      /\ Detail.buffers (Detail.gl_run c (log1 ++ snd (Detail.Cleanup this1)))
         = Detail.buffers c
      /\ Detail.textures (Detail.gl_run c (log1 ++ snd (Detail.Cleanup this1)))
         = Detail.new_texture s :: Detail.textures c
      /\ Detail.m_glTexture (fst (Detail.Cleanup this1)) = Detail.new_texture s).
Proof.
  cbv zeta. unfold Detail.InitModel. cbn [fst snd].
  split; [reflexivity|]. split; [reflexivity|].
  split; [cbn; apply fn_lookup_insert|]. split; [reflexivity|].
  split.
  - intros Hcount Hbits. exists (3 * unTriangleCount i_vrModel).
    assert (Hint : int_of_uint32 (unTriangleCount i_vrModel * 3)
                   = 3 * unTriangleCount i_vrModel).
    { rewrite Z.mul_comm. apply int_of_uint32_small. exact Hcount. }
    cbn [Detail.m_unVertexCount]. rewrite Hint. split; [reflexivity|].
    split; [|reflexivity].
    cbn [index_buffer_size fold_left]. f_equal. unfold Detail.size_t_mul.
    assert (Hpow : 2 ^ 34 <= 2 ^ Detail.size_t_bits s)
      by (apply Z.pow_le_mono_r; lia).
    rewrite (Z.mod_small (2 * unTriangleCount i_vrModel)) by lia.
    rewrite Z.mod_small by lia. lia.
  - intros Hvb Hne Harray Hvertex Hindex.
    unfold Detail.Cleanup. cbn [Detail.m_glVertBuffer Detail.m_glIndexBuffer
      Detail.m_glVertArray Detail.m_glTexture].
    destruct (Z.eqb_spec (Detail.new_vertex_buffer s) 0) as [H0|_]; [contradiction|].
    cbn [fst snd Detail.m_glTexture].
    unfold Detail.gl_run. rewrite fold_left_app.
    cbn [fold_left Detail.gl Detail.vertex_arrays Detail.buffers Detail.textures].
    rewrite (remove_name_head _ _ Harray).
    rewrite (remove_name_head (Detail.new_index_buffer s))
      by (cbn [In]; intros [H|H]; [congruence | contradiction]).
    rewrite (remove_name_head _ _ Hvertex).
    repeat split; reflexivity.
Qed.

(** ** The theorems at work on the example platform *)

#[local] Existing Instance PlainQt.qt.
#[local] Existing Instance PlainQt.scene.

Lemma Rig_started_run :
  exists log,
    initializeGL (Rig.platform true) COpenVROpenGLWidget = Done tt Rig.started log.
Proof.
  unfold Rig.started.
  destruct (initializeGL (Rig.platform true) COpenVROpenGLWidget) as [[] w log|f] eqn:H.
  - exists log. reflexivity.
  - vm_compute in H. discriminate.
Qed.

Lemma Rig_started_reachable : reachable Rig.started.
Proof.
  destruct Rig_started_run as [log Hrun].
  exact (reach_initializeGL _ _ _ _ reach_new Hrun).
Qed.

Lemma Rig_started_active : vr_active Rig.started = true.
Proof. vm_compute. reflexivity. Qed.

Lemma Rig_frame_done :
  exists w' log, paintGL (Rig.platform true) Rig.started = Done tt w' log.
Proof.
  assert (Hdone : is_done (paintGL (Rig.platform true) Rig.started) = true)
    by (vm_compute; reflexivity).
  destruct (is_done_true _ Hdone) as ([] & w' & log & Hrun). eauto.
Qed.

(** The eye buffers of the example platform, from the state [InitializeVR]
    leaves. *)
Lemma InitializeEyesRendering_framebuffers_witness :
  vr_active (set_vrSystem (Some VRSystemHandle) COpenVROpenGLWidget) = true
  /\ 0 <= fst (GetRecommendedRenderTargetSize (Rig.platform true)) < 2 ^ 31
  /\ 0 <= snd (GetRecommendedRenderTargetSize (Rig.platform true)) < 2 ^ 31
  /\ exists (noErr : bool) (w' : Widget) (log : list Event),
       InitializeEyesRendering (Rig.platform true)
         (set_vrSystem (Some VRSystemHandle) COpenVROpenGLWidget) = Done noErr w' log
       /\ length (created log) = 4%nat.
Proof.
  assert (Hvr : vr_active (set_vrSystem (Some VRSystemHandle) COpenVROpenGLWidget) = true)
    by reflexivity.
  assert (Hw : 0 <= fst (GetRecommendedRenderTargetSize (Rig.platform true)) < 2 ^ 31)
    by (cbn; lia).
  assert (Hh : 0 <= snd (GetRecommendedRenderTargetSize (Rig.platform true)) < 2 ^ 31)
    by (cbn; lia).
  split; [exact Hvr|]. split; [exact Hw|]. split; [exact Hh|].
  destruct (InitializeEyesRendering_framebuffers (Rig.platform true) _ Hvr Hw Hh)
    as (noErr & w' & log & eL & eR & Hrun & _ & _ & Hcreated & _).
  exists noErr, w', log. split; [exact Hrun|].
  rewrite Hcreated. reflexivity.
Defined.

(** [InitializeVR] on the example platform, from the constructed widget. *)
Lemma InitializeVR_failure_cases_witness :
  m_vrSystem COpenVROpenGLWidget = None
  /\ (snd (VR_Init (Rig.platform true)) = VRInitError_None ->
      fst (VR_Init (Rig.platform true)) <> None)
  /\ exists (ok : bool) (w' : Widget) (log : list Event),
       InitializeVR (Rig.platform true) COpenVROpenGLWidget = Done ok w' log
       /\ (ok = false <->
           VR_IsRuntimeInstalled (Rig.platform true) = false
           \/ VR_IsHmdPresent (Rig.platform true) = false
           \/ snd (VR_Init (Rig.platform true)) <> VRInitError_None
           \/ VRCompositor (Rig.platform true) = None).
Proof.
  assert (Hnull : m_vrSystem COpenVROpenGLWidget = None) by reflexivity.
  assert (Hsdk : snd (VR_Init (Rig.platform true)) = VRInitError_None ->
                 fst (VR_Init (Rig.platform true)) <> None)
    by (intros _; discriminate).
  split; [exact Hnull|]. split; [exact Hsdk|].
  destruct (InitializeVR_failure_cases (Rig.platform true) COpenVROpenGLWidget Hnull Hsdk)
    as (ok & w' & log & Hrun & Hiff & _).
  exists ok, w', log. split; [exact Hrun | exact Hiff].
Defined.

(** Device 1 of the example platform is the left controller, and after a
    frame the left slot holds its pose. *)
Lemma controllers_follow_roles_witness :
  vr_active Rig.started = true
  /\ isSome (VRCompositor (Rig.platform true)) = true
  /\ isSome (m_eyeInfos Rig.started Left) = true
  /\ isSome (m_eyeInfos Rig.started Right) = true
  /\ exists w' : Widget,
       UpdatePositions (Rig.platform true) Rig.started = Done tt w' [E_WaitGetPoses]
       /\ m_rmat4Pose (m_controllers w' Left) = vrMatrixToQt34 (Rig.shift (-1) 1 0).
Proof.
  assert (Hcomp : isSome (VRCompositor (Rig.platform true)) = true) by reflexivity.
  assert (HL : isSome (m_eyeInfos Rig.started Left) = true) by (vm_compute; reflexivity).
  assert (HR : isSome (m_eyeInfos Rig.started Right) = true) by (vm_compute; reflexivity).
  split; [exact Rig_started_active|].
  split; [exact Hcomp|]. split; [exact HL|]. split; [exact HR|].
  destruct (controllers_follow_roles (Rig.platform true) Rig.started 1%nat Left
              Rig_started_active)
    as (_ & _ & _ & _ & _ & _ & Hupdate).
  destruct (Hupdate Hcomp HL HR) as (w' & Hrun & _ & _ & Hpose).
  exists w'. split; [exact Hrun|].
  rewrite Hpose. vm_compute. reflexivity.
Defined.

(** A frame of the example platform submits only after both eye passes. *)
Lemma paintGL_submits_after_rendering_witness :
  vr_active Rig.started = true
  /\ exists (w' : Widget) (log : list Event),
       paintGL (Rig.platform true) Rig.started = Done tt w' log
       /\ existsb is_submit log = true.
Proof.
  split; [exact Rig_started_active|].
  destruct Rig_frame_done as (w' & log & Hrun).
  destruct (paintGL_submits_after_rendering (Rig.platform true) Rig.started
              Rig_started_active) as [_ Hshape].
  destruct (Hshape w' log Hrun)
    as (eL & eR & fbL & rbL & fbR & rbR & uL & uR & uM & Hlog & _).
  exists w', log. split; [exact Hrun|].
  rewrite Hlog, existsb_app. apply orb_true_r.
Defined.

(** A frame of the example platform draws the mirror view. *)
Lemma paintGL_mirror_every_frame_witness :
  exists (w' : Widget) (log : list Event),
    paintGL (Rig.platform true) Rig.started = Done tt w' log
    /\ In (E_glDisable GL_MULTISAMPLE) log.
Proof.
  destruct Rig_frame_done as (w' & log & Hrun).
  destruct (paintGL_mirror_every_frame (Rig.platform true) Rig.started) as [_ Hshape].
  destruct (Hshape w' log Hrun) as (eR & uM & hmd & submits & Hlog & _ & Hmirror & _).
  exists w', log. split; [exact Hrun|].
  rewrite Hlog. apply in_or_app. right. apply in_or_app. left.
  rewrite Hmirror. cbn [In app]. auto.
Defined.

(** The started widget of the example platform is reachable, its frame
    ends well, and it has both eyes. *)
Lemma paintGL_needs_eye_infos_witness :
  reachable Rig.started
  /\ is_done (paintGL (Rig.platform true) Rig.started) = true
  /\ isSome (m_eyeInfos Rig.started Left) = true
  /\ isSome (m_eyeInfos Rig.started Right) = true.
Proof.
  assert (Hdone : is_done (paintGL (Rig.platform true) Rig.started) = true)
    by (vm_compute; reflexivity).
  split; [exact Rig_started_reachable|]. split; [exact Hdone|].
  destruct (paintGL_needs_eye_infos (Rig.platform true) Rig.started)
    as (_ & _ & _ & _ & _ & _ & _ & Hboth).
  exact (Hboth Rig_started_reachable Hdone).
Defined.

(** After a failed [initializeGL] the first frame crashes in the mirror view. *)
Lemma paintGL_after_failed_initializeGL :
  match initializeGL Rig.bare_platform COpenVROpenGLWidget with
  | Done _ w _ => paintGL Rig.bare_platform w = Crash (NullEyeInfos Right)
  | Crash _ => False
  end.
Proof. vm_compute. reflexivity. Qed.

(** ** More of the code on the example platforms *)




Lemma paintGL_without_headset_witness :
  vr_available Rig.bare_platform = false
  /\ exists (w' : Widget) (log : list Event),
       initializeGL Rig.bare_platform COpenVROpenGLWidget = Done tt w' log
       /\ paintGL Rig.bare_platform w' = Crash (NullEyeInfos Right).
Proof.
  assert (Havail : vr_available Rig.bare_platform = false) by reflexivity.
  split; [exact Havail|].
  destruct (paintGL_without_headset Rig.bare_platform Havail)
    as (w' & log & Hrun & _ & _ & _ & Hpaint).
  exists w', log. split; [exact Hrun | exact Hpaint].
Defined.

(** Device 1 is the last controller filed under the left hand. *)
Lemma InitializeControllers_shows_unloaded_witness :
  vr_active Rig.started = true
  /\ isSome (VRCompositor Cases.no_render_models) = true
  /\ last_such (controller_for Cases.no_render_models Left)
               (seq 0 k_unMaxTrackedDeviceCount) = Some 1%nat
  /\ loads_settle Cases.no_render_models = true
  /\ loaded_model Cases.no_render_models (device_model_name Cases.no_render_models 1) = None
  /\ exists (w' : Widget) (log : list Event),
       InitializeControllers Cases.no_render_models Rig.started = Done true w' log
       /\ is_done (paintGL Cases.no_render_models w') = false.
Proof.
  assert (Hvr : vr_active Rig.started = true) by (vm_compute; reflexivity).
  assert (Hcomp : isSome (VRCompositor Cases.no_render_models) = true) by reflexivity.
  assert (Hlast : last_such (controller_for Cases.no_render_models Left)
                            (seq 0 k_unMaxTrackedDeviceCount) = Some 1%nat)
    by (vm_compute; reflexivity).
  assert (Hload : loaded_model Cases.no_render_models
                    (device_model_name Cases.no_render_models 1) = None)
    by (vm_compute; reflexivity).
  assert (Hsettle : loads_settle Cases.no_render_models = true) by (vm_compute; reflexivity).
  split; [exact Hvr|]. split; [exact Hcomp|]. split; [exact Hlast|].
  split; [exact Hsettle|]. split; [exact Hload|].
  destruct (InitializeControllers_shows_unloaded Cases.no_render_models Rig.started Left 1
              Hvr Hcomp Hsettle Hlast Hload) as (w' & log & Hrun & _ & _ & _ & _ & Hpaint).
  exists w', log. split; [exact Hrun | apply Hpaint].
Defined.

Lemma initializeGL_invalid_eyes_witness :
  vr_available Cases.incomplete_buffers = true
  /\ isSome (fst (VR_Init Cases.incomplete_buffers)) = true
  /\ eyes_valid Cases.incomplete_buffers 0 = false
  /\ exists w' : Widget,
       final_widget (initializeGL Cases.incomplete_buffers COpenVROpenGLWidget) = Some w'
       /\ is_done (paintGL Cases.incomplete_buffers w') = true.
Proof.
  assert (Havail : vr_available Cases.incomplete_buffers = true) by reflexivity.
  assert (Hsys : isSome (fst (VR_Init Cases.incomplete_buffers)) = true) by reflexivity.
  assert (Hvalid : eyes_valid Cases.incomplete_buffers 0 = false) by reflexivity.
  split; [exact Havail|]. split; [exact Hsys|]. split; [exact Hvalid|].
  destruct (initializeGL_invalid_eyes Cases.incomplete_buffers Havail Hsys Hvalid)
    as (w' & Hrun & _ & _ & _ & _ & w'' & log' & Hpaint & _).
  exists w'. split; [rewrite Hrun; reflexivity | rewrite Hpaint; reflexivity].
Defined.

Lemma paintGL_frame_discipline_witness :
  exists (w' : Widget) (log : list Event),
    paintGL (Rig.platform true) Rig.started = Done tt w' log
    /\ hooks log = [Hook_UpdateInputs; Hook_UpdateRendering;
                    Hook_Render Left; Hook_Render Right; Hook_Render Right]
    /\ same_objects Rig.started w'.
Proof.
  destruct Rig_frame_done as (w' & log & Hrun).
  destruct (paintGL_frame_discipline (Rig.platform true) Rig.started w' log Hrun)
    as (Hhooks & _ & Hobjects).
  exists w', log. split; [exact Hrun|]. split; [|exact Hobjects].
  rewrite Hhooks, Rig_started_active. reflexivity.
Defined.

Lemma session_keeps_painting_witness :
  is_done (paintGL (Rig.platform true) Rig.started) = true
  /\ is_done (session_on
                [(Rig.platform true, Act_paintGL);
                 (Rig.platform true, Act_RotateEyes F32.zero (F32.of_Z 180) F32.zero);
                 (Rig.platform false, Act_TranslateEyes F32.one F32.zero F32.zero);
                 (Rig.platform false, Act_paintGL);
                 (Cases.second_headset, Act_ResetEyesPositions);
                 (Cases.second_headset, Act_ResetEyesRotations);
                 (Cases.second_headset, Act_paintGL)]
                Rig.started) = true.
Proof.
  assert (Hdone : is_done (paintGL (Rig.platform true) Rig.started) = true)
    by (vm_compute; reflexivity).
  split; [exact Hdone|].
  destruct (session_keeps_painting (Rig.platform true)
              [(Rig.platform true, Act_paintGL);
               (Rig.platform true, Act_RotateEyes F32.zero (F32.of_Z 180) F32.zero);
               (Rig.platform false, Act_TranslateEyes F32.one F32.zero F32.zero);
               (Rig.platform false, Act_paintGL);
               (Cases.second_headset, Act_ResetEyesPositions);
               (Cases.second_headset, Act_ResetEyesRotations);
               (Cases.second_headset, Act_paintGL)]
              Rig.started Hdone) as (w' & log & -> & _).
  - intros _ step Hin Hpaint. cbn [In] in Hin.
    repeat (destruct Hin as [<-|Hin]; [first [discriminate Hpaint | reflexivity]|]).
    contradiction.
  - reflexivity.
Defined.

Lemma InitializeEyesRendering_eye_size_witness :
  vr_active Rig.started = true
  /\ exists (ok : bool) (w' : Widget) (log : list Event),
       InitializeEyesRendering (Rig.platform true) Rig.started = Done ok w' log
       /\ length (created log) = 4%nat.
Proof.
  split; [exact Rig_started_active|].
  destruct (InitializeEyesRendering_eye_size (Rig.platform true) Rig.started
              Rig_started_active) as (ok & w' & log & Hrun & Hlen & _).
  exists ok, w', log. split; [exact Hrun | exact Hlen].
Defined.

(** With the headset at index 0 untracked and a second device of class
    HMD tracked at index 5, [m_hmdPose] becomes the inverse of the stale
    matrix at index 0, not of the pose of device 5. *)
Lemma UpdatePositions_second_headset :
  option_map m_hmdPose
    (final_widget (UpdatePositions Cases.second_headset Rig.started))
  = Some (QMatrix4x4_inverted (m_matrixDevicePose Rig.started k_unTrackedDeviceIndex_Hmd))
  /\ QMatrix4x4_inverted (m_matrixDevicePose Rig.started k_unTrackedDeviceIndex_Hmd)
     <> QMatrix4x4_inverted
          (vrMatrixToQt34 (mDeviceToAbsoluteTracking (WaitGetPoses Cases.second_headset 5))).
Proof.
  split; [vm_compute; reflexivity | vm_compute; discriminate].
Qed.

(** One frame of the started widget, for the lemmas on a widget's life. *)
Lemma Rig_life :
  exists (w1 w2 : Widget) (log1 log2 : list Event),
    initializeGL (Rig.platform true) COpenVROpenGLWidget = Done tt w1 log1
    /\ session (Rig.platform true) [Act_paintGL] w1 = Done tt w2 log2.
Proof.
  destruct Rig_started_run as [log1 Hinit].
  assert (Hdone : is_done (paintGL (Rig.platform true) Rig.started) = true)
    by (vm_compute; reflexivity).
  destruct (session_runs (Rig.platform true) [Act_paintGL] Rig.started Hdone)
    as (w2 & log2 & Hsession & _).
  exists Rig.started, w2, log1, log2. split; assumption.
Qed.

Lemma destructor_deletes_framebuffers_witness :
  exists (w1 w2 : Widget) (log1 log2 : list Event),
    initializeGL (Rig.platform true) COpenVROpenGLWidget = Done tt w1 log1
    /\ session (Rig.platform true) [Act_paintGL] w1 = Done tt w2 log2
    /\ length (deleted_framebuffers (snd (ShutDownVR w2))) = 4%nat.
Proof.
  destruct Rig_life as (w1 & w2 & log1 & log2 & Hinit & Hsession).
  exists w1, w2, log1, log2. split; [exact Hinit|]. split; [exact Hsession|].
  destruct (destructor_deletes_framebuffers (Rig.platform true) [Act_paintGL]
              w1 w2 log1 log2 Hinit Hsession) as (Hperm & _ & Hlen).
  rewrite (Permutation_length Hperm), Hlen. reflexivity.
Defined.

Lemma VR_Shutdown_balance_witness :
  exists (w1 w2 : Widget) (log1 log2 : list Event),
    initializeGL (Rig.platform true) COpenVROpenGLWidget = Done tt w1 log1
    /\ session (Rig.platform true) [Act_paintGL] w1 = Done tt w2 log2
    /\ List.filter is_shutdown (log1 ++ log2) = []
    /\ shutdowns (snd (ShutDownVR w2)) = 1%nat.
Proof.
  destruct Rig_life as (w1 & w2 & log1 & log2 & Hinit & Hsession).
  exists w1, w2, log1, log2. split; [exact Hinit|]. split; [exact Hsession|].
  destruct (VR_Shutdown_balance (Rig.platform true) [Act_paintGL]
              w1 w2 log1 log2 Hinit Hsession) as (Hsum & Hdestructor & _).
  change (vr_initialized (Rig.platform true)) with true in Hsum.
  change (vr_available (Rig.platform true)) with true in Hdestructor.
  split; [|exact Hdestructor].
  rewrite Hdestructor in Hsum.
  destruct (List.filter is_shutdown (log1 ++ log2)) as [|e rest];
    [reflexivity | cbn [length] in Hsum; lia].
Defined.

(** Devices 1 and 2 are both filed under the right hand, and the model
    that was loaded for device 1 is never deleted. *)
Lemma destructor_deletes_slot_models_witness :
  exists (w1 : Widget) (log1 : list Event),
    initializeGL Cases.two_right_hands COpenVROpenGLWidget = Done tt w1 log1
    /\ session Cases.two_right_hands [] w1 = Done tt w1 []
    /\ (length (deleted_models (snd (ShutDownVR w1)))
        < length (List.filter is_new_program (log1 ++ [])))%nat.
Proof.
  assert (Hdone : is_done (initializeGL Cases.two_right_hands COpenVROpenGLWidget) = true)
    by (vm_compute; reflexivity).
  destruct (is_done_true _ Hdone) as ([] & w1 & log1 & Hinit).
  assert (Hsession : session Cases.two_right_hands [] w1 = Done tt w1 []) by reflexivity.
  exists w1, log1. split; [exact Hinit|]. split; [exact Hsession|].
  destruct (destructor_deletes_slot_models Cases.two_right_hands [] w1 w1 log1 []
              Hinit Hsession) as (_ & _ & _ & Hleak).
  apply (Hleak eq_refl 1%nat 2%nat Right); [unfold k_unMaxTrackedDeviceCount; lia|..];
    vm_compute; reflexivity.
Defined.

Lemma paintGL_controller_poses_witness :
  exists (w' : Widget) (log : list Event),
    paintGL (Rig.platform true) Rig.started = Done tt w' log
    /\ GetControllerPose Left w' = vrMatrixToQt34 (Rig.shift (-1) 1 0)
    /\ GetControllerPose Right w' = vrMatrixToQt34 (Rig.shift 1 1 0).
Proof.
  destruct Rig_frame_done as (w' & log & Hrun).
  exists w', log. split; [exact Hrun|].
  rewrite (paintGL_controller_poses (Rig.platform true) Rig.started w' log Left Hrun),
    (paintGL_controller_poses (Rig.platform true) Rig.started w' log Right Hrun),
    Rig_started_active.
  split; vm_compute; reflexivity.
Defined.

(** ** The render model class on the example driver *)

Lemma example_model_settles :
  settles (Detail.render_model_answer example_services "controller") 2.
Proof.
  split; [discriminate|]. intros i Hi. destruct i as [|[|i]]; [reflexivity | reflexivity | lia].
Qed.

Lemma example_texture_settles :
  settles (Detail.texture_answer example_services 7) 1.
Proof.
  split; [discriminate|]. intros i Hi. destruct i as [|i]; [reflexivity | lia].
Qed.

Lemma example_LoadModel :
  Detail.LoadModel example_services 5 "controller" (Some EmptyString)
  = Some (Some (built_model example_services "controller" (mkRenderModel_t 8 12 7)),
          Some "Success"%string,
          polled 2 (Detail.LoadRenderModel_Async "controller")
          ++ polled 1 (Detail.LoadTexture_Async 7)
          ++ building_calls example_services "controller" (mkRenderModel_t 8 12 7)
               (Detail.mkTextureMap 64 64)
          ++ [Detail.FreeRenderModel; Detail.FreeTexture]).
Proof.
  exact (LoadModel_loaded example_services "controller" (Some EmptyString) 5 2
           example_model_settles ltac:(lia) 1 example_texture_settles ltac:(lia)
           eq_refl eq_refl).
Qed.

Lemma LoadModel_error_handling_witness :
  settles (Detail.render_model_answer example_services "controller") 2
  /\ (2 < 5)%nat
  /\ Detail.LoadModel example_services 5 "controller" (Some EmptyString)
     = Some (Some (built_model example_services "controller" (mkRenderModel_t 8 12 7)),
             Some "Success"%string,
             polled 2 (Detail.LoadRenderModel_Async "controller")
             ++ polled 1 (Detail.LoadTexture_Async 7)
             ++ building_calls example_services "controller" (mkRenderModel_t 8 12 7)
                  (Detail.mkTextureMap 64 64)
             ++ [Detail.FreeRenderModel; Detail.FreeTexture]).
Proof.
  split; [exact example_model_settles|]. split; [lia|].
  destruct (LoadModel_error_handling example_services "controller" (Some EmptyString) 5 2
              example_model_settles ltac:(lia)) as (_ & Hloaded & _).
  destruct (Hloaded eq_refl (mkRenderModel_t 8 12 7) 1%nat eq_refl example_texture_settles
              ltac:(lia)) as (_ & Hok).
  exact (Hok eq_refl).
Defined.

Lemma LoadModel_as_the_widget_sees_it_witness :
  exists log' : list Event,
    LoadModel (Rig.platform true) "controller" Rig.started
    = Done (Some (mkCRenderModel "controller" 36)) Rig.started log'
    /\ resources log'
       = [E_newShaderProgram EmptyString; E_FreeRenderModel; E_FreeTexture].
Proof.
  pose proof example_LoadModel as Hrun.
  assert (Hmodel : forall km : nat,
            settles (Detail.render_model_answer example_services "controller") km ->
            km = 2%nat)
    by (intros km Hkm; exact (settles_unique _ _ _ Hkm example_model_settles)).
  destruct (LoadModel_as_the_widget_sees_it example_services (Rig.platform true)
              "controller" (Some EmptyString) 5 _ _ _ Rig.started Hrun) as (log' & Hsame & Hlog).
  - intros km Hkm. rewrite (Hmodel km Hkm). reflexivity.
  - intros km kt Hkm. rewrite (Hmodel km Hkm). intros Hkt.
    rewrite (settles_unique _ _ _ Hkt example_texture_settles). reflexivity.
  - exists log'. split; [exact Hsame|]. rewrite Hlog. vm_compute. reflexivity.
Defined.

Lemma Draw_leaves_witness :
  Detail.m_unVertexCount (built_model example_services "controller" (mkRenderModel_t 8 12 7))
  = Some 36
  /\ Detail.cull_face example_context = true
  /\ Detail.current_program example_context = 5
  /\ exists calls : list Detail.Call,
       Detail.Draw (built_model example_services "controller" (mkRenderModel_t 8 12 7))
                   QMatrix4x4_identity
       = Some calls
       /\ Detail.cull_face (Detail.gl_run example_context calls) = false
       /\ Detail.current_program (Detail.gl_run example_context calls) = 0.
Proof.
  split; [reflexivity|]. split; [reflexivity|]. split; [reflexivity|].
  destruct (Draw_leaves (built_model example_services "controller" (mkRenderModel_t 8 12 7))
              QMatrix4x4_identity 36 example_context eq_refl)
    as (calls & before_draw & after_draw & Hrun & _ & _ & _ & _ & _ & _ & _ & Hprogram
        & Hcull & _).
  exists calls. split; [exact Hrun|]. split; [exact Hcull | exact Hprogram].
Defined.

Lemma InitModel_then_Cleanup_witness :
  let this := fst (Detail.CRenderModel_new example_services "controller") in
  let init := Detail.InitModel example_services (mkRenderModel_t 8 12 7)
                (Detail.mkTextureMap 64 64) this in
  index_buffer_size (snd init) = Some 72
  /\ Detail.textures
       (Detail.gl_run example_context
          (snd init ++ snd (Detail.Cleanup (snd (fst init)))))
     = [1]
  /\ Detail.buffers
       (Detail.gl_run example_context
          (snd init ++ snd (Detail.Cleanup (snd (fst init)))))
     = [].
Proof.
  cbv zeta.
  destruct (InitModel_then_Cleanup example_services (mkRenderModel_t 8 12 7)
              (Detail.mkTextureMap 64 64)
              (fst (Detail.CRenderModel_new example_services "controller"))
              example_context QMatrix4x4_identity)
    as (_ & _ & _ & _ & Hsize & Hclean).
  destruct (Hsize ltac:(cbn; lia) ltac:(cbn; lia)) as (count & Hcount & Hbytes & _).
  injection Hcount as <-.
  destruct (Hclean ltac:(discriminate) ltac:(discriminate) ltac:(cbn; tauto)
              ltac:(cbn; tauto) ltac:(cbn; tauto)) as (_ & Hbuffers & Htextures & _).
  split; [exact Hbytes|]. split; [exact Htextures | exact Hbuffers].
Defined.
